(** * Rothermel / Albini surface fire spread: fuel weighting and aggregation

    A shallow embedding of the Python modules [model.py], [rothweights.py],
    [albini.py] and [fbp.py], and the properties of the fuel weighting engine,
    of the spread-rate models and of the facade accessors.

    Numbers.  The program computes with Python floats.  They are embedded as
    real numbers: rounding, overflow and NaN are outside the model.  What the
    interpreter raises on a float is kept: a division whose divisor is zero
    raises [ZeroDivisionError], [math.pow] raises [ValueError] on a zero base
    with a negative exponent and on a negative base with a fractional
    exponent, [math.sqrt] raises [ValueError] below zero.
    A test that the interpreter makes on a computed number (a divisor
    against zero, a sign, a whole exponent) is made here on the exact value.
    Several statements below therefore keep their inputs away from such a
    boundary by a margin (a sigma away from the zero of a divisor, a
    moisture one hundredth away from the extinction moisture, loadings that
    are not negative so that sums do not cancel), and compare two computed
    outputs within a relative 1e-9 rather than by equality.

    Objects.  An attribute that the constructor sets to [None], or that does
    not exist before some setter has run, is an [option]; reading it for
    arithmetic while it is unset raises ([TypeError] for [None],
    [AttributeError] for a missing attribute).

    Dictionaries.  A Python [dict] iterates in insertion order and the
    accumulation loops of the program follow that order, so a dictionary is
    an association list without repeated keys: [dict_set] overwrites in place
    or appends at the end.

    Particles.  A [Fuel] object stored in the particle map is a value: each
    slot of the map holds a particle of its own, as in the fuel model
    factories, which build a new object for every slot.

    Exceptions.  A method is a function from the object to a [result]: the
    updated object (and the returned value, if any) or the exception. *)

From Stdlib Require Import Reals Lra List String Bool.
Import ListNotations.
Open Scope string_scope.
Open Scope list_scope.
Open Scope R_scope.

(** ** Exceptions *)

Inductive PyErr : Type :=
| ZeroDivisionError
| ValueError
| KeyError
| TypeError
| AttributeError.

Inductive result (A : Type) : Type :=
| Ok (a : A)
| Err (e : PyErr).

Arguments Ok {A} a.
Arguments Err {A} e.

Definition bind {A B : Type} (m : result A) (k : A -> result B) : result B :=
  match m with
  | Ok a => k a
  | Err e => Err e
  end.

Notation "x <- m ;; k" := (bind m (fun x => k))
  (at level 61, m at next level, right associativity).
Notation "' pat <- m ;; k" := (bind m (fun x => match x with pat => k end))
  (at level 61, pat pattern, m at next level, right associativity).


Definition is_err {A : Type} (m : result A) : Prop :=
  exists e, m = Err e.

(** Reading an attribute that may hold [None] ([TypeError] when used as a
    number) or that may not exist yet ([AttributeError]). *)
Definition num (o : option R) : result R :=
  match o with
  | Some r => Ok r
  | None => Err TypeError
  end.

Definition attr {A : Type} (o : option A) : result A :=
  match o with
  | Some a => Ok a
  | None => Err AttributeError
  end.

(** ** Float operations that can raise *)

(** [a / b] *)
Definition py_div (a b : R) : result R :=
  if Req_dec_T b 0 then Err ZeroDivisionError else Ok (a / b).

(** The exponent is a whole number. *)
Definition is_integral (y : R) : bool :=
  if Req_dec_T (frac_part y) 0 then true else false.

(** [math.pow(x, y)] *)
Definition py_pow (x y : R) : result R :=
  if Rlt_dec 0 x then Ok (Rpower x y)
  else if Req_dec_T x 0 then
    (if Rlt_dec y 0 then Err ValueError
     else if Req_dec_T y 0 then Ok 1 else Ok 0)
  else
    (if is_integral y then Ok (powerRZ x (Int_part y)) else Err ValueError).

(** [math.sqrt(x)] *)
Definition py_sqrt (x : R) : result R :=
  if Rlt_dec x 0 then Err ValueError else Ok (sqrt x).

(** [math.radians(x)] *)
Definition radians (x : R) : R := x * PI / 180.

(** ** Dictionaries *)

Definition dict (A : Type) : Type := list (string * A).

Fixpoint dict_find {A : Type} (k : string) (d : dict A) : option A :=
  match d with
  | [] => None
  | (k', v) :: d' => if String.eqb k k' then Some v else dict_find k d'
  end.

(** [k in d] *)
Definition dict_mem {A : Type} (k : string) (d : dict A) : bool :=
  match dict_find k d with
  | Some _ => true
  | None => false
  end.

(** [d[k]] *)
Definition dict_get {A : Type} (k : string) (d : dict A) : result A :=
  match dict_find k d with
  | Some v => Ok v
  | None => Err KeyError
  end.

(** [d[k] = v] *)
Fixpoint dict_set {A : Type} (k : string) (v : A) (d : dict A) : dict A :=
  match d with
  | [] => [(k, v)]
  | (k', v') :: d' =>
      if String.eqb k k' then (k, v) :: d' else (k', v') :: dict_set k v d'
  end.

Definition dict_keys {A : Type} (d : dict A) : list string := map fst d.

Definition dict_values {A : Type} (d : dict A) : list A := map snd d.

(** A loop [for x in l: body] over a state [S], stopping at the first
    exception. *)
Fixpoint for_each {X S : Type} (body : X -> S -> result S) (l : list X) (s : S)
  : result S :=
  match l with
  | [] => Ok s
  | x :: l' => s' <- body x s ;; for_each body l' s'
  end.

(** ** model.py: fuels *)

(** The class of a fuel object selects [calcNetFuelLoading] and
    [calcExponentA].  In the base class [Fuel] both are [None]. *)
Inductive FuelClass : Type :=
| FuelBase
| RothermelFuel
| AlbiniFuel.

(** [RothermelExponentA] *)
Definition RothermelExponentA (sigma : R) : result R :=
  p <- py_pow sigma 0.1 ;;
  py_div 1 (4.77 * p - 7.27).

(** [AlbiniExponentA] *)
Definition AlbiniExponentA (sigma : R) : result R :=
  p <- py_pow sigma (-0.7913) ;;
  Ok (133 * p).

Module Fuel.

Record t : Type := mk {
  class : FuelClass;
  ovendryLoading : option R;
  bulkDensity : option R;
  extMoisture : option R;
  fuelMoisture : option R;
  sigma : option R;
  particleDensity : R;
  totMineralContent : R;
  effMineralContent : R;
  heatContent : R;
  (* attributes that exist only after the setter that computes them *)
  packingRatio : option R;
  optimalPacking : option R;
  maxPotentialVelocity : option R;
  exponentA : option R;
  heatingEfficiency : option R;
  heatOfIgnition : option R;
  netFuelLoading : option R
}.

Definition with_sigma (v : option R) (f : t) : t :=
  mk (class f) (ovendryLoading f) (bulkDensity f) (extMoisture f)
     (fuelMoisture f) v (particleDensity f) (totMineralContent f)
     (effMineralContent f) (heatContent f) (packingRatio f)
     (optimalPacking f) (maxPotentialVelocity f) (exponentA f)
     (heatingEfficiency f) (heatOfIgnition f) (netFuelLoading f).

Definition with_optimalPacking (v : option R) (f : t) : t :=
  mk (class f) (ovendryLoading f) (bulkDensity f) (extMoisture f)
     (fuelMoisture f) (sigma f) (particleDensity f) (totMineralContent f)
     (effMineralContent f) (heatContent f) (packingRatio f)
     v (maxPotentialVelocity f) (exponentA f)
     (heatingEfficiency f) (heatOfIgnition f) (netFuelLoading f).

Definition with_maxPotentialVelocity (v : option R) (f : t) : t :=
  mk (class f) (ovendryLoading f) (bulkDensity f) (extMoisture f)
     (fuelMoisture f) (sigma f) (particleDensity f) (totMineralContent f)
     (effMineralContent f) (heatContent f) (packingRatio f)
     (optimalPacking f) v (exponentA f)
     (heatingEfficiency f) (heatOfIgnition f) (netFuelLoading f).

Definition with_exponentA (v : option R) (f : t) : t :=
  mk (class f) (ovendryLoading f) (bulkDensity f) (extMoisture f)
     (fuelMoisture f) (sigma f) (particleDensity f) (totMineralContent f)
     (effMineralContent f) (heatContent f) (packingRatio f)
     (optimalPacking f) (maxPotentialVelocity f) v
     (heatingEfficiency f) (heatOfIgnition f) (netFuelLoading f).

Definition with_heatingEfficiency (v : option R) (f : t) : t :=
  mk (class f) (ovendryLoading f) (bulkDensity f) (extMoisture f)
     (fuelMoisture f) (sigma f) (particleDensity f) (totMineralContent f)
     (effMineralContent f) (heatContent f) (packingRatio f)
     (optimalPacking f) (maxPotentialVelocity f) (exponentA f)
     v (heatOfIgnition f) (netFuelLoading f).

Definition with_netFuelLoading (v : option R) (f : t) : t :=
  mk (class f) (ovendryLoading f) (bulkDensity f) (extMoisture f)
     (fuelMoisture f) (sigma f) (particleDensity f) (totMineralContent f)
     (effMineralContent f) (heatContent f) (packingRatio f)
     (optimalPacking f) (maxPotentialVelocity f) (exponentA f)
     (heatingEfficiency f) (heatOfIgnition f) v.

(** [self.calcExponentA()] as the class binds it, on the stored [sigma]. *)
Definition calcExponentA (self : t) : result t :=
  match class self with
  | FuelBase => Err TypeError
  | RothermelFuel =>
      s <- num (sigma self) ;;
      a <- RothermelExponentA s ;;
      Ok (with_exponentA (Some a) self)
  | AlbiniFuel =>
      s <- num (sigma self) ;;
      a <- AlbiniExponentA s ;;
      Ok (with_exponentA (Some a) self)
  end.

(** [self.calcNetFuelLoading()] as the class binds it:
    [RothermelNetFuelLoading] or [AlbiniNetFuelLoading]. *)
Definition calcNetFuelLoading (self : t) : result t :=
  match class self with
  | FuelBase => Err TypeError
  | RothermelFuel =>
      w <- num (ovendryLoading self) ;;
      n <- py_div w (1 + totMineralContent self) ;;
      Ok (with_netFuelLoading (Some n) self)
  | AlbiniFuel =>
      w <- num (ovendryLoading self) ;;
      Ok (with_netFuelLoading (Some (w * (1 - totMineralContent self))) self)
  end.

(** [setSigma], statement by statement.  The result is the object as the
    call leaves it, and the exception if one was raised: the attributes
    assigned before the failing statement keep their new value. *)
Definition setSigma_run (sg : R) (self : t) : t * option PyErr :=
  let s1 := with_sigma (Some sg) self in
  match py_pow sg (-0.8189) with
  | Err e => (s1, Some e)
  | Ok p =>
      let s2 := with_optimalPacking (Some (3.348 * p)) s1 in
      match py_pow sg 1.5 with
      | Err e => (s2, Some e)
      | Ok sigma15 =>
          match py_div sigma15 (495 + 0.0594 * sigma15) with
          | Err e => (s2, Some e)
          | Ok v =>
              let s3 := with_maxPotentialVelocity (Some v) s2 in
              match calcExponentA s3 with
              | Err e => (s3, Some e)
              | Ok s4 =>
                  match py_div (-138) sg with
                  | Err e => (s4, Some e)
                  | Ok q => (with_heatingEfficiency (Some (exp q)) s4, None)
                  end
              end
          end
      end
  end.

(** [setSigma] as a call that returns or raises. *)
Definition setSigma (sg : R) (self : t) : result t :=
  match setSigma_run sg self with
  | (s, None) => Ok s
  | (_, Some e) => Err e
  end.


(** [setFuelMoisture(fuel, extinction=None)] *)
Definition setFuelMoisture (fuel : R) (extinction : option R) (self : t) : t :=
  mk (class self) (ovendryLoading self) (bulkDensity self) extinction
     (Some fuel) (sigma self) (particleDensity self) (totMineralContent self)
     (effMineralContent self) (heatContent self) (packingRatio self)
     (optimalPacking self) (maxPotentialVelocity self) (exponentA self)
     (heatingEfficiency self) (Some (250 + 1116 * fuel))
     (netFuelLoading self).

(** [setMineralContent(total, eff)] *)
Definition setMineralContent (total eff : R) (self : t) : t :=
  mk (class self) (ovendryLoading self) (bulkDensity self) (extMoisture self)
     (fuelMoisture self) (sigma self) (particleDensity self) total
     eff (heatContent self) (packingRatio self)
     (optimalPacking self) (maxPotentialVelocity self) (exponentA self)
     (heatingEfficiency self) (heatOfIgnition self) (netFuelLoading self).

(** [setHeatContent(heat)] *)
Definition setHeatContent (heat : R) (self : t) : t :=
  mk (class self) (ovendryLoading self) (bulkDensity self) (extMoisture self)
     (fuelMoisture self) (sigma self) (particleDensity self)
     (totMineralContent self) (effMineralContent self) heat
     (packingRatio self)
     (optimalPacking self) (maxPotentialVelocity self) (exponentA self)
     (heatingEfficiency self) (heatOfIgnition self) (netFuelLoading self).

(** [setLoading(loading)] *)
Definition setLoading (loading : R) (self : t) : t :=
  mk (class self) (Some loading) (bulkDensity self) (extMoisture self)
     (fuelMoisture self) (sigma self) (particleDensity self)
     (totMineralContent self) (effMineralContent self) (heatContent self)
     (packingRatio self)
     (optimalPacking self) (maxPotentialVelocity self) (exponentA self)
     (heatingEfficiency self) (heatOfIgnition self) (netFuelLoading self).

(** The object at the entry of [__init__], before any attribute exists.
    The numeric attributes that [__init__] always assigns are given the
    values it assigns at its end. *)
Definition blank (c : FuelClass) (loading : option R) : t :=
  mk c loading None None None None 32 0.0555 0.01 8000
     None None None None None None None.

(** [__init__(sigma=None, loading=None)]: the constructor of a fuel of class
    [c].  [setSigma] runs first when a sigma is given; the defaults follow. *)
Definition init (c : FuelClass) (sg loading : option R) : result t :=
  let self := blank c loading in
  self <- match sg with
          | Some s => setSigma s self
          | None => Ok (with_sigma None self)
          end ;;
  Ok (setHeatContent 8000 (setMineralContent 0.0555 0.01 self)).

End Fuel.

(** ** rothweights.py: the fuel complex *)

(** Fuel categories and size classes. *)
Definition DEAD : string := "dead".
Definition LIVE : string := "live".
Definition ONEHR : string := "1 hr".
Definition TENHR : string := "10 hr".
Definition HUNDREDHR : string := "100 hr".

(** [d[k] += x] *)
Definition dict_add (k : string) (x : R) (d : dict R) : result (dict R) :=
  v <- dict_get k d ;;
  Ok (dict_set k (v + x) d).

Module FuelComplex.

(** [RothermelFuelComplex] and [AlbiniFuelComplex] inherit from [Fuel]:
    [base] holds the inherited scalar attributes ([sigma], [bulkDensity],
    [packingRatio] and the geometry derived by [setSigma]); its class is
    [RothermelFuel] for a [RothermelFuelComplex] and [AlbiniFuel] for an
    [AlbiniFuelComplex], which rebinds [calcExponentA].  [extMoisture] is
    rebound to a dictionary by [__init__].  [heatContent], [netFuelLoading],
    [effMineralContent] and [fuelMoisture] are rebound to dictionaries by
    [aggregateIntoCategories]; [None] stands for the state before that. *)
Record t : Type := mk {
  base : Fuel.t;
  fuelParameters : dict (dict Fuel.t);
  extMoisture : dict R;
  depth : R;
  classAreas : dict (dict R);
  categoryAreas : dict R;
  totalArea : R;
  classWeighting : dict (dict R);
  categoryWeighting : dict R;
  heatContent : option (dict R);
  netFuelLoading : option (dict R);
  effMineralContent : option (dict R);
  fuelMoisture : option (dict R);
  (* AlbiniFuelComplex only *)
  wPrime : option R;
  mPrime : option R
}.

Definition with_base (v : Fuel.t) (c : t) : t :=
  mk v (fuelParameters c) (extMoisture c) (depth c) (classAreas c)
     (categoryAreas c) (totalArea c) (classWeighting c) (categoryWeighting c)
     (heatContent c) (netFuelLoading c) (effMineralContent c) (fuelMoisture c)
     (wPrime c) (mPrime c).

Definition with_fuelParameters (v : dict (dict Fuel.t)) (c : t) : t :=
  mk (base c) v (extMoisture c) (depth c) (classAreas c)
     (categoryAreas c) (totalArea c) (classWeighting c) (categoryWeighting c)
     (heatContent c) (netFuelLoading c) (effMineralContent c) (fuelMoisture c)
     (wPrime c) (mPrime c).

Definition with_extMoisture (v : dict R) (c : t) : t :=
  mk (base c) (fuelParameters c) v (depth c) (classAreas c)
     (categoryAreas c) (totalArea c) (classWeighting c) (categoryWeighting c)
     (heatContent c) (netFuelLoading c) (effMineralContent c) (fuelMoisture c)
     (wPrime c) (mPrime c).

Definition with_depth (v : R) (c : t) : t :=
  mk (base c) (fuelParameters c) (extMoisture c) v (classAreas c)
     (categoryAreas c) (totalArea c) (classWeighting c) (categoryWeighting c)
     (heatContent c) (netFuelLoading c) (effMineralContent c) (fuelMoisture c)
     (wPrime c) (mPrime c).

Definition with_classAreas (v : dict (dict R)) (c : t) : t :=
  mk (base c) (fuelParameters c) (extMoisture c) (depth c) v
     (categoryAreas c) (totalArea c) (classWeighting c) (categoryWeighting c)
     (heatContent c) (netFuelLoading c) (effMineralContent c) (fuelMoisture c)
     (wPrime c) (mPrime c).

Definition with_categoryAreas (v : dict R) (c : t) : t :=
  mk (base c) (fuelParameters c) (extMoisture c) (depth c) (classAreas c)
     v (totalArea c) (classWeighting c) (categoryWeighting c)
     (heatContent c) (netFuelLoading c) (effMineralContent c) (fuelMoisture c)
     (wPrime c) (mPrime c).

Definition with_totalArea (v : R) (c : t) : t :=
  mk (base c) (fuelParameters c) (extMoisture c) (depth c) (classAreas c)
     (categoryAreas c) v (classWeighting c) (categoryWeighting c)
     (heatContent c) (netFuelLoading c) (effMineralContent c) (fuelMoisture c)
     (wPrime c) (mPrime c).

Definition with_classWeighting (v : dict (dict R)) (c : t) : t :=
  mk (base c) (fuelParameters c) (extMoisture c) (depth c) (classAreas c)
     (categoryAreas c) (totalArea c) v (categoryWeighting c)
     (heatContent c) (netFuelLoading c) (effMineralContent c) (fuelMoisture c)
     (wPrime c) (mPrime c).

Definition with_categoryWeighting (v : dict R) (c : t) : t :=
  mk (base c) (fuelParameters c) (extMoisture c) (depth c) (classAreas c)
     (categoryAreas c) (totalArea c) (classWeighting c) v
     (heatContent c) (netFuelLoading c) (effMineralContent c) (fuelMoisture c)
     (wPrime c) (mPrime c).

(** The four per-category dictionaries of [aggregateIntoCategories]. *)
Definition with_aggregates (heat net eff moist : dict R) (c : t) : t :=
  mk (base c) (fuelParameters c) (extMoisture c) (depth c) (classAreas c)
     (categoryAreas c) (totalArea c) (classWeighting c) (categoryWeighting c)
     (Some heat) (Some net) (Some eff) (Some moist)
     (wPrime c) (mPrime c).

Definition with_wPrime (v : option R) (c : t) : t :=
  mk (base c) (fuelParameters c) (extMoisture c) (depth c) (classAreas c)
     (categoryAreas c) (totalArea c) (classWeighting c) (categoryWeighting c)
     (heatContent c) (netFuelLoading c) (effMineralContent c) (fuelMoisture c)
     v (mPrime c).

Definition with_mPrime (v : option R) (c : t) : t :=
  mk (base c) (fuelParameters c) (extMoisture c) (depth c) (classAreas c)
     (categoryAreas c) (totalArea c) (classWeighting c) (categoryWeighting c)
     (heatContent c) (netFuelLoading c) (effMineralContent c) (fuelMoisture c)
     (wPrime c) v.

(** [RothermelFuelComplex()] (class [RothermelFuel]) and
    [AlbiniFuelComplex()] (class [AlbiniFuel]).  [Fuel.__init__] runs without
    a sigma, so it cannot raise. *)
Definition init (c : FuelClass) : t :=
  mk (Fuel.setHeatContent 8000
        (Fuel.setMineralContent 0.0555 0.01
           (Fuel.with_sigma None (Fuel.blank c None))))
     [] [] 0 [] [] 0 [] [] None None None None None None.

(** [self.fuelParameters[category][sizeClass]] *)
Definition particle (category sizeClass : string) (self : t) : result Fuel.t :=
  classes <- dict_get category (fuelParameters self) ;;
  dict_get sizeClass classes.

(** [setFuelParams(category, fuelClass, fuel)] *)
Definition setFuelParams (category fuelClass : string) (fuel : Fuel.t)
    (self : t) : t :=
  let fp :=
    if negb (dict_mem category (fuelParameters self))
    then dict_set category [] (fuelParameters self)
    else fuelParameters self in
  match dict_find category fp with
  | Some classes =>
      with_fuelParameters
        (dict_set category (dict_set fuelClass fuel classes) fp) self
  | None => with_fuelParameters fp self
  end.

(** [setExtMoisture(category, moisture)] *)
Definition setExtMoisture (category : string) (moisture : R) (self : t) : t :=
  with_extMoisture (dict_set category moisture (extMoisture self)) self.

(** [setDepth(depth)] *)
Definition setDepth (d : R) (self : t) : t := with_depth d self.

(** [setFuelMoisture(category, sizeClass, moisture)]: the particle's own
    [setFuelMoisture] is called without an extinction moisture. *)
Definition setFuelMoisture (category sizeClass : string) (moisture : R)
    (self : t) : result t :=
  classes <- dict_get category (fuelParameters self) ;;
  fuel <- dict_get sizeClass classes ;;
  Ok (with_fuelParameters
        (dict_set category
           (dict_set sizeClass (Fuel.setFuelMoisture moisture None fuel)
              classes)
           (fuelParameters self))
        self).

(** [RothermelFuelComplex.calcLivingExtMoisture] (Rothermel eqn 88) *)
Definition calcLivingExtMoisture_Rothermel (self : t) : result t :=
  dead1 <- particle DEAD ONEHR self ;;
  live1 <- particle LIVE ONEHR self ;;
  wd <- num (Fuel.ovendryLoading dead1) ;;
  wl <- num (Fuel.ovendryLoading live1) ;;
  let totalMass := wd + wl in
  massRatio <- py_div wl totalMass ;;
  q <- py_div (1 - massRatio) massRatio ;;
  let ext := 2.9 * q in
  md <- num (Fuel.fuelMoisture dead1) ;;
  let ext := ext * (1 - (10 / 3) * md) in
  let ext := ext - 0.226 in
  Ok (setExtMoisture LIVE ext self).

(** [calcMeanSurfaceAreaOneClass(fuel)] (Rothermel eqn 53) *)
Definition calcMeanSurfaceAreaOneClass (fuel : Fuel.t) : result R :=
  s <- num (Fuel.sigma fuel) ;;
  w <- num (Fuel.ovendryLoading fuel) ;;
  py_div (s * w) (Fuel.particleDensity fuel).

(** [calcMeanSurfaceAreaOneCategory(category)] (eqn 54).  The loop state is
    [(total, curClass)]. *)
Definition calcMeanSurfaceAreaOneCategory (category : string) (self : t)
    : result t :=
  classes <- dict_get category (fuelParameters self) ;;
  '(total, curClass) <-
    for_each
      (fun (fuelClass : string * Fuel.t) (st : R * dict R) =>
         curArea <- calcMeanSurfaceAreaOneClass (snd fuelClass) ;;
         Ok (fst st + curArea, dict_set (fst fuelClass) curArea (snd st)))
      classes (0, []) ;;
  Ok (with_categoryAreas (dict_set category total (categoryAreas self))
        (with_classAreas (dict_set category curClass (classAreas self))
           self)).

(** The body of the loop of [calcMeanSurfaceArea]. *)
Definition meanSurfaceAreaStep (cat : string) (self : t) : result t :=
  self <- calcMeanSurfaceAreaOneCategory cat self ;;
  a <- dict_get cat (categoryAreas self) ;;
  Ok (with_totalArea (totalArea self + a) self).

(** [calcMeanSurfaceArea()] (eqn 55) *)
Definition calcMeanSurfaceArea (self : t) : result t :=
  let self := with_classAreas [] (with_categoryAreas []
                (with_totalArea 0 self)) in
  for_each meanSurfaceAreaStep (dict_keys (fuelParameters self)) self.

(** The body of the loop over the categories in
    [calcWeightingParameters]. *)
Definition weightingOneCategory (cat : string) (self : t) : result t :=
  (* eqn 57 *)
  a <- dict_get cat (categoryAreas self) ;;
  w <- py_div a (totalArea self) ;;
  let self :=
    with_categoryWeighting (dict_set cat w (categoryWeighting self)) self in
  areas <- dict_get cat (classAreas self) ;;
  catClassWeights <-
    for_each
      (fun (curClass : string * R) (acc : dict R) =>
         (* eqn 56 *)
         a <- dict_get cat (categoryAreas self) ;;
         w <- py_div (snd curClass) a ;;
         Ok (dict_set (fst curClass) w acc))
      areas [] ;;
  Ok (with_classWeighting
        (dict_set cat catClassWeights (classWeighting self)) self).

(** [calcWeightingParameters()] (eqns 56 and 57) *)
Definition calcWeightingParameters (self : t) : result t :=
  self <- calcMeanSurfaceArea self ;;
  let self := with_classWeighting [] (with_categoryWeighting [] self) in
  for_each weightingOneCategory (dict_keys (classAreas self)) self.

(** One pass of the inner loop of [aggregateIntoCategories]: the particle's
    net fuel loading is recomputed (and stored in the particle), then the
    four sums of the category grow by the weighted particle values. *)
Definition aggregateOneClass (cat : string) (j : string * R) (self : t)
    : result t :=
  let className := fst j in
  classes <- dict_get cat (fuelParameters self) ;;
  curFuel <- dict_get className classes ;;
  let curWgt := snd j in
  (* eqn 59 *)
  curFuel <- Fuel.calcNetFuelLoading curFuel ;;
  let self :=
    with_fuelParameters
      (dict_set cat (dict_set className curFuel classes)
         (fuelParameters self)) self in
  heat <- attr (heatContent self) ;;
  net <- attr (netFuelLoading self) ;;
  eff <- attr (effMineralContent self) ;;
  moist <- attr (fuelMoisture self) ;;
  n <- attr (Fuel.netFuelLoading curFuel) ;;
  net <- dict_add cat (curWgt * n) net ;;
  (* eqn 61 *)
  heat <- dict_add cat (curWgt * Fuel.heatContent curFuel) heat ;;
  (* eqn 63 *)
  eff <- dict_add cat (curWgt * Fuel.effMineralContent curFuel) eff ;;
  (* eqn 66 *)
  m <- num (Fuel.fuelMoisture curFuel) ;;
  moist <- dict_add cat (curWgt * m) moist ;;
  Ok (with_aggregates heat net eff moist self).

(** The body of the loop over the categories in
    [aggregateIntoCategories]. *)
Definition aggregateOneCategory (cat : string) (self : t) : result t :=
  heat <- attr (heatContent self) ;;
  net <- attr (netFuelLoading self) ;;
  eff <- attr (effMineralContent self) ;;
  moist <- attr (fuelMoisture self) ;;
  (* initialize to 0 *)
  let self :=
    with_aggregates (dict_set cat 0 heat) (dict_set cat 0 net)
      (dict_set cat 0 eff) (dict_set cat 0 moist) self in
  classWgts <- dict_get cat (classWeighting self) ;;
  for_each (aggregateOneClass cat) classWgts self.

(** [aggregateIntoCategories()] *)
Definition aggregateIntoCategories (self : t) : result t :=
  let self := with_aggregates [] [] [] [] self in
  for_each aggregateOneCategory (dict_keys (categoryWeighting self)) self.

(** The inner loop of [aggregateIntoComplex]; the state is
    [(catSigma, packingRatio, bulkDensity)]. *)
Definition complexOneClass (self : t) (cat : string) (j : string * R)
    (st : R * R * R) : result (R * R * R) :=
  let '(catSigma, packingRatio, bulkDensity) := st in
  let className := fst j in
  classes <- dict_get cat (fuelParameters self) ;;
  curFuel <- dict_get className classes ;;
  let curWgt := snd j in
  (* eqn 72 *)
  s <- num (Fuel.sigma curFuel) ;;
  let catSigma := catSigma + curWgt * s in
  (* eqn 73 *)
  w <- num (Fuel.ovendryLoading curFuel) ;;
  q <- py_div (curWgt * w) (Fuel.particleDensity curFuel) ;;
  let packingRatio := packingRatio + q in
  (* eqn 74 *)
  let bulkDensity := bulkDensity + curWgt * w in
  Ok (catSigma, packingRatio, bulkDensity).

(** The body of the loop over the categories in [aggregateIntoComplex];
    the state is [(sigma, packingRatio, bulkDensity)]. *)
Definition complexOneCategory (self : t) (i : string * R) (st : R * R * R)
    : result (R * R * R) :=
  let '(sigma, packingRatio, bulkDensity) := st in
  let cat := fst i in
  let catWeight := snd i in
  (* reset the per-category sums *)
  classWgts <- dict_get cat (classWeighting self) ;;
  '(catSigma, packingRatio, bulkDensity) <-
    for_each (complexOneClass self cat) classWgts
      (0, packingRatio, bulkDensity) ;;
  Ok (sigma + catWeight * catSigma, packingRatio, bulkDensity).

(** The statements of [aggregateIntoComplex] after its loops. *)
Definition storeComplex (st : R * R * R) (self : t) : result t :=
  let '(sigma, packingRatio, bulkDensity) := st in
  (* eqn 74 *)
  bd <- py_div bulkDensity (depth self) ;;
  (* eqn 73 *)
  pr <- py_div packingRatio (depth self) ;;
  let b := base self in
  let b :=
    Fuel.mk (Fuel.class b) (Fuel.ovendryLoading b) (Some bd)
      (Fuel.extMoisture b) (Fuel.fuelMoisture b) (Fuel.sigma b)
      (Fuel.particleDensity b) (Fuel.totMineralContent b)
      (Fuel.effMineralContent b) (Fuel.heatContent b) (Some pr)
      (Fuel.optimalPacking b) (Fuel.maxPotentialVelocity b)
      (Fuel.exponentA b) (Fuel.heatingEfficiency b) (Fuel.heatOfIgnition b)
      (Fuel.netFuelLoading b) in
  b <- Fuel.setSigma sigma b ;;
  Ok (with_base b self).

(** [aggregateIntoComplex()] *)
Definition aggregateIntoComplex (self : t) : result t :=
  st <- for_each (complexOneCategory self) (categoryWeighting self)
          (0, 0, 0) ;;
  storeComplex st self.

(** [compute()] *)
Definition compute (self : t) : result t :=
  self <- calcWeightingParameters self ;;
  self <- aggregateIntoCategories self ;;
  aggregateIntoComplex self.

(** ** albini.py: the Albini fuel complex *)

(** [calcWPrime()]: the numerator loop over the dead fuels, the denominator
    loop over the live fuels, then the quotient. *)
Definition wPrime_num (self : t) : result R :=
  deads <- dict_get DEAD (fuelParameters self) ;;
  for_each
    (fun (deadFuel : Fuel.t) (num_ : R) =>
       s <- num (Fuel.sigma deadFuel) ;;
       q <- py_div (-138) s ;;
       w <- num (Fuel.ovendryLoading deadFuel) ;;
       Ok (num_ + w * exp q))
    (dict_values deads) 0.

Definition wPrime_den (self : t) : result R :=
  lives <- dict_get LIVE (fuelParameters self) ;;
  for_each
    (fun (liveFuel : Fuel.t) (den : R) =>
       s <- num (Fuel.sigma liveFuel) ;;
       q <- py_div (-500) s ;;
       w <- num (Fuel.ovendryLoading liveFuel) ;;
       Ok (den + w * exp q))
    (dict_values lives) 0.

Definition calcWPrime (self : t) : result t :=
  num_ <- wPrime_num self ;;
  den <- wPrime_den self ;;
  w <- py_div num_ den ;;
  Ok (with_wPrime (Some w) self).

(** [calcMPrime()]; the loop state is [(num, den)]. *)
Definition calcMPrime (self : t) : result t :=
  deads <- dict_get DEAD (fuelParameters self) ;;
  '(num_, den) <-
    for_each
      (fun (deadFuel : Fuel.t) (st : R * R) =>
         s <- num (Fuel.sigma deadFuel) ;;
         q <- py_div (-138) s ;;
         w <- num (Fuel.ovendryLoading deadFuel) ;;
         let term := w * exp q in
         m <- num (Fuel.fuelMoisture deadFuel) ;;
         Ok (fst st + term * m, snd st + term))
      (dict_values deads) (0, 0) ;;
  m <- py_div num_ den ;;
  Ok (with_mPrime (Some m) self).

(** [AlbiniFuelComplex.calcLivingExtMoisture] (Albini, appendix III).  The
    guard is [not (LIVE in fuelParameters) or
    fuelParameters[LIVE][ONEHR].ovendryLoading == 0], evaluated left to
    right. *)
Definition calcLivingExtMoisture_Albini (self : t) : result t :=
  skip <-
    (if negb (dict_mem LIVE (fuelParameters self)) then Ok true
     else
       live1 <- particle LIVE ONEHR self ;;
       match Fuel.ovendryLoading live1 with
       | Some w => Ok (if Req_dec_T w 0 then true else false)
       | None => Ok false
       end) ;;
  if skip : bool then Ok self
  else
    self <- calcWPrime self ;;
    self <- calcMPrime self ;;
    wp <- attr (wPrime self) ;;
    let ext := 2.9 * wp in
    mp <- attr (mPrime self) ;;
    extDead <- dict_get DEAD (extMoisture self) ;;
    q <- py_div mp extDead ;;
    let ext := ext * (1 - q) in
    let ext := ext - 0.226 in
    Ok (setExtMoisture LIVE ext self).

(** [calcLivingExtMoisture()] as the class of the complex binds it. *)
Definition calcLivingExtMoisture (self : t) : result t :=
  match Fuel.class (base self) with
  | AlbiniFuel => calcLivingExtMoisture_Albini self
  | _ => calcLivingExtMoisture_Rothermel self
  end.

End FuelComplex.

(** ** model.py: the spread-rate model *)

Module Model.

(** The attributes of a [RothermelModel].  [F] is the type of the fuel
    ([Fuel.t], or the fuel complex for the weighted models) and [D] the type
    of a damping coefficient (a number, or a dictionary by category). *)
Record t (F D : Type) : Type := mk {
  fuel : F;
  windSpeed : R;
  windMultiplier : R;
  slopeRad : R;
  slopeMultiplier : R;
  (* attributes that exist only after the method that computes them *)
  midflameWind : option R;
  dampMoisture : option D;
  dampMineral : option D;
  potReactionVelocity : option R;
  reactionIntensity : option R;
  propFluxRatio : option R;
  noWindRos : option R;
  ros : option R
}.

Arguments mk {F D}.
Arguments fuel {F D}.
Arguments windSpeed {F D}.
Arguments windMultiplier {F D}.
Arguments slopeRad {F D}.
Arguments slopeMultiplier {F D}.
Arguments midflameWind {F D}.
Arguments dampMoisture {F D}.
Arguments dampMineral {F D}.
Arguments potReactionVelocity {F D}.
Arguments reactionIntensity {F D}.
Arguments propFluxRatio {F D}.
Arguments noWindRos {F D}.
Arguments ros {F D}.

Section Methods.

Context {F D : Type}.

(** The scalar attributes of [self.fuel] that the shared methods read: the
    fuel itself, or the inherited part of a fuel complex. *)
Variable scalars : F -> Fuel.t.

(** [__init__(fuel)] *)
Definition init (fuel : F) : t F D :=
  mk fuel 0 0 0 0 None None None None None None None None.

Definition with_fuel (v : F) (m : t F D) : t F D :=
  mk v (windSpeed m) (windMultiplier m) (slopeRad m) (slopeMultiplier m)
     (midflameWind m) (dampMoisture m) (dampMineral m)
     (potReactionVelocity m) (reactionIntensity m) (propFluxRatio m)
     (noWindRos m) (ros m).

Definition with_dampMoisture (v : option D) (m : t F D) : t F D :=
  mk (fuel m) (windSpeed m) (windMultiplier m) (slopeRad m)
     (slopeMultiplier m) (midflameWind m) v (dampMineral m)
     (potReactionVelocity m) (reactionIntensity m) (propFluxRatio m)
     (noWindRos m) (ros m).

Definition with_dampMineral (v : option D) (m : t F D) : t F D :=
  mk (fuel m) (windSpeed m) (windMultiplier m) (slopeRad m)
     (slopeMultiplier m) (midflameWind m) (dampMoisture m) v
     (potReactionVelocity m) (reactionIntensity m) (propFluxRatio m)
     (noWindRos m) (ros m).

Definition with_potReactionVelocity (v : option R) (m : t F D) : t F D :=
  mk (fuel m) (windSpeed m) (windMultiplier m) (slopeRad m)
     (slopeMultiplier m) (midflameWind m) (dampMoisture m) (dampMineral m)
     v (reactionIntensity m) (propFluxRatio m) (noWindRos m) (ros m).

Definition with_reactionIntensity (v : option R) (m : t F D) : t F D :=
  mk (fuel m) (windSpeed m) (windMultiplier m) (slopeRad m)
     (slopeMultiplier m) (midflameWind m) (dampMoisture m) (dampMineral m)
     (potReactionVelocity m) v (propFluxRatio m) (noWindRos m) (ros m).

Definition with_propFluxRatio (v : option R) (m : t F D) : t F D :=
  mk (fuel m) (windSpeed m) (windMultiplier m) (slopeRad m)
     (slopeMultiplier m) (midflameWind m) (dampMoisture m) (dampMineral m)
     (potReactionVelocity m) (reactionIntensity m) v (noWindRos m) (ros m).

Definition with_noWindRos (v : option R) (m : t F D) : t F D :=
  mk (fuel m) (windSpeed m) (windMultiplier m) (slopeRad m)
     (slopeMultiplier m) (midflameWind m) (dampMoisture m) (dampMineral m)
     (potReactionVelocity m) (reactionIntensity m) (propFluxRatio m) v
     (ros m).

Definition with_ros (v : option R) (m : t F D) : t F D :=
  mk (fuel m) (windSpeed m) (windMultiplier m) (slopeRad m)
     (slopeMultiplier m) (midflameWind m) (dampMoisture m) (dampMineral m)
     (potReactionVelocity m) (reactionIntensity m) (propFluxRatio m)
     (noWindRos m) v.

(** [calcPotReactionVelocity()] (Rothermel eqn 38) *)
Definition calcPotReactionVelocity (self : t F D) : result (t F D) :=
  let f := scalars (fuel self) in
  pr <- attr (Fuel.packingRatio f) ;;
  op <- attr (Fuel.optimalPacking f) ;;
  ratio <- py_div pr op ;;
  mv <- attr (Fuel.maxPotentialVelocity f) ;;
  a <- attr (Fuel.exponentA f) ;;
  p <- py_pow ratio a ;;
  Ok (with_potReactionVelocity (Some (mv * p * exp (a * (1 - ratio)))) self).

(** [calcPropFluxRatio()] (eqn 42) *)
Definition calcPropFluxRatio (self : t F D) : result (t F D) :=
  let f := scalars (fuel self) in
  s <- num (Fuel.sigma f) ;;
  r <- py_sqrt s ;;
  pr <- attr (Fuel.packingRatio f) ;;
  let exponential := (0.792 + 0.681 * r) * (pr + 0.1) in
  q <- py_div (exp exponential) (192 + 0.259 * s) ;;
  Ok (with_propFluxRatio (Some q) self).

(** [setWind(midflameWind)] (eqns 47-50) *)
Definition setWind (wind : R) (self : t F D) : result (t F D) :=
  let f := scalars (fuel self) in
  s <- num (Fuel.sigma f) ;;
  p55 <- py_pow s 0.55 ;;
  let C := 7.47 * exp (-0.133 * p55) in
  p54 <- py_pow s 0.54 ;;
  let B := 0.02526 * p54 in
  let E := 0.715 * exp (-3.59e-4 * s) in
  pw <- py_pow wind B ;;
  pr <- attr (Fuel.packingRatio f) ;;
  op <- attr (Fuel.optimalPacking f) ;;
  ratio <- py_div pr op ;;
  pe <- py_pow ratio (- E) ;;
  Ok (mk (fuel self) (windSpeed self) (C * pw * pe) (slopeRad self)
         (slopeMultiplier self) (Some wind) (dampMoisture self)
         (dampMineral self) (potReactionVelocity self)
         (reactionIntensity self) (propFluxRatio self) (noWindRos self)
         (ros self)).

(** [setSlope(slope)] (eqn 51) *)
Definition setSlope (slope : R) (self : t F D) : result (t F D) :=
  let f := scalars (fuel self) in
  let tanSlope2 := tan slope in
  let tanSlope2 := tanSlope2 * tanSlope2 in
  pr <- attr (Fuel.packingRatio f) ;;
  p <- py_pow pr (-0.3) ;;
  Ok (mk (fuel self) (windSpeed self) (windMultiplier self) slope
         (5.275 * p * tanSlope2) (midflameWind self) (dampMoisture self)
         (dampMineral self) (potReactionVelocity self)
         (reactionIntensity self) (propFluxRatio self) (noWindRos self)
         (ros self)).

(** [calcRos()] (eqn 52) *)
Definition calcRos (self : t F D) : result (t F D) :=
  r0 <- attr (noWindRos self) ;;
  Ok (with_ros
        (Some (r0 * (1 + windMultiplier self + slopeMultiplier self))) self).

End Methods.

End Model.

(** The moisture damping polynomial of eqns 29 and 64, accumulated as the
    code does. *)
Definition moistureDampingOf (ratio : R) : R :=
  let d := 1 - 2.59 * ratio in
  let ratio2 := ratio * ratio in
  let d := d + 5.11 * ratio2 in
  let ratio3 := ratio2 * ratio in
  d - 3.52 * ratio3.

(** The class [RothermelModel] on a single fuel. *)
Module RothermelModel.

Definition t : Type := Model.t Fuel.t R.

Definition scalars (f : Fuel.t) : Fuel.t := f.

Definition init (fuel : Fuel.t) : t := Model.init fuel.

(** [calcMoistureDamping()] (eqn 29) *)
Definition calcMoistureDamping (self : t) : result t :=
  fm <- num (Fuel.fuelMoisture (Model.fuel self)) ;;
  em <- num (Fuel.extMoisture (Model.fuel self)) ;;
  ratio <- py_div fm em ;;
  Ok (Model.with_dampMoisture (Some (moistureDampingOf ratio)) self).

(** [calcMineralDamping()] (eqn 30) *)
Definition calcMineralDamping (self : t) : result t :=
  p <- py_pow (Fuel.effMineralContent (Model.fuel self)) (-0.19) ;;
  Ok (Model.with_dampMineral (Some (p * 0.174)) self).

(** [calcReactionIntensity()] (eqn 27) *)
Definition calcReactionIntensity (self : t) : result t :=
  n <- attr (Fuel.netFuelLoading (Model.fuel self)) ;;
  v <- attr (Model.potReactionVelocity self) ;;
  dmin <- attr (Model.dampMineral self) ;;
  dmoist <- attr (Model.dampMoisture self) ;;
  Ok (Model.with_reactionIntensity
        (Some (n * Fuel.heatContent (Model.fuel self) * v * dmin * dmoist))
        self).

(** [calcNoWindRos()] (eqn 43) *)
Definition calcNoWindRos (self : t) : result t :=
  ri <- attr (Model.reactionIntensity self) ;;
  pfr <- attr (Model.propFluxRatio self) ;;
  he <- attr (Fuel.heatingEfficiency (Model.fuel self)) ;;
  bd <- num (Fuel.bulkDensity (Model.fuel self)) ;;
  hi <- attr (Fuel.heatOfIgnition (Model.fuel self)) ;;
  r <- py_div (ri * pfr) (bd * he * hi) ;;
  Ok (Model.with_noWindRos (Some r) self).

(** [evaluate()]; the rate of spread is returned with the model. *)
Definition evaluate (self : t) : result (R * t) :=
  f <- Fuel.calcNetFuelLoading (Model.fuel self) ;;
  let self := Model.with_fuel f self in
  self <- Model.calcPropFluxRatio scalars self ;;
  self <- calcMineralDamping self ;;
  self <- calcMoistureDamping self ;;
  self <- Model.calcPotReactionVelocity scalars self ;;
  self <- calcReactionIntensity self ;;
  self <- calcNoWindRos self ;;
  self <- Model.calcRos self ;;
  r <- attr (Model.ros self) ;;
  Ok (r, self).

End RothermelModel.

(** ** rothweights.py and albini.py: the weighted models *)

(** The class of a weighted model selects [calcReactionIntensity]. *)
Inductive WeightedClass : Type :=
| WeightedRothermelModel
| WeightedAlbiniModel.

(** [d[k]] on an attribute of the complex that [aggregateIntoCategories]
    rebinds to a dictionary.  Before that, [netFuelLoading] does not exist
    ([AttributeError]) and [heatContent] is a float ([TypeError]). *)
Definition subscript (unbound : PyErr) (o : option (dict R)) (k : string)
  : result R :=
  match o with
  | Some d => dict_get k d
  | None => Err unbound
  end.

Module Weighted.

Definition t : Type := Model.t FuelComplex.t (dict R).

Definition scalars (c : FuelComplex.t) : Fuel.t := FuelComplex.base c.

Definition init (fuel : FuelComplex.t) : t := Model.init fuel.

(** [WeightedRothermelModel.calcMineralDamping()] (eqn 62) *)
Definition calcMineralDamping (self : t) : result t :=
  eff <- attr (FuelComplex.effMineralContent (Model.fuel self)) ;;
  d <- for_each
         (fun (i : string * R) (acc : dict R) =>
            p <- py_pow (snd i) (-0.19) ;;
            Ok (dict_set (fst i) (p * 0.174) acc))
         eff [] ;;
  Ok (Model.with_dampMineral (Some d) self).

(** [WeightedRothermelModel.calcMoistureDamping()] (eqn 64) *)
Definition calcMoistureDamping (self : t) : result t :=
  fms <- attr (FuelComplex.fuelMoisture (Model.fuel self)) ;;
  d <- for_each
         (fun (i : string * R) (acc : dict R) =>
            let category := fst i in
            let fuelMoisture := snd i in
            extMoisture <-
              dict_get category (FuelComplex.extMoisture (Model.fuel self)) ;;
            ratio <- py_div fuelMoisture extMoisture ;;
            Ok (dict_set category (moistureDampingOf ratio) acc))
         fms [] ;;
  Ok (Model.with_dampMoisture (Some d) self).

(** The loop of [WeightedRothermelModel.calcReactionIntensity] (eqn 58). *)
Definition intensityTerm_Rothermel (self : t) (category : string) (sum : R)
    : result R :=
  let c := Model.fuel self in
  cw <- dict_get category (FuelComplex.categoryWeighting c) ;;
  n <- subscript AttributeError (FuelComplex.netFuelLoading c) category ;;
  h <- subscript TypeError (FuelComplex.heatContent c) category ;;
  dmoist <- attr (Model.dampMoisture self) ;;
  dm <- dict_get category dmoist ;;
  dmin <- attr (Model.dampMineral self) ;;
  dn <- dict_get category dmin ;;
  Ok (sum + cw * n * h * dm * dn).

(** The loop of [WeightedAlbiniModel.calcReactionIntensity]. *)
Definition intensityTerm_Albini (self : t) (category : string) (sum : R)
    : result R :=
  let c := Model.fuel self in
  n <- subscript AttributeError (FuelComplex.netFuelLoading c) category ;;
  h <- subscript TypeError (FuelComplex.heatContent c) category ;;
  dmoist <- attr (Model.dampMoisture self) ;;
  dm <- dict_get category dmoist ;;
  dmin <- attr (Model.dampMineral self) ;;
  dn <- dict_get category dmin ;;
  Ok (sum + n * h * dm * dn).

(** [calcReactionIntensity()] of the class [cls]. *)
Definition calcReactionIntensity (cls : WeightedClass) (self : t)
    : result t :=
  dmoist <- attr (Model.dampMoisture self) ;;
  sum <- for_each
           (match cls with
            | WeightedRothermelModel => intensityTerm_Rothermel self
            | WeightedAlbiniModel => intensityTerm_Albini self
            end)
           (dict_keys dmoist) 0 ;;
  v <- attr (Model.potReactionVelocity self) ;;
  Ok (Model.with_reactionIntensity (Some (sum * v)) self).

(** The loops of [calcNoWindRos]: over the size classes of a category, and
    over the categories. *)
Definition sinksOneClass (c : FuelComplex.t) (category : string)
    (j : string * Fuel.t) (innerSum : R) : result R :=
  let sizeClass := fst j in
  let fuel := snd j in
  ws <- dict_get category (FuelComplex.classWeighting c) ;;
  w <- dict_get sizeClass ws ;;
  hi <- attr (Fuel.heatOfIgnition fuel) ;;
  he <- attr (Fuel.heatingEfficiency fuel) ;;
  Ok (innerSum + w * hi * he).

Definition sinksOneCategory (c : FuelComplex.t) (i : string * dict Fuel.t)
    (sinks : R) : result R :=
  let category := fst i in
  innerSum <- for_each (sinksOneClass c category) (snd i) 0 ;;
  cw <- dict_get category (FuelComplex.categoryWeighting c) ;;
  Ok (sinks + cw * innerSum).

(** [WeightedRothermelModel.calcNoWindRos()] (eqn 75).  The two models
    share it. *)
Definition calcNoWindRos (self : t) : result t :=
  let c := Model.fuel self in
  pfr <- attr (Model.propFluxRatio self) ;;
  ri <- attr (Model.reactionIntensity self) ;;
  let sources := pfr * ri in
  sinks <- for_each (sinksOneCategory c) (FuelComplex.fuelParameters c) 0 ;;
  r <- py_div sources sinks ;;
  Ok (Model.with_noWindRos (Some r) self).

(** [evaluate()], inherited from [RothermelModel]: the complex's
    [calcNetFuelLoading] does nothing. *)
Definition evaluate (cls : WeightedClass) (self : t) : result (R * t) :=
  self <- Model.calcPropFluxRatio scalars self ;;
  self <- calcMineralDamping self ;;
  self <- calcMoistureDamping self ;;
  self <- Model.calcPotReactionVelocity scalars self ;;
  self <- calcReactionIntensity cls self ;;
  self <- calcNoWindRos self ;;
  self <- Model.calcRos self ;;
  r <- attr (Model.ros self) ;;
  Ok (r, self).

End Weighted.

(** ** fbp.py: the facade *)

Module FBP.

(** A [RothermelFBP] or [AlbiniFBP].  [fireModel.fuel] and [fuelComplex] are
    one object, so the complex is kept once, inside the model.  The
    attributes [rateOfSpread], [heatPerArea], [slope] and [midflameWindSpeed]
    belong to the base class [FireBehaviorPrediction], whose module is not
    part of these files: they are fields that the properties quantify
    over. *)
Record t : Type := mk {
  class : WeightedClass;
  fireModel : option Weighted.t;
  slope : R;
  midflameWindSpeed : R;
  rateOfSpread : option R;
  heatPerArea : option R
}.

(** [self.fuelComplex] *)
Definition fuelComplex (self : t) : option FuelComplex.t :=
  option_map Model.fuel (fireModel self).

Definition with_outputs (ros hpa : option R) (self : t) : t :=
  mk (class self) (fireModel self) (slope self) (midflameWindSpeed self)
     ros hpa.

Definition with_fireModel (m : option Weighted.t) (self : t) : t :=
  mk (class self) m (slope self) (midflameWindSpeed self)
     (rateOfSpread self) (heatPerArea self).

(** [evaluate()] *)
Definition evaluate (self : t) : result t :=
  match rateOfSpread self, heatPerArea self with
  | None, None =>
      m <- attr (fireModel self) ;;
      (* aggregate the components into category and complex values *)
      c <- FuelComplex.compute (Model.fuel m) ;;
      (* live fuels: the live moisture of extinction *)
      c <- (if dict_mem LIVE (FuelComplex.fuelParameters c)
            then FuelComplex.calcLivingExtMoisture c
            else Ok c) ;;
      let m := Model.with_fuel c m in
      m <- Model.setSlope Weighted.scalars (radians (slope self)) m ;;
      m <- Model.setWind Weighted.scalars
             (midflameWindSpeed self * (5280 / 60)) m ;;
      '(_, m) <- Weighted.evaluate (class self) m ;;
      ri <- attr (Model.reactionIntensity m) ;;
      r <- attr (Model.ros m) ;;
      Ok (with_outputs (Some r) (Some ri) (with_fireModel (Some m) self))
  | _, _ => Ok self
  end.

(** [getRateOfSpread()]: the value returned and the facade afterwards. *)
Definition getRateOfSpread (self : t) : result (R * t) :=
  match rateOfSpread self with
  | Some r => Ok (r, self)
  | None =>
      self <- evaluate self ;;
      r <- num (rateOfSpread self) ;;
      let self :=
        if Rlt_dec r 0 then with_outputs (Some 0) (heatPerArea self) self
        else self in
      r <- num (rateOfSpread self) ;;
      Ok (r, self)
  end.

(** [getHeatPerArea()]: the value returned and the facade afterwards.  The
    cached branch returns [self.heatPerArea] as it is, [None] included. *)
Definition getHeatPerArea (self : t) : result (option R * t) :=
  match rateOfSpread self with
  | Some _ => Ok (heatPerArea self, self)
  | None =>
      self <- evaluate self ;;
      h <- num (heatPerArea self) ;;
      let self :=
        if Rlt_dec h 0 then with_outputs (rateOfSpread self) (Some 0) self
        else self in
      Ok (heatPerArea self, self)
  end.

End FBP.

(** ** nffl.py: fuel model factories

    The module globals [FuelComponent] and [FuelComplex] select the classes
    of the objects built; the facade sets both to the Rothermel or to the
    Albini classes, so one class parameter stands for the pair. *)

Definition FuelComponent (c : FuelClass) (sg w : R) : result Fuel.t :=
  Fuel.init c (Some sg) (Some w).

(** [nffl1()] *)
Definition nffl1 (c : FuelClass) : result FuelComplex.t :=
  let fuel := FuelComplex.init c in
  f1 <- FuelComponent c 3500 0.034 ;;
  let fuel := FuelComplex.setFuelParams DEAD ONEHR f1 fuel in
  let fuel := FuelComplex.setExtMoisture DEAD 0.12 fuel in
  Ok (FuelComplex.setDepth 1 fuel).

(** [nffl2()] *)
Definition nffl2 (c : FuelClass) : result FuelComplex.t :=
  let fuel := FuelComplex.init c in
  f1 <- FuelComponent c 3000 0.092 ;;
  let fuel := FuelComplex.setFuelParams DEAD ONEHR f1 fuel in
  f2 <- FuelComponent c 109 0.046 ;;
  let fuel := FuelComplex.setFuelParams DEAD TENHR f2 fuel in
  f3 <- FuelComponent c 30 0.023 ;;
  let fuel := FuelComplex.setFuelParams DEAD HUNDREDHR f3 fuel in
  f4 <- FuelComponent c 1500 0.023 ;;
  let fuel := FuelComplex.setFuelParams LIVE ONEHR f4 fuel in
  let fuel := FuelComplex.setExtMoisture DEAD 0.15 fuel in
  Ok (FuelComplex.setDepth 1 fuel).

(** ** Structural descriptions of the loops

    The loops of the fuel complex build dictionaries key by key.  On a
    well-formed dictionary (no key twice) they are traversals; the functions
    below are those traversals, with the exceptions in the order in which
    the loops raise them. *)

Definition wf_dict {A : Type} (d : dict A) : Prop := NoDup (dict_keys d).

Definition wf_dict2 {A : Type} (d : dict (dict A)) : Prop :=
  wf_dict d /\ Forall (fun kv => wf_dict (snd kv)) d.

(** The particle map of a complex: no category twice, no size class twice
    within a category. *)
Definition wf_params (fp : dict (dict Fuel.t)) : Prop := wf_dict2 fp.

Fixpoint mapM {A B : Type} (f : A -> result B) (l : list A)
  : result (list B) :=
  match l with
  | [] => Ok []
  | a :: l' => b <- f a ;; bs <- mapM f l' ;; Ok (b :: bs)
  end.

Definition dict_mapM {A B : Type} (f : A -> result B) (d : dict A)
  : result (dict B) :=
  mapM (fun kv => v <- f (snd kv) ;; Ok (fst kv, v)) d.

Definition dict_map {A B : Type} (f : A -> B) (d : dict A) : dict B :=
  map (fun kv => (fst kv, f (snd kv))) d.

(** A sum accumulated from [0.] in list order, as the loops do. *)
Definition sumL (l : list R) : R := fold_left Rplus l 0.

(** The mathematical sum. *)
Definition Rsum (l : list R) : R := fold_right Rplus 0 l.

(** The areas of all size classes, by category (eqn 53). *)
Definition areas_spec (fp : dict (dict Fuel.t)) : result (dict (dict R)) :=
  dict_mapM (dict_mapM FuelComplex.calcMeanSurfaceAreaOneClass) fp.

(** The area of each category (eqn 54) and the total area (eqn 55). *)
Definition categoryAreas_spec (ca : dict (dict R)) : dict R :=
  dict_map (fun areas => sumL (dict_values areas)) ca.

Definition totalArea_spec (ca : dict (dict R)) : R :=
  sumL (dict_values (categoryAreas_spec ca)).

(** The weight of each category and, within it, of each size class
    (eqns 57 and 56). *)
Definition weights_spec (ca : dict (dict R)) (total : R)
  : result (dict (R * dict R)) :=
  dict_mapM
    (fun areas =>
       w <- py_div (sumL (dict_values areas)) total ;;
       cw <- dict_mapM (fun a => py_div a (sumL (dict_values areas))) areas ;;
       Ok (w, cw))
    ca.

Definition calcWeightingParameters_spec (c : FuelComplex.t)
  : result FuelComplex.t :=
  ca <- areas_spec (FuelComplex.fuelParameters c) ;;
  ws <- weights_spec ca (totalArea_spec ca) ;;
  Ok (FuelComplex.with_classWeighting (dict_map snd ws)
        (FuelComplex.with_categoryWeighting (dict_map fst ws)
           (FuelComplex.with_classAreas ca
              (FuelComplex.with_categoryAreas (categoryAreas_spec ca)
                 (FuelComplex.with_totalArea (totalArea_spec ca) c))))).

(** ** Statements *)

(** The sigmas at which [calcExponentA] of a class returns: any positive
    sigma for Albini's formula; for Rothermel's eqn 39 the divisor
    [4.77 * sigma^0.1 - 7.27] must not vanish; the base class has no
    method. *)
Definition exponentA_defined (c : FuelClass) (sg : R) : Prop :=
  match c with
  | FuelBase => False
  | RothermelFuel => 4.77 * Rpower sg 0.1 - 7.27 <> 0
  | AlbiniFuel => True
  end.

(** The exponent A of a class where it is defined. *)
Definition exponentA_of (c : FuelClass) (sg : R) : R :=
  match c with
  | AlbiniFuel => 133 * Rpower sg (-0.7913)
  | _ => 1 / (4.77 * Rpower sg 0.1 - 7.27)
  end.

(** The sigma at which Rothermel's eqn 39 divides by zero. *)
Definition sigma_singular : R := Rpower (7.27 / 4.77) 10.

(** The sigmas at which [setSigma] of a class returns whatever the rounding
    of the divisor of eqn 39: positive and below the range where
    [sigma^1.5] overflows; for Rothermel's formula also away from the zero
    of [4.77 * sigma^0.1 - 7.27], which lies between 65 and 71.  The base
    class has no [calcExponentA]. *)
Definition sigma_regular (c : FuelClass) (sg : R) : Prop :=
  0 < sg <= 1e100 /\
  match c with
  | FuelBase => False
  | RothermelFuel => sg <= 65 \/ 71 <= sg
  | AlbiniFuel => True
  end.

(** The fuel that the constructor returns for a positive sigma at which the
    exponent A of the class is defined. *)
Definition fuel_of (c : FuelClass) (sg w : R) : Fuel.t :=
  Fuel.mk c (Some w) None None None (Some sg) 32 0.0555 0.01 8000 None
    (Some (3.348 * Rpower sg (-0.8189)))
    (Some (Rpower sg 1.5 / (495 + 0.0594 * Rpower sg 1.5)))
    (Some (exponentA_of c sg))
    (Some (exp (-138 / sg)))
    None None.

(** The complex that [nffl1()] returns. *)
Definition nffl1_complex (c : FuelClass) : FuelComplex.t :=
  FuelComplex.mk
    (Fuel.mk c None None None None None 32 0.0555 0.01 8000
       None None None None None None None)
    [(DEAD, [(ONEHR, fuel_of c 3500 0.034)])]
    [(DEAD, 0.12)] 1 [] [] 0 [] [] None None None None None None.

(** The complex that [nffl2()] returns. *)
Definition nffl2_complex (c : FuelClass) : FuelComplex.t :=
  FuelComplex.mk
    (Fuel.mk c None None None None None 32 0.0555 0.01 8000
       None None None None None None None)
    [(DEAD, [(ONEHR, fuel_of c 3000 0.092); (TENHR, fuel_of c 109 0.046);
             (HUNDREDHR, fuel_of c 30 0.023)]);
     (LIVE, [(ONEHR, fuel_of c 1500 0.023)])]
    [(DEAD, 0.15)] 1 [] [] 0 [] [] None None None None None None.

(** The surface areas of the particles of NFFL model 2. *)
Definition nffl2_areas : dict (dict R) :=
  [(DEAD, [(ONEHR, 3000 * 0.092 / 32); (TENHR, 109 * 0.046 / 32);
           (HUNDREDHR, 30 * 0.023 / 32)]);
   (LIVE, [(ONEHR, 1500 * 0.023 / 32)])].

(** The total ovendry loading of a category whose particles all have a
    loading, none of them negative. *)
Definition loading_value (f : Fuel.t) : R :=
  match Fuel.ovendryLoading f with
  | Some w => w
  | None => 0
  end.

Definition total_loading (classes : dict Fuel.t) : R :=
  Rsum (map loading_value (dict_values classes)).




(** *** Aggregation by category

    [aggregateIntoCategories] walks the weights of each category and looks
    the particles up by name.  The weights were built from the particle map,
    so both have the same keys in the same order, and the walk is a walk
    along the two dictionaries side by side. *)

(** The four sums of a category. *)
Record Aggregates : Type := mkAggregates {
  a_heat : R;
  a_net : R;
  a_eff : R;
  a_moist : R
}.

(** One particle: its net fuel loading is recomputed, then the sums grow. *)
Definition aggStep (f : Fuel.t) (w : R) (acc : Aggregates)
  : result (Fuel.t * Aggregates) :=
  f' <- Fuel.calcNetFuelLoading f ;;
  n <- attr (Fuel.netFuelLoading f') ;;
  m <- num (Fuel.fuelMoisture f') ;;
  Ok (f', mkAggregates (a_heat acc + w * Fuel.heatContent f')
            (a_net acc + w * n)
            (a_eff acc + w * Fuel.effMineralContent f')
            (a_moist acc + w * m)).

Fixpoint aggClasses (classes : dict Fuel.t) (cw : dict R) (acc : Aggregates)
  : result (dict Fuel.t * Aggregates) :=
  match classes, cw with
  | (k, f) :: classes', (_, w) :: cw' =>
      '(f', acc') <- aggStep f w acc ;;
      '(rest, acc'') <- aggClasses classes' cw' acc' ;;
      Ok ((k, f') :: rest, acc'')
  | _, _ => Ok (classes, acc)
  end.

Fixpoint aggCategories (fp : dict (dict Fuel.t)) (clw : dict (dict R))
  : result (dict (dict Fuel.t * Aggregates)) :=
  match fp, clw with
  | (cat, classes) :: fp', (_, cw) :: clw' =>
      r <- aggClasses classes cw (mkAggregates 0 0 0 0) ;;
      rs <- aggCategories fp' clw' ;;
      Ok ((cat, r) :: rs)
  | _, _ => Ok []
  end.

Definition aggregateIntoCategories_spec (c : FuelComplex.t)
  : result FuelComplex.t :=
  cats <- aggCategories (FuelComplex.fuelParameters c)
            (FuelComplex.classWeighting c) ;;
  Ok (FuelComplex.with_aggregates
        (dict_map (fun r => a_heat (snd r)) cats)
        (dict_map (fun r => a_net (snd r)) cats)
        (dict_map (fun r => a_eff (snd r)) cats)
        (dict_map (fun r => a_moist (snd r)) cats)
        (FuelComplex.with_fuelParameters (dict_map fst cats) c)).

(** The weights mirror the particle map: same categories, same size classes,
    in the same order. *)
Definition same_keys {A B : Type} (d1 : dict A) (d2 : dict B) : Prop :=
  dict_keys d1 = dict_keys d2.

Definition same_keys2 {A B : Type} (d1 : dict (dict A)) (d2 : dict (dict B))
  : Prop :=
  Forall2 (fun x y => fst x = fst y /\ same_keys (snd x) (snd y)) d1 d2.

(** *** Aggregation over the complex *)

(** One particle of [aggregateIntoComplex]. *)
Definition complexStep (f : Fuel.t) (w : R) (st : R * R * R)
  : result (R * R * R) :=
  let '(catSigma, packingRatio, bulkDensity) := st in
  s <- num (Fuel.sigma f) ;;
  wl <- num (Fuel.ovendryLoading f) ;;
  q <- py_div (w * wl) (Fuel.particleDensity f) ;;
  Ok (catSigma + w * s, packingRatio + q, bulkDensity + w * wl).

Fixpoint complexClasses (classes : dict Fuel.t) (cw : dict R)
    (st : R * R * R) : result (R * R * R) :=
  match classes, cw with
  | (_, f) :: classes', (_, w) :: cw' =>
      st' <- complexStep f w st ;;
      complexClasses classes' cw' st'
  | _, _ => Ok st
  end.

Fixpoint complexCategories (fp : dict (dict Fuel.t)) (catw : dict R)
    (clw : dict (dict R)) (st : R * R * R) : result (R * R * R) :=
  match fp, catw, clw with
  | (_, classes) :: fp', (_, catWeight) :: catw', (_, cw) :: clw' =>
      let '(sigma, packingRatio, bulkDensity) := st in
      '(catSigma, packingRatio, bulkDensity) <-
        complexClasses classes cw (0, packingRatio, bulkDensity) ;;
      complexCategories fp' catw' clw'
        (sigma + catWeight * catSigma, packingRatio, bulkDensity)
  | _, _, _ => Ok st
  end.

Definition aggregateIntoComplex_spec (c : FuelComplex.t)
  : result FuelComplex.t :=
  st <- complexCategories (FuelComplex.fuelParameters c)
          (FuelComplex.categoryWeighting c) (FuelComplex.classWeighting c)
          (0, 0, 0) ;;
  FuelComplex.storeComplex st c.

Definition compute_spec (c : FuelComplex.t) : result FuelComplex.t :=
  c <- calcWeightingParameters_spec c ;;
  c <- aggregateIntoCategories_spec c ;;
  aggregateIntoComplex_spec c.

(** *** A complex with a single particle *)

(** A fuel built by its constructor, then given mineral contents, a heat
    content and a moisture. *)
Definition ready_fuel (cls : FuelClass) (sg w m heat tot eff : R) : Fuel.t :=
  Fuel.setFuelMoisture m None
    (Fuel.setHeatContent heat
       (Fuel.setMineralContent tot eff (fuel_of cls sg w))).

(** The complex with that particle alone, in the dead category and the
    1-hr class, as the calls of [nffl1] assemble it. *)
Definition single_complex (cls : FuelClass) (f : Fuel.t) (ext dp : R)
  : FuelComplex.t :=
  FuelComplex.setDepth dp
    (FuelComplex.setExtMoisture DEAD ext
       (FuelComplex.setFuelParams DEAD ONEHR f (FuelComplex.init cls))).

(** The net fuel loading of a class. *)
Definition netLoading_of (cls : FuelClass) (w tot : R) : R :=
  match cls with
  | AlbiniFuel => w * (1 - tot)
  | _ => w / (1 + tot)
  end.

(** The complex after [compute()]. *)
Definition computed_single (cls : FuelClass) (sg w m heat tot eff ext dp : R)
  : FuelComplex.t :=
  FuelComplex.mk
    (Fuel.mk cls None (Some (w / dp)) None None (Some sg) 32 0.0555 0.01
       8000 (Some (w / 32 / dp))
       (Some (3.348 * Rpower sg (-0.8189)))
       (Some (Rpower sg 1.5 / (495 + 0.0594 * Rpower sg 1.5)))
       (Some (exponentA_of cls sg))
       (Some (exp (-138 / sg)))
       None None)
    [(DEAD,
      [(ONEHR,
        Fuel.with_netFuelLoading (Some (netLoading_of cls w tot))
          (ready_fuel cls sg w m heat tot eff))])]
    [(DEAD, ext)] dp
    [(DEAD, [(ONEHR, sg * w / 32)])] [(DEAD, sg * w / 32)] (sg * w / 32)
    [(DEAD, [(ONEHR, 1)])] [(DEAD, 1)]
    (Some [(DEAD, heat)]) (Some [(DEAD, netLoading_of cls w tot)])
    (Some [(DEAD, eff)]) (Some [(DEAD, m)])
    None None.

(** *** Closed forms of the spread-rate equations *)

(** eqn 42 *)
Definition propFluxRatio_of (sg pr : R) : R :=
  exp ((0.792 + 0.681 * sqrt sg) * (pr + 0.1)) / (192 + 0.259 * sg).

(** eqn 30 *)
Definition mineralDamping_of (eff : R) : R := Rpower eff (-0.19) * 0.174.

(** eqn 38, with the geometry that [setSigma] derives for the class. *)
Definition potReactionVelocity_of (cls : FuelClass) (sg pr : R) : R :=
  let ratio := pr / (3.348 * Rpower sg (-0.8189)) in
  Rpower sg 1.5 / (495 + 0.0594 * Rpower sg 1.5)
  * Rpower ratio (exponentA_of cls sg)
  * exp (exponentA_of cls sg * (1 - ratio)).

(** The reaction intensity of a single particle (eqn 27). *)
Definition intensity_single (cls : FuelClass)
    (sg w m heat tot eff ext dp : R) : R :=
  netLoading_of cls w tot * heat
  * potReactionVelocity_of cls sg (w / 32 / dp)
  * mineralDamping_of eff * moistureDampingOf (m / ext).


(** The conditions under which both models evaluate a single particle. *)
Definition evaluable (cls : FuelClass) (sg w m tot eff ext dp : R) : Prop :=
  cls <> FuelBase /\ 0 < sg /\ 0 < w /\ 0 < dp /\ 0 < eff /\ ext <> 0 /\
  250 + 1116 * m <> 0 /\ (cls = RothermelFuel -> 1 + tot <> 0) /\
  exponentA_defined cls sg.


(** *** Sums over the categories *)

(** [d[k]] for a key that the dictionary holds. *)
Definition dget (d : dict R) (k : string) : R :=
  match dict_find k d with
  | Some v => v
  | None => 0
  end.

(** The moisture damping coefficients of the categories (eqn 64). *)
Definition moistureDamping_by_category (ext fms : dict R) : dict R :=
  map (fun kv => (fst kv, moistureDampingOf (snd kv / dget ext (fst kv))))
    fms.

(** The term of a category in the reaction intensity: eqn 58 for the
    Rothermel model, and the same without the category weight for the
    Albini model. *)
Definition intensity_term (cls : WeightedClass) (cw n h dmo dmi : dict R)
    (k : string) : R :=
  match cls with
  | WeightedRothermelModel =>
      dget cw k * dget n k * dget h k * dget dmo k * dget dmi k
  | WeightedAlbiniModel => dget n k * dget h k * dget dmo k * dget dmi k
  end.

(** *** Wind and slope *)

(** The wind multiplier for a positive midflame wind (eqns 47-50) and the
    slope multiplier (eqn 51). *)
Definition windMultiplier_of (sg ratio wind : R) : R :=
  7.47 * exp (-0.133 * Rpower sg 0.55)
  * Rpower wind (0.02526 * Rpower sg 0.54)
  * Rpower ratio (- (0.715 * exp (-3.59e-4 * sg))).

Definition slopeMultiplier_of (pr slope : R) : R :=
  5.275 * Rpower pr (-0.3) * (tan slope * tan slope).

(** *** A facade over a single particle *)

(** A facade whose fuel model is the complex of one particle, before any
    output is computed. *)
Definition single_facade (wcls : WeightedClass) (cls : FuelClass)
    (sg w m heat tot eff ext dp slope wind : R) : FBP.t :=
  FBP.mk wcls
    (Some (Weighted.init
             (single_complex cls (ready_fuel cls sg w m heat tot eff)
                ext dp)))
    slope wind None None.

(** *** The complex after [compute()] *)

(** The complex that [calcWeightingParameters] and
    [aggregateIntoCategories] leave, from the areas [ca], the weights [ws]
    and the particles and sums [cats] of the categories. *)
Definition aggregated (c : FuelComplex.t) (ca : dict (dict R))
    (ws : dict (R * dict R)) (cats : dict (dict Fuel.t * Aggregates))
  : FuelComplex.t :=
  FuelComplex.with_aggregates
    (dict_map (fun r => a_heat (snd r)) cats)
    (dict_map (fun r => a_net (snd r)) cats)
    (dict_map (fun r => a_eff (snd r)) cats)
    (dict_map (fun r => a_moist (snd r)) cats)
    (FuelComplex.with_fuelParameters (dict_map fst cats)
       (FuelComplex.with_classWeighting (dict_map snd ws)
          (FuelComplex.with_categoryWeighting (dict_map fst ws)
             (FuelComplex.with_classAreas ca
                (FuelComplex.with_categoryAreas (categoryAreas_spec ca)
                   (FuelComplex.with_totalArea (totalArea_spec ca) c)))))).

(** Two particles that differ at most in their moisture and in what
    [setFuelMoisture] derives from it; a particle with a moisture keeps
    one. *)
Definition same_but_moisture (f f' : Fuel.t) : Prop :=
  Fuel.class f' = Fuel.class f /\
  Fuel.ovendryLoading f' = Fuel.ovendryLoading f /\
  Fuel.sigma f' = Fuel.sigma f /\
  Fuel.particleDensity f' = Fuel.particleDensity f /\
  Fuel.totMineralContent f' = Fuel.totMineralContent f /\
  Fuel.effMineralContent f' = Fuel.effMineralContent f /\
  Fuel.heatContent f' = Fuel.heatContent f /\
  (Fuel.fuelMoisture f <> None -> Fuel.fuelMoisture f' <> None).

Definition same_but_moisture1 (d d' : dict Fuel.t) : Prop :=
  Forall2 (fun x y => fst x = fst y /\ same_but_moisture (snd x) (snd y))
    d d'.

Definition same_but_moisture2 (d d' : dict (dict Fuel.t)) : Prop :=
  Forall2 (fun x y => fst x = fst y /\ same_but_moisture1 (snd x) (snd y))
    d d'.

(** *** The calls of [evaluate()] up to the reaction intensity *)

(** [evaluate()] of a weighted model up to and including
    [calcReactionIntensity()]. *)
Definition evaluate_to_intensity (cls : WeightedClass) (self : Weighted.t)
  : result Weighted.t :=
  self <- Model.calcPropFluxRatio Weighted.scalars self ;;
  self <- Weighted.calcMineralDamping self ;;
  self <- Weighted.calcMoistureDamping self ;;
  self <- Model.calcPotReactionVelocity Weighted.scalars self ;;
  Weighted.calcReactionIntensity cls self.

(** Two complexes with the same inherited scalars, extinction moistures,
    category weights and aggregates: all that the calls above read. *)
Definition same_aggregates (c c' : FuelComplex.t) : Prop :=
  FuelComplex.base c' = FuelComplex.base c /\
  FuelComplex.extMoisture c' = FuelComplex.extMoisture c /\
  FuelComplex.categoryWeighting c' = FuelComplex.categoryWeighting c /\
  FuelComplex.heatContent c' = FuelComplex.heatContent c /\
  FuelComplex.netFuelLoading c' = FuelComplex.netFuelLoading c /\
  FuelComplex.effMineralContent c' = FuelComplex.effMineralContent c /\
  FuelComplex.fuelMoisture c' = FuelComplex.fuelMoisture c.

(** *** Albini's live moisture of extinction *)

Definition sigma_value (f : Fuel.t) : R :=
  match Fuel.sigma f with
  | Some s => s
  | None => 0
  end.

Definition moisture_value (f : Fuel.t) : R :=
  match Fuel.fuelMoisture f with
  | Some m => m
  | None => 0
  end.

(** The term [w * exp(k / sigma)] of a particle in the sums of appendix
    III, and the sums over the particles of a category. *)
Definition albini_term (k : R) (f : Fuel.t) : R :=
  loading_value f * exp (k / sigma_value f).

Definition albini_sum (k : R) (classes : dict Fuel.t) : R :=
  Rsum (map (albini_term k) (dict_values classes)).

Definition albini_moisture_sum (classes : dict Fuel.t) : R :=
  Rsum (map (fun f => albini_term (-138) f * moisture_value f)
          (dict_values classes)).

(** W' and M' *)
Definition wPrime_of (deads lives : dict Fuel.t) : R :=
  albini_sum (-138) deads / albini_sum (-500) lives.

Definition mPrime_of (deads : dict Fuel.t) : R :=
  albini_moisture_sum deads / albini_sum (-138) deads.

(** A particle as the fuel models have them, with a sigma of at least 1 and
    a loading that is not negative; a dead one has a moisture as well. *)
Definition live_particle (f : Fuel.t) : Prop :=
  exists s w,
    Fuel.sigma f = Some s /\ 1 <= s /\
    Fuel.ovendryLoading f = Some w /\ 0 <= w.

Definition dead_particle (f : Fuel.t) : Prop :=
  live_particle f /\ exists m, Fuel.fuelMoisture f = Some m.

(** A particle with a non-zero sigma and a loading; a dead one has a
    moisture as well. *)
Definition live_measured (f : Fuel.t) : Prop :=
  (exists s, Fuel.sigma f = Some s /\ s <> 0) /\
  Fuel.ovendryLoading f <> None.

Definition dead_measured (f : Fuel.t) : Prop :=
  live_measured f /\ Fuel.fuelMoisture f <> None.

(** *** Particles with a surface area *)

(** A particle whose sigma and loading are set and not negative, with a
    positive particle density: its surface area is not negative. *)
Definition nonneg_particle (f : Fuel.t) : Prop :=
  exists s w,
    Fuel.sigma f = Some s /\ 0 <= s /\
    Fuel.ovendryLoading f = Some w /\ 0 <= w /\
    0 < Fuel.particleDensity f.

Definition unit_interval (x : R) : Prop := 0 <= x <= 1.

(** * Properties *)

(** ** Dictionaries *)

Lemma eqb_refl_str (k : string) : String.eqb k k = true.
Proof. apply String.eqb_refl. Qed.

Lemma dict_keys_app {A : Type} (d1 d2 : dict A) :
  dict_keys (d1 ++ d2) = dict_keys d1 ++ dict_keys d2.
Proof. unfold dict_keys. apply map_app. Qed.

Lemma dict_find_notin {A : Type} (k : string) (d : dict A) :
  ~ In k (dict_keys d) -> dict_find k d = None.
Proof.
  induction d as [|[k' v] d IH]; simpl; intros H; [reflexivity|].
  destruct (String.eqb_spec k k') as [->|Hne].
  - exfalso. apply H. now left.
  - apply IH. intros Hin. apply H. now right.
Qed.

Lemma dict_find_app_notin {A : Type} (k : string) (d1 d2 : dict A) :
  ~ In k (dict_keys d1) -> dict_find k (d1 ++ d2) = dict_find k d2.
Proof.
  induction d1 as [|[k' v] d1 IH]; simpl; intros H; [reflexivity|].
  destruct (String.eqb_spec k k') as [->|Hne].
  - exfalso. apply H. now left.
  - apply IH. intros Hin. apply H. now right.
Qed.

Lemma dict_find_mid {A : Type} (k : string) (v : A) (d1 d2 : dict A) :
  ~ In k (dict_keys d1) -> dict_find k (d1 ++ (k, v) :: d2) = Some v.
Proof.
  intros H. rewrite dict_find_app_notin by assumption.
  simpl. now rewrite eqb_refl_str.
Qed.

Lemma dict_set_notin {A : Type} (k : string) (v : A) (d : dict A) :
  ~ In k (dict_keys d) -> dict_set k v d = d ++ [(k, v)].
Proof.
  induction d as [|[k' v'] d IH]; simpl; intros H; [reflexivity|].
  destruct (String.eqb_spec k k') as [->|Hne].
  - exfalso. apply H. now left.
  - f_equal. apply IH. intros Hin. apply H. now right.
Qed.

Lemma dict_set_mid {A : Type} (k : string) (v0 v : A) (d1 d2 : dict A) :
  ~ In k (dict_keys d1) ->
  dict_set k v (d1 ++ (k, v0) :: d2) = d1 ++ (k, v) :: d2.
Proof.
  induction d1 as [|[k' v'] d1 IH]; simpl; intros H.
  - now rewrite eqb_refl_str.
  - destruct (String.eqb_spec k k') as [->|Hne].
    + exfalso. apply H. now left.
    + f_equal. apply IH. intros Hin. apply H. now right.
Qed.

Lemma dict_keys_map {A B : Type} (f : A -> B) (d : dict A) :
  dict_keys (dict_map f d) = dict_keys d.
Proof.
  unfold dict_keys, dict_map. rewrite map_map. reflexivity.
Qed.

Lemma dict_find_map {A B : Type} (f : A -> B) (k : string) (d : dict A) :
  dict_find k (dict_map f d) = option_map f (dict_find k d).
Proof.
  induction d as [|[k' v] d IH]; simpl; [reflexivity|].
  destruct (String.eqb k k'); [reflexivity|apply IH].
Qed.

Lemma dict_find_In {A : Type} (k : string) (v : A) (d : dict A) :
  dict_find k d = Some v -> In (k, v) d.
Proof.
  induction d as [|[k' v'] d IH]; simpl; [discriminate|].
  destruct (String.eqb_spec k k') as [->|Hne].
  - intros [= ->]. now left.
  - intros H. right. now apply IH.
Qed.

Lemma In_dict_find {A : Type} (k : string) (v : A) (d : dict A) :
  wf_dict d -> In (k, v) d -> dict_find k d = Some v.
Proof.
  unfold wf_dict. induction d as [|[k' v'] d IH]; simpl; [contradiction|].
  intros Hnd [Heq|Hin].
  - injection Heq as -> ->. now rewrite eqb_refl_str.
  - inversion Hnd as [|? ? Hni Hnd']; subst.
    destruct (String.eqb_spec k k') as [->|Hne].
    + exfalso. apply Hni. change (In k' (map fst d)).
      apply in_map_iff. now exists (k', v).
    + now apply IH.
Qed.

(** ** Traversals *)

Lemma mapM_keys {A B : Type} (f : A -> result B) (d : dict A) (d' : dict B) :
  dict_mapM f d = Ok d' -> dict_keys d' = dict_keys d.
Proof.
  unfold dict_mapM. revert d'.
  induction d as [|[k v] d IH]; simpl; intros d' H.
  - now injection H as <-.
  - destruct (f v) as [b|e]; simpl in H; [|discriminate].
    destruct (mapM _ d) as [bs|e]; simpl in H; [|discriminate].
    injection H as <-. simpl. f_equal. now apply IH.
Qed.

Lemma for_each_ext {X S : Type} (f g : X -> S -> result S) (l : list X) :
  (forall x s, In x l -> f x s = g x s) ->
  forall s, for_each f l s = for_each g l s.
Proof.
  induction l as [|x l IH]; simpl; intros H s; [reflexivity|].
  rewrite H by now left.
  destruct (g x s) as [s'|e]; simpl; [|reflexivity].
  apply IH. intros y s0 Hy. apply H. now right.
Qed.

(** A loop that stores one computed value per key of a well-formed
    dictionary appends the traversal to what was built before. *)
Lemma for_each_build {A B : Type} (f : A -> result B) (l : dict A)
    (acc : dict B) :
  NoDup (dict_keys acc ++ dict_keys l) ->
  for_each (fun kv acc => v <- f (snd kv) ;; Ok (dict_set (fst kv) v acc))
    l acc
  = (vs <- dict_mapM f l ;; Ok (acc ++ vs)).
Proof.
  unfold dict_mapM. revert acc.
  induction l as [|[k a] l IH]; simpl; intros acc Hnd.
  - now rewrite app_nil_r.
  - destruct (f a) as [b|e]; simpl; [|reflexivity].
    assert (Hk : ~ In k (dict_keys acc)).
    { intros Hin. apply NoDup_remove_2 in Hnd. apply Hnd.
      apply in_or_app. now left. }
    rewrite dict_set_notin by assumption.
    rewrite IH.
    + destruct (mapM _ l) as [bs|e]; simpl; [|reflexivity].
      now rewrite <- app_assoc.
    + rewrite dict_keys_app. simpl. rewrite <- app_assoc. simpl.
      assumption.
Qed.

Lemma sumL_from (l : list R) (a : R) :
  fold_left Rplus l a = a + Rsum l.
Proof.
  revert a. induction l as [|x l IH]; simpl; intros a.
  - lra.
  - rewrite IH. lra.
Qed.

Lemma sumL_Rsum (l : list R) : sumL l = Rsum l.
Proof. unfold sumL. rewrite sumL_from. lra. Qed.

(** ** Surface areas *)

Lemma areas_loop (classes : dict Fuel.t) (total : R) (cur : dict R) :
  NoDup (dict_keys cur ++ dict_keys classes) ->
  for_each
    (fun (fuelClass : string * Fuel.t) (st : R * dict R) =>
       curArea <- FuelComplex.calcMeanSurfaceAreaOneClass (snd fuelClass) ;;
       Ok (fst st + curArea, dict_set (fst fuelClass) curArea (snd st)))
    classes (total, cur)
  = (a <- dict_mapM FuelComplex.calcMeanSurfaceAreaOneClass classes ;;
     Ok (fold_left Rplus (dict_values a) total, cur ++ a)).
Proof.
  unfold dict_mapM. revert total cur.
  induction classes as [|[k f] classes IH]; simpl; intros total cur Hnd.
  - now rewrite app_nil_r.
  - destruct (FuelComplex.calcMeanSurfaceAreaOneClass f) as [a|e]; simpl;
      [|reflexivity].
    assert (Hk : ~ In k (dict_keys cur)).
    { intros Hin. apply NoDup_remove_2 in Hnd. apply Hnd.
      apply in_or_app. now left. }
    rewrite dict_set_notin by assumption.
    rewrite IH.
    + destruct (mapM _ classes) as [bs|e]; simpl; [|reflexivity].
      now rewrite <- app_assoc.
    + rewrite dict_keys_app. simpl. rewrite <- app_assoc. simpl.
      assumption.
Qed.

Lemma oneCategory_eq (category : string) (classes : dict Fuel.t)
    (self : FuelComplex.t) :
  dict_find category (FuelComplex.fuelParameters self) = Some classes ->
  wf_dict classes ->
  FuelComplex.calcMeanSurfaceAreaOneCategory category self
  = (a <- dict_mapM FuelComplex.calcMeanSurfaceAreaOneClass classes ;;
     Ok (FuelComplex.with_categoryAreas
           (dict_set category (sumL (dict_values a))
              (FuelComplex.categoryAreas self))
           (FuelComplex.with_classAreas
              (dict_set category a (FuelComplex.classAreas self)) self))).
Proof.
  intros Hf Hwf. unfold FuelComplex.calcMeanSurfaceAreaOneCategory, dict_get.
  rewrite Hf. simpl. rewrite areas_loop by (simpl; exact Hwf).
  destruct (dict_mapM _ classes) as [a|e]; reflexivity.
Qed.

Lemma wf_dict2_mid {A : Type} (done rest : dict (dict A)) (cat : string)
    (classes : dict A) :
  wf_dict2 (done ++ (cat, classes) :: rest) ->
  ~ In cat (dict_keys done) /\ wf_dict classes.
Proof.
  intros [Hnd Hall]. split.
  - unfold wf_dict in Hnd. rewrite dict_keys_app in Hnd. simpl in Hnd.
    intros Hin. apply NoDup_remove_2 in Hnd. apply Hnd.
    apply in_or_app. now left.
  - rewrite Forall_forall in Hall.
    apply (Hall (cat, classes)). apply in_or_app. right. now left.
Qed.

Lemma dict_get_mid {A : Type} (k : string) (v : A) (d1 d2 : dict A) :
  ~ In k (dict_keys d1) -> dict_get k (d1 ++ (k, v) :: d2) = Ok v.
Proof.
  intros H. unfold dict_get. now rewrite dict_find_mid.
Qed.

Lemma dict_get_In {A : Type} (k : string) (v : A) (d : dict A) :
  wf_dict d -> In (k, v) d -> dict_get k d = Ok v.
Proof.
  intros Hwf Hin. unfold dict_get. now rewrite (In_dict_find k v d).
Qed.

Lemma meanArea_loop (rest done : dict (dict Fuel.t)) (cad : dict (dict R))
    (c : FuelComplex.t) :
  FuelComplex.fuelParameters c = done ++ rest ->
  wf_params (done ++ rest) ->
  FuelComplex.classAreas c = cad ->
  FuelComplex.categoryAreas c = categoryAreas_spec cad ->
  dict_keys cad = dict_keys done ->
  for_each FuelComplex.meanSurfaceAreaStep (dict_keys rest) c
  = (ca <- areas_spec rest ;;
     Ok (FuelComplex.with_totalArea
           (fold_left Rplus (dict_values (categoryAreas_spec ca))
              (FuelComplex.totalArea c))
           (FuelComplex.with_categoryAreas (categoryAreas_spec (cad ++ ca))
              (FuelComplex.with_classAreas (cad ++ ca) c)))).
Proof.
  revert done cad c.
  induction rest as [|[cat classes] rest IH]; intros done cad c Hfp Hwf Hca Hcat Hk.
  - simpl. rewrite app_nil_r. destruct c; simpl in *; subst.
    reflexivity.
  - destruct (wf_dict2_mid _ _ _ _ Hwf) as [Hni Hwc].
    change (dict_keys ((cat, classes) :: rest)) with (cat :: dict_keys rest).
    cbn [for_each]. unfold FuelComplex.meanSurfaceAreaStep at 1.
    rewrite (oneCategory_eq cat classes c); [|rewrite Hfp; now apply dict_find_mid|assumption].
    unfold areas_spec. unfold dict_mapM at 2. cbn [mapM fst snd].
    fold (dict_mapM (dict_mapM FuelComplex.calcMeanSurfaceAreaOneClass) rest).
    fold (areas_spec rest).
    destruct (dict_mapM FuelComplex.calcMeanSurfaceAreaOneClass classes)
      as [a|e]; cbn [bind]; [|reflexivity].
    assert (Hni' : ~ In cat (dict_keys cad)) by now rewrite Hk.
    assert (Hni'' : ~ In cat (dict_keys (categoryAreas_spec cad))).
    { unfold categoryAreas_spec. now rewrite dict_keys_map. }
    destruct c; cbn in Hfp, Hca, Hcat |- *; subst.
    rewrite (dict_set_notin cat a cad) by assumption.
    rewrite (dict_set_notin cat _ (categoryAreas_spec cad)) by assumption.
    rewrite dict_get_mid by assumption. cbn [bind].
    match goal with
    | |- for_each _ _ ?c0 = _ =>
        rewrite (IH (done ++ [(cat, classes)]) (cad ++ [(cat, a)]) c0)
    end.
    + destruct (areas_spec rest) as [ca|e]; cbn; [|reflexivity].
      rewrite <- !app_assoc. reflexivity.
    + cbn. now rewrite <- app_assoc.
    + now rewrite <- app_assoc.
    + reflexivity.
    + cbn. unfold categoryAreas_spec, dict_map. rewrite map_app. reflexivity.
    + rewrite !dict_keys_app. cbn. now rewrite Hk.
Qed.

Lemma calcMeanSurfaceArea_eq (c : FuelComplex.t) :
  wf_params (FuelComplex.fuelParameters c) ->
  FuelComplex.calcMeanSurfaceArea c
  = (ca <- areas_spec (FuelComplex.fuelParameters c) ;;
     Ok (FuelComplex.with_classAreas ca
           (FuelComplex.with_categoryAreas (categoryAreas_spec ca)
              (FuelComplex.with_totalArea (totalArea_spec ca) c)))).
Proof.
  intros Hwf. unfold FuelComplex.calcMeanSurfaceArea.
  rewrite (meanArea_loop (FuelComplex.fuelParameters c) [] []);
    [|reflexivity|assumption|reflexivity|reflexivity|reflexivity].
  destruct (areas_spec _) as [ca|e]; cbn; [|reflexivity].
  destruct c; reflexivity.
Qed.

Lemma mapM_wf {A B : Type} (f : A -> result B) (d : dict A) (d' : dict B) :
  dict_mapM f d = Ok d' -> wf_dict d -> wf_dict d'.
Proof.
  intros H Hwf. unfold wf_dict. now rewrite (mapM_keys f d d' H).
Qed.

Lemma mapM2_wf {A B : Type} (f : A -> result B) (d : dict (dict A))
    (d' : dict (dict B)) :
  dict_mapM (dict_mapM f) d = Ok d' -> wf_dict2 d -> wf_dict2 d'.
Proof.
  intros H [Hwf Hall]. split; [now apply (mapM_wf _ _ _ H)|].
  clear Hwf. revert d' H. unfold dict_mapM at 1.
  induction d as [|[k v] d IH]; simpl; intros d' H.
  - injection H as <-. constructor.
  - destruct (dict_mapM f v) as [b|e] eqn:Hb; simpl in H; [|discriminate].
    destruct (mapM _ d) as [bs|e]; simpl in H; [|discriminate].
    injection H as <-. inversion Hall; subst. constructor.
    + simpl. now apply (mapM_wf _ _ _ Hb).
    + now apply IH.
Qed.

(** ** Weights *)

Lemma weightingOneCategory_eq (cat : string) (areas : dict R)
    (c : FuelComplex.t) :
  dict_get cat (FuelComplex.categoryAreas c) = Ok (sumL (dict_values areas)) ->
  dict_get cat (FuelComplex.classAreas c) = Ok areas ->
  wf_dict areas ->
  FuelComplex.weightingOneCategory cat c
  = (w <- py_div (sumL (dict_values areas)) (FuelComplex.totalArea c) ;;
     cw <- dict_mapM (fun a => py_div a (sumL (dict_values areas))) areas ;;
     Ok (FuelComplex.with_classWeighting
           (dict_set cat cw (FuelComplex.classWeighting c))
           (FuelComplex.with_categoryWeighting
              (dict_set cat w (FuelComplex.categoryWeighting c)) c))).
Proof.
  intros Hcat Hca Hwf. unfold FuelComplex.weightingOneCategory.
  rewrite Hcat. cbn [bind].
  destruct (py_div _ (FuelComplex.totalArea c)) as [w|e]; cbn [bind];
    [|reflexivity].
  destruct c; cbn in Hcat, Hca |- *. rewrite Hca, Hcat. cbn [bind].
  rewrite (for_each_build (fun a => py_div a (sumL (dict_values areas))))
    by exact Hwf.
  destruct (dict_mapM _ areas) as [cw|e]; reflexivity.
Qed.

Lemma weights_loop (rest done : dict (dict R)) (total : R)
    (cwd : dict R) (clwd : dict (dict R)) (c : FuelComplex.t) :
  FuelComplex.classAreas c = done ++ rest ->
  wf_dict2 (done ++ rest) ->
  FuelComplex.categoryAreas c = categoryAreas_spec (done ++ rest) ->
  FuelComplex.totalArea c = total ->
  FuelComplex.categoryWeighting c = cwd ->
  FuelComplex.classWeighting c = clwd ->
  dict_keys cwd = dict_keys done ->
  dict_keys clwd = dict_keys done ->
  for_each FuelComplex.weightingOneCategory (dict_keys rest) c
  = (ws <- weights_spec rest total ;;
     Ok (FuelComplex.with_classWeighting (clwd ++ dict_map snd ws)
           (FuelComplex.with_categoryWeighting (cwd ++ dict_map fst ws) c))).
Proof.
  revert done cwd clwd c.
  induction rest as [|[cat areas] rest IH];
    intros done cwd clwd c Hca Hwf Hcat Htot Hcw Hclw Hk1 Hk2.
  - simpl. rewrite !app_nil_r. destruct c; simpl in *; subst. reflexivity.
  - destruct (wf_dict2_mid _ _ _ _ Hwf) as [Hni Hwa].
    change (dict_keys ((cat, areas) :: rest)) with (cat :: dict_keys rest).
    cbn [for_each].
    rewrite (weightingOneCategory_eq cat areas c).
    + rewrite Htot.
      unfold weights_spec. unfold dict_mapM at 2. cbn [mapM fst snd].
      fold (dict_mapM
            (fun areas0 : dict R =>
               w <- py_div (sumL (dict_values areas0)) total ;;
               cw <- dict_mapM
                       (fun a => py_div a (sumL (dict_values areas0))) areas0 ;;
               Ok (w, cw)) rest).
      fold (weights_spec rest total).
      destruct (py_div (sumL (dict_values areas)) total) as [w|e]; cbn [bind];
        [|reflexivity].
      destruct (dict_mapM _ areas) as [cw|e]; cbn [bind]; [|reflexivity].
      rewrite Hcw, Hclw.
      rewrite (dict_set_notin cat cw clwd) by now rewrite Hk2.
      rewrite (dict_set_notin cat w cwd) by now rewrite Hk1.
      match goal with
      | |- for_each _ _ ?c0 = _ =>
          rewrite (IH (done ++ [(cat, areas)]) (cwd ++ [(cat, w)])
                     (clwd ++ [(cat, cw)]) c0)
      end.
      * destruct (weights_spec rest total) as [ws|e]; cbn; [|reflexivity].
        rewrite <- !app_assoc. destruct c; reflexivity.
      * destruct c; cbn in *. subst. now rewrite <- app_assoc.
      * now rewrite <- app_assoc.
      * destruct c; cbn in *. subst. now rewrite <- app_assoc.
      * destruct c; cbn in *. now subst.
      * destruct c; reflexivity.
      * destruct c; reflexivity.
      * rewrite !dict_keys_app. cbn. now rewrite Hk1.
      * rewrite !dict_keys_app. cbn. now rewrite Hk2.
    + rewrite Hcat. unfold categoryAreas_spec, dict_map. rewrite map_app.
      cbn [map fst snd]. apply dict_get_mid.
      fold (dict_map (fun a => sumL (dict_values a)) done).
      now rewrite dict_keys_map.
    + rewrite Hca. now apply dict_get_mid.
    + assumption.
Qed.

Lemma calcWeightingParameters_eq (c : FuelComplex.t) :
  wf_params (FuelComplex.fuelParameters c) ->
  FuelComplex.calcWeightingParameters c = calcWeightingParameters_spec c.
Proof.
  intros Hwf. unfold FuelComplex.calcWeightingParameters,
    calcWeightingParameters_spec.
  rewrite calcMeanSurfaceArea_eq by assumption.
  destruct (areas_spec _) as [ca|e] eqn:Hareas; cbn [bind]; [|reflexivity].
  assert (Hwf2 : wf_dict2 ca) by (eapply mapM2_wf; eassumption).
  destruct c.
  cbn [FuelComplex.classAreas FuelComplex.with_classWeighting
       FuelComplex.with_categoryWeighting FuelComplex.with_classAreas
       FuelComplex.with_categoryAreas FuelComplex.with_totalArea
       FuelComplex.base FuelComplex.fuelParameters FuelComplex.extMoisture
       FuelComplex.depth FuelComplex.categoryAreas FuelComplex.totalArea
       FuelComplex.classWeighting FuelComplex.categoryWeighting
       FuelComplex.heatContent FuelComplex.netFuelLoading
       FuelComplex.effMineralContent FuelComplex.fuelMoisture
       FuelComplex.wPrime FuelComplex.mPrime].
  match goal with
  | |- for_each _ _ ?c0 = _ =>
      rewrite (weights_loop ca [] (totalArea_spec ca) [] [] c0);
        try reflexivity; try assumption
  end.
Qed.

(** ** Float operations *)

Lemma py_div_ok (a b : R) : b <> 0 -> py_div a b = Ok (a / b).
Proof.
  intros H. unfold py_div. destruct (Req_dec_T b 0); [contradiction|reflexivity].
Qed.

Lemma py_div_zero (a : R) : py_div a 0 = Err ZeroDivisionError.
Proof.
  unfold py_div. destruct (Req_dec_T 0 0); [reflexivity|contradiction].
Qed.

Lemma py_div_inv (a b r : R) : py_div a b = Ok r -> b <> 0 /\ r = a / b.
Proof.
  unfold py_div. destruct (Req_dec_T b 0); [discriminate|].
  intros [= <-]. now split.
Qed.


Lemma py_pow_pos (x y : R) : 0 < x -> py_pow x y = Ok (Rpower x y).
Proof.
  intros H. unfold py_pow. destruct (Rlt_dec 0 x); [reflexivity|contradiction].
Qed.

Lemma py_pow_nonpos_frac (x y : R) :
  x <= 0 -> y < 0 -> frac_part y <> 0 -> py_pow x y = Err ValueError.
Proof.
  intros Hx Hy Hf. unfold py_pow.
  destruct (Rlt_dec 0 x); [lra|].
  destruct (Req_dec_T x 0).
  - destruct (Rlt_dec y 0); [reflexivity|contradiction].
  - unfold is_integral. destruct (Req_dec_T (frac_part y) 0);
      [contradiction|reflexivity].
Qed.

Lemma py_sqrt_ok (x : R) : 0 <= x -> py_sqrt x = Ok (sqrt x).
Proof.
  intros H. unfold py_sqrt. destruct (Rlt_dec x 0); [lra|reflexivity].
Qed.

(** ** Sums of quotients *)

Lemma Rsum_app (l1 l2 : list R) : Rsum (l1 ++ l2) = Rsum l1 + Rsum l2.
Proof.
  induction l1 as [|x l1 IH]; simpl; [lra|]. rewrite IH. lra.
Qed.

Lemma Rsum_div (l : list R) (d : R) :
  Rsum (map (fun a => a / d) l) = Rsum l / d.
Proof.
  induction l as [|x l IH]; simpl.
  - unfold Rdiv. lra.
  - rewrite IH. unfold Rdiv. lra.
Qed.

Lemma dict_values_map {A B : Type} (f : A -> B) (d : dict A) :
  dict_values (dict_map f d) = map f (dict_values d).
Proof.
  unfold dict_values, dict_map. rewrite !map_map. reflexivity.
Qed.

Lemma dict_mapM_total {A B : Type} (f : A -> result B) (g : A -> B)
    (d : dict A) :
  (forall k a, In (k, a) d -> f a = Ok (g a)) ->
  dict_mapM f d = Ok (dict_map g d).
Proof.
  unfold dict_mapM, dict_map.
  induction d as [|[k a] d IH]; simpl; intros H; [reflexivity|].
  rewrite (H k a) by now left. simpl.
  rewrite IH; [reflexivity|].
  intros k' a' Hin. apply (H k'). now right.
Qed.

Lemma dict_mapM_div (d : R) (areas : dict R) :
  d <> 0 ->
  dict_mapM (fun a => py_div a d) areas = Ok (dict_map (fun a => a / d) areas).
Proof.
  intros Hd. apply dict_mapM_total. intros k a _. now apply py_div_ok.
Qed.

Lemma Rsum_pos (l : list R) :
  l <> [] -> Forall (fun a => 0 < a) l -> 0 < Rsum l.
Proof.
  intros Hne Hall. induction Hall as [|x l Hx Hall IH]; [contradiction|].
  simpl. destruct l as [|y l].
  - simpl. lra.
  - assert (0 < Rsum (y :: l)) by (apply IH; discriminate). lra.
Qed.

(** With every category area and the total area non-zero, the weights are
    the quotients of eqns 56 and 57. *)
Lemma weights_spec_ok (ca : dict (dict R)) (total : R) :
  total <> 0 ->
  Forall (fun kv => sumL (dict_values (snd kv)) <> 0) ca ->
  weights_spec ca total
  = Ok (dict_map
          (fun areas =>
             (sumL (dict_values areas) / total,
              dict_map (fun a => a / sumL (dict_values areas)) areas))
          ca).
Proof.
  intros Ht Hall. unfold weights_spec. apply dict_mapM_total.
  intros k areas Hin. rewrite Forall_forall in Hall.
  specialize (Hall _ Hin). simpl in Hall.
  rewrite py_div_ok by assumption. cbn [bind].
  rewrite dict_mapM_div by assumption. reflexivity.
Qed.

(** Reduction of the projections of a complex applied to an updated
    complex. *)
Ltac fc_simpl :=
  cbn [FuelComplex.base FuelComplex.fuelParameters FuelComplex.extMoisture
       FuelComplex.depth FuelComplex.classAreas FuelComplex.categoryAreas
       FuelComplex.totalArea FuelComplex.classWeighting
       FuelComplex.categoryWeighting FuelComplex.heatContent
       FuelComplex.netFuelLoading FuelComplex.effMineralContent
       FuelComplex.fuelMoisture FuelComplex.wPrime FuelComplex.mPrime
       FuelComplex.with_base FuelComplex.with_fuelParameters
       FuelComplex.with_extMoisture FuelComplex.with_depth
       FuelComplex.with_classAreas FuelComplex.with_categoryAreas
       FuelComplex.with_totalArea FuelComplex.with_classWeighting
       FuelComplex.with_categoryWeighting FuelComplex.with_aggregates
       FuelComplex.with_wPrime FuelComplex.with_mPrime
       FuelComplex.setExtMoisture FuelComplex.setDepth] in *.

Lemma calcMeanSurfaceArea_inv (c c1 : FuelComplex.t) :
  wf_params (FuelComplex.fuelParameters c) ->
  FuelComplex.calcMeanSurfaceArea c = Ok c1 ->
  exists ca,
    areas_spec (FuelComplex.fuelParameters c) = Ok ca /\
    FuelComplex.classAreas c1 = ca /\
    FuelComplex.categoryAreas c1 = categoryAreas_spec ca /\
    FuelComplex.totalArea c1 = totalArea_spec ca /\
    dict_keys ca = dict_keys (FuelComplex.fuelParameters c) /\
    wf_dict2 ca.
Proof.
  intros Hwf H. rewrite calcMeanSurfaceArea_eq in H by assumption.
  destruct (areas_spec _) as [ca|e] eqn:Ha; cbn in H; [|discriminate].
  injection H as <-. exists ca. repeat split; try reflexivity.
  - apply (mapM_keys _ _ _ Ha).
  - apply (mapM_wf _ _ _ Ha). apply Hwf.
  - apply (mapM2_wf _ _ _ Ha Hwf).
Qed.

Lemma Rabs_one_le (x : R) : x = 1 -> Rabs (x - 1) <= 1e-9.
Proof.
  intros ->. replace (1 - 1) with 0 by lra. rewrite Rabs_R0. lra.
Qed.

(** C4 (amended): in a complex with at least one category, whose particles
    have a sigma and a loading that are not negative and a positive particle
    density, and where every category has positive total surface area,
    computing the weighting parameters succeeds; the category weights then
    sum to 1 over all the categories of the complex within 1e-9, and within
    each category the class weights sum to 1 within 1e-9. *)
Theorem weights_sum_to_one (c c1 : FuelComplex.t) :
  wf_params (FuelComplex.fuelParameters c) ->
  FuelComplex.fuelParameters c <> [] ->
  Forall (fun kv => Forall (fun kf => nonneg_particle (snd kf)) (snd kv))
    (FuelComplex.fuelParameters c) ->
  FuelComplex.calcMeanSurfaceArea c = Ok c1 ->
  Forall (fun kv => 0 < snd kv) (FuelComplex.categoryAreas c1) ->
  exists c2,
    FuelComplex.calcWeightingParameters c = Ok c2 /\
    dict_keys (FuelComplex.categoryWeighting c2)
      = dict_keys (FuelComplex.fuelParameters c) /\
    dict_keys (FuelComplex.classWeighting c2)
      = dict_keys (FuelComplex.fuelParameters c) /\
    Rabs (Rsum (dict_values (FuelComplex.categoryWeighting c2)) - 1)
      <= 1e-9 /\
    Forall
      (fun kv => Rabs (Rsum (dict_values (snd kv)) - 1) <= 1e-9)
      (FuelComplex.classWeighting c2).
Proof.
  intros Hwf Hne _ Hmean Hpos.
  destruct (calcMeanSurfaceArea_inv c c1 Hwf Hmean)
    as (ca & Ha & _ & Hcat & _ & Hkeys & Hwf2).
  rewrite Hcat in Hpos.
  assert (Hpos' : Forall (fun kv => 0 < sumL (dict_values (snd kv))) ca).
  { unfold categoryAreas_spec, dict_map in Hpos.
    rewrite Forall_map in Hpos. exact Hpos. }
  assert (Hca : ca <> []).
  { intros ->. destruct (FuelComplex.fuelParameters c); [now apply Hne|].
    discriminate Hkeys. }
  assert (Htot : 0 < totalArea_spec ca).
  { unfold totalArea_spec. rewrite sumL_Rsum. apply Rsum_pos.
    - unfold categoryAreas_spec. rewrite dict_values_map.
      destruct ca; [contradiction|discriminate].
    - unfold categoryAreas_spec. rewrite dict_values_map.
      unfold dict_values. rewrite map_map. rewrite Forall_map.
      exact Hpos'. }
  rewrite calcWeightingParameters_eq by assumption.
  unfold calcWeightingParameters_spec. rewrite Ha. cbn [bind].
  rewrite weights_spec_ok.
  2: lra.
  2: { eapply Forall_impl; [|exact Hpos']. intros kv H. cbn in H. lra. }
  cbn [bind]. eexists. split; [reflexivity|].
  fc_simpl.
  repeat split.
  - rewrite !dict_keys_map. exact Hkeys.
  - rewrite !dict_keys_map. exact Hkeys.
  - apply Rabs_one_le.
    rewrite !dict_values_map. rewrite map_map. cbn [fst].
    rewrite <- (map_map (fun areas => sumL (dict_values areas))
                        (fun a => a / totalArea_spec ca)).
    rewrite Rsum_div.
    unfold totalArea_spec, categoryAreas_spec in Htot |- *.
    rewrite sumL_Rsum, dict_values_map in Htot |- *.
    unfold Rdiv. apply Rinv_r. lra.
  - unfold dict_map at 1 2. rewrite map_map. rewrite Forall_map.
    eapply Forall_impl; [|exact Hpos']. intros [k areas] H. cbn [fst snd] in H |- *.
    apply Rabs_one_le.
    rewrite dict_values_map, Rsum_div, sumL_Rsum.
    rewrite sumL_Rsum in H. unfold Rdiv. apply Rinv_r. lra.
Qed.

(** ** Setting sigma *)

Lemma frac_part_between (r : R) (z : Z) :
  IZR z < r < IZR (z + 1) -> frac_part r <> 0.
Proof.
  intros [H1 H2]. unfold frac_part, Int_part.
  rewrite <- (up_tech r z); [|lra|assumption].
  replace (z + 1 - 1)%Z with z by (now rewrite Z.add_simpl_r). lra.
Qed.

Lemma py_pow_nonpos (x y : R) (z : Z) :
  x <= 0 -> y < 0 -> IZR z < y < IZR (z + 1) -> py_pow x y = Err ValueError.
Proof.
  intros Hx Hy Hz. apply py_pow_nonpos_frac; try assumption.
  now apply (frac_part_between y z).
Qed.

Lemma Rpower_pos (x y : R) : 0 < Rpower x y.
Proof. unfold Rpower. apply exp_pos. Qed.

Lemma setSigma_run_nonpos (sg : R) (self : Fuel.t) :
  sg <= 0 ->
  Fuel.setSigma_run sg self = (Fuel.with_sigma (Some sg) self, Some ValueError).
Proof.
  intros H. unfold Fuel.setSigma_run.
  rewrite (py_pow_nonpos sg (-0.8189) (-1)); [reflexivity|assumption|lra|].
  simpl. lra.
Qed.

Lemma calcExponentA_ok (self : Fuel.t) (sg : R) :
  0 < sg ->
  Fuel.sigma self = Some sg ->
  exponentA_defined (Fuel.class self) sg ->
  Fuel.calcExponentA self
  = Ok (Fuel.with_exponentA (Some (exponentA_of (Fuel.class self) sg)) self).
Proof.
  intros Hpos Hs Hdef. unfold Fuel.calcExponentA, exponentA_of.
  destruct (Fuel.class self); cbn in Hdef; [contradiction| |].
  - rewrite Hs. cbn [num bind]. unfold RothermelExponentA.
    rewrite py_pow_pos by assumption. cbn [bind].
    now rewrite py_div_ok.
  - rewrite Hs. cbn [num bind]. unfold AlbiniExponentA.
    now rewrite py_pow_pos.
Qed.

Lemma sigma15_divisor (sg : R) : 495 + 0.0594 * Rpower sg 1.5 <> 0.
Proof.
  pose proof (Rpower_pos sg 1.5). lra.
Qed.

(** The fuel after a successful [setSigma]. *)
Lemma setSigma_run_pos (sg : R) (self : Fuel.t) :
  0 < sg ->
  exponentA_defined (Fuel.class self) sg ->
  Fuel.setSigma_run sg self
  = (Fuel.with_heatingEfficiency (Some (exp (-138 / sg)))
       (Fuel.with_exponentA (Some (exponentA_of (Fuel.class self) sg))
          (Fuel.with_maxPotentialVelocity
             (Some (Rpower sg 1.5 / (495 + 0.0594 * Rpower sg 1.5)))
             (Fuel.with_optimalPacking (Some (3.348 * Rpower sg (-0.8189)))
                (Fuel.with_sigma (Some sg) self)))), None).
Proof.
  intros Hpos Hdef. unfold Fuel.setSigma_run.
  rewrite !py_pow_pos by assumption.
  rewrite py_div_ok by apply sigma15_divisor.
  rewrite (calcExponentA_ok _ sg); [|assumption|reflexivity|exact Hdef].
  rewrite py_div_ok by lra. reflexivity.
Qed.

Lemma setSigma_pos (sg : R) (self : Fuel.t) :
  0 < sg ->
  exponentA_defined (Fuel.class self) sg ->
  Fuel.setSigma sg self
  = Ok (Fuel.with_heatingEfficiency (Some (exp (-138 / sg)))
       (Fuel.with_exponentA (Some (exponentA_of (Fuel.class self) sg))
          (Fuel.with_maxPotentialVelocity
             (Some (Rpower sg 1.5 / (495 + 0.0594 * Rpower sg 1.5)))
             (Fuel.with_optimalPacking (Some (3.348 * Rpower sg (-0.8189)))
                (Fuel.with_sigma (Some sg) self))))).
Proof.
  intros Hpos Hdef. unfold Fuel.setSigma.
  now rewrite setSigma_run_pos.
Qed.

Lemma Rpower_tenth_gt (x a : R) : 0 < a -> a ^ 10 < x -> a < Rpower x 0.1.
Proof.
  intros Ha Hx.
  assert (Hp : 0 < a ^ 10) by now apply pow_lt.
  replace a with (Rpower (a ^ 10) 0.1) at 1.
  - apply Rlt_Rpower_l; lra.
  - rewrite <- (Rpower_pow 10 a Ha). rewrite Rpower_mult.
    replace (INR 10 * 0.1) with 1 by (simpl; lra).
    now apply Rpower_1.
Qed.

Lemma Rpower_tenth_lt (x a : R) : 0 < x -> x < a ^ 10 -> 0 < a -> Rpower x 0.1 < a.
Proof.
  intros Hx Hlt Ha.
  replace a with (Rpower (a ^ 10) 0.1) at 1.
  - apply Rlt_Rpower_l; lra.
  - rewrite <- (Rpower_pow 10 a Ha). rewrite Rpower_mult.
    replace (INR 10 * 0.1) with 1 by (simpl; lra).
    now apply Rpower_1.
Qed.

(** Rothermel's exponent A is defined away from the singular sigma, in
    particular for every sigma of the standard fuel models. *)
Lemma rothermel_defined_above (sg : R) :
  71 <= sg -> exponentA_defined RothermelFuel sg.
Proof.
  intros H. cbn.
  assert (1.53 < Rpower sg 0.1) by (apply Rpower_tenth_gt; lra).
  lra.
Qed.

Lemma rothermel_defined_below (sg : R) :
  0 < sg <= 65 -> exponentA_defined RothermelFuel sg.
Proof.
  intros H. cbn.
  assert (Rpower sg 0.1 < 1.52) by (apply Rpower_tenth_lt; lra).
  lra.
Qed.

Lemma sigma_singular_pos : 0 < sigma_singular.
Proof. apply Rpower_pos. Qed.

Lemma sigma_singular_root : 4.77 * Rpower sigma_singular 0.1 - 7.27 = 0.
Proof.
  unfold sigma_singular. rewrite Rpower_mult.
  replace (10 * 0.1) with 1 by lra.
  rewrite Rpower_1 by lra. lra.
Qed.

Lemma setSigma_nonpos (sg : R) (self : Fuel.t) :
  sg <= 0 -> Fuel.setSigma sg self = Err ValueError.
Proof.
  intros H. unfold Fuel.setSigma. now rewrite setSigma_run_nonpos.
Qed.

Lemma sigma_regular_defined (c : FuelClass) (sg : R) :
  sigma_regular c sg -> 0 < sg /\ exponentA_defined c sg.
Proof.
  intros [[Hpos _] Hc]. split; [assumption|].
  destruct c; [contradiction| |exact I].
  destruct Hc as [H|H].
  - apply rothermel_defined_below. lra.
  - now apply rothermel_defined_above.
Qed.

(** C6 (amended): for every sigma <= 0, [setSigma] raises (the [ValueError]
    of [math.pow]) having stored sigma itself and none of the derived
    geometry values, and so does the constructor.  For every sigma > 0 up
    to 1e100 that, for a Rothermel fuel, is at most 65 or at least 71 (the
    divisor 4.77 sigma^0.1 - 7.27 of eqn 39 vanishes in between), it
    succeeds and sets optimalPacking = 3.348 sigma^(-0.8189),
    maxPotentialVelocity = sigma^1.5 / (495 + 0.0594 sigma^1.5) and
    heatingEfficiency = exp(-138 / sigma). *)
Theorem setSigma_domain (sg : R) (self : Fuel.t) :
  (sg <= 0 ->
   Fuel.setSigma_run sg self
     = (Fuel.with_sigma (Some sg) self, Some ValueError) /\
   Fuel.setSigma sg self = Err ValueError /\
   forall c loading, Fuel.init c (Some sg) loading = Err ValueError) /\
  (sigma_regular (Fuel.class self) sg ->
   (exists self',
      Fuel.setSigma sg self = Ok self' /\
      Fuel.sigma self' = Some sg /\
      Fuel.optimalPacking self' = Some (3.348 * Rpower sg (-0.8189)) /\
      Fuel.maxPotentialVelocity self'
        = Some (Rpower sg 1.5 / (495 + 0.0594 * Rpower sg 1.5)) /\
      Fuel.heatingEfficiency self' = Some (exp (-138 / sg)) /\
      Fuel.exponentA self' = Some (exponentA_of (Fuel.class self) sg)) /\
   (forall loading,
    exists f,
      Fuel.init (Fuel.class self) (Some sg) loading = Ok f /\
      Fuel.sigma f = Some sg /\
      Fuel.ovendryLoading f = loading /\
      Fuel.optimalPacking f = Some (3.348 * Rpower sg (-0.8189)) /\
      Fuel.maxPotentialVelocity f
        = Some (Rpower sg 1.5 / (495 + 0.0594 * Rpower sg 1.5)) /\
      Fuel.heatingEfficiency f = Some (exp (-138 / sg)))).
Proof.
  split.
  - intros H. split; [now apply setSigma_run_nonpos|].
    split; [now apply setSigma_nonpos|].
    intros c loading. unfold Fuel.init. now rewrite setSigma_nonpos.
  - intros Hreg. destruct (sigma_regular_defined _ _ Hreg) as [Hpos Hdef].
    split.
    + eexists. split; [now apply setSigma_pos|]. repeat split.
    + intros loading. eexists. unfold Fuel.init.
      rewrite setSigma_pos; [|assumption|exact Hdef].
      cbn [bind]. split; [reflexivity|]. repeat split.
Qed.

(** C6, witness: a negative sigma; the sigma of NFFL model 1 in a Rothermel
    fuel; the sigma of the 100-hr class of NFFL model 2 in an Albini
    fuel. *)
Lemma setSigma_domain_witness :
  Fuel.setSigma (-1) (Fuel.blank RothermelFuel (Some 0.034)) = Err ValueError
  /\ (exists f,
        Fuel.init RothermelFuel (Some 3500) (Some 0.034) = Ok f /\
        Fuel.heatingEfficiency f = Some (exp (-138 / 3500)))
  /\ (exists f,
        Fuel.init AlbiniFuel (Some 30) (Some 0.023) = Ok f /\
        Fuel.heatingEfficiency f = Some (exp (-138 / 30))).
Proof.
  split; [|split].
  - apply (setSigma_domain (-1) (Fuel.blank RothermelFuel (Some 0.034))).
    lra.
  - destruct (setSigma_domain 3500 (Fuel.blank RothermelFuel (Some 0.034)))
      as [_ H].
    destruct H as [_ H].
    + split; [lra|]. right. lra.
    + destruct (H (Some 0.034)) as (f & Hf & _ & _ & _ & _ & He).
      exists f. split; assumption.
  - destruct (setSigma_domain 30 (Fuel.blank AlbiniFuel (Some 0.023)))
      as [_ H].
    destruct H as [_ H].
    + split; [lra|exact I].
    + destruct (H (Some 0.023)) as (f & Hf & _ & _ & _ & _ & He).
      exists f. split; assumption.
Defined.

(** C6, counterexample: at the positive sigma (7.27 / 4.77)^10, about
    67.63, a Rothermel fuel's [setSigma] raises [ZeroDivisionError], and so
    does its constructor. *)
Lemma setSigma_singular_fails :
  0 < sigma_singular /\
  Fuel.setSigma sigma_singular (Fuel.blank RothermelFuel (Some 0.034))
    = Err ZeroDivisionError /\
  Fuel.init RothermelFuel (Some sigma_singular) (Some 0.034)
    = Err ZeroDivisionError.
Proof.
  assert (H : forall self, Fuel.class self = RothermelFuel ->
            Fuel.setSigma sigma_singular self = Err ZeroDivisionError).
  { intros self Hc. unfold Fuel.setSigma, Fuel.setSigma_run.
    rewrite !py_pow_pos by apply sigma_singular_pos.
    rewrite py_div_ok by apply sigma15_divisor.
    unfold Fuel.calcExponentA. cbn [Fuel.class Fuel.with_maxPotentialVelocity
      Fuel.with_optimalPacking Fuel.with_sigma Fuel.sigma].
    rewrite Hc. cbn [num bind]. unfold RothermelExponentA.
    rewrite py_pow_pos by apply sigma_singular_pos. cbn [bind].
    rewrite sigma_singular_root, py_div_zero. reflexivity. }
  split; [apply sigma_singular_pos|]. split.
  - now apply H.
  - unfold Fuel.init. now rewrite H.
Qed.

(** ** Albini's live moisture of extinction *)

(** C5: on an Albini fuel complex whose particle map has no live category,
    [calcLivingExtMoisture] returns without raising, and the complex (the
    extinction-moisture map in particular) is unchanged: a live entry that
    was absent stays absent. *)
Theorem albini_live_ext_noop (c : FuelComplex.t) :
  Fuel.class (FuelComplex.base c) = AlbiniFuel ->
  dict_mem LIVE (FuelComplex.fuelParameters c) = false ->
  FuelComplex.calcLivingExtMoisture c = Ok c /\
  forall c', FuelComplex.calcLivingExtMoisture c = Ok c' ->
    FuelComplex.extMoisture c' = FuelComplex.extMoisture c /\
    dict_find LIVE (FuelComplex.extMoisture c')
      = dict_find LIVE (FuelComplex.extMoisture c).
Proof.
  intros Hcls Hno.
  assert (H : FuelComplex.calcLivingExtMoisture c = Ok c).
  { unfold FuelComplex.calcLivingExtMoisture. rewrite Hcls.
    unfold FuelComplex.calcLivingExtMoisture_Albini. rewrite Hno.
    reflexivity. }
  split; [exact H|].
  intros c' H'. rewrite H in H'. injection H' as <-. now split.
Qed.

(** C10: on an Albini fuel complex whose particle map has the live category
    but no '1 hr' size class in it, [calcLivingExtMoisture] raises
    [KeyError]: the guard reads the loading of the live 1-hr particle. *)
Theorem albini_live_ext_keyerror (c : FuelComplex.t)
    (lives : dict Fuel.t) :
  Fuel.class (FuelComplex.base c) = AlbiniFuel ->
  dict_find LIVE (FuelComplex.fuelParameters c) = Some lives ->
  dict_mem ONEHR lives = false ->
  FuelComplex.calcLivingExtMoisture c = Err KeyError.
Proof.
  intros Hcls Hlive Hno.
  unfold FuelComplex.calcLivingExtMoisture. rewrite Hcls.
  unfold FuelComplex.calcLivingExtMoisture_Albini, dict_mem.
  rewrite Hlive. cbn [negb].
  unfold FuelComplex.particle, dict_get. rewrite Hlive. cbn [bind].
  unfold dict_mem in Hno.
  destruct (dict_find ONEHR lives); [discriminate|reflexivity].
Qed.

(** ** The fuel model factories *)

Lemma FuelComponent_ok (c : FuelClass) (sg w : R) :
  0 < sg -> exponentA_defined c sg ->
  FuelComponent c sg w = Ok (fuel_of c sg w).
Proof.
  intros Hpos Hdef. unfold FuelComponent, Fuel.init.
  rewrite setSigma_pos; [reflexivity|assumption|exact Hdef].
Qed.

Lemma standard_sigma_defined (c : FuelClass) (sg : R) :
  c <> FuelBase -> 71 <= sg \/ 0 < sg <= 65 -> exponentA_defined c sg.
Proof.
  intros Hc H. destruct c; [contradiction| |exact I].
  destruct H; [now apply rothermel_defined_above
              |now apply rothermel_defined_below].
Qed.

Lemma nffl1_ok (c : FuelClass) :
  c <> FuelBase -> nffl1 c = Ok (nffl1_complex c).
Proof.
  intros Hc. unfold nffl1.
  rewrite FuelComponent_ok;
    [reflexivity|lra|apply standard_sigma_defined; [assumption|lra]].
Qed.

Lemma nffl2_ok (c : FuelClass) :
  c <> FuelBase -> nffl2 c = Ok (nffl2_complex c).
Proof.
  intros Hc. unfold nffl2.
  rewrite !FuelComponent_ok;
    [reflexivity|..]; try lra;
    (apply standard_sigma_defined; [assumption|lra]).
Qed.

Lemma wf_nffl1 (c : FuelClass) :
  wf_params (FuelComplex.fuelParameters (nffl1_complex c)).
Proof.
  split.
  - repeat constructor. simpl. tauto.
  - repeat constructor. simpl. tauto.
Qed.

Lemma wf_nffl2 (c : FuelClass) :
  wf_params (FuelComplex.fuelParameters (nffl2_complex c)).
Proof.
  split.
  - unfold wf_dict. cbn. repeat constructor; cbn; intuition discriminate.
  - repeat constructor; cbn; intuition discriminate.
Qed.

(** C5, witness: NFFL model 1 (dead fuel only) as an Albini complex. *)
Lemma albini_live_ext_noop_witness :
  FuelComplex.calcLivingExtMoisture (nffl1_complex AlbiniFuel)
    = Ok (nffl1_complex AlbiniFuel)
  /\ dict_find LIVE (FuelComplex.extMoisture (nffl1_complex AlbiniFuel))
     = None.
Proof.
  split.
  - exact (proj1 (albini_live_ext_noop (nffl1_complex AlbiniFuel)
                    eq_refl eq_refl)).
  - reflexivity.
Defined.

(** C10, witness: NFFL model 1 with one live 10-hr particle added. *)
Lemma albini_live_ext_keyerror_witness :
  FuelComplex.calcLivingExtMoisture
    (FuelComplex.setFuelParams LIVE TENHR (fuel_of AlbiniFuel 1500 0.023)
       (nffl1_complex AlbiniFuel))
  = Err KeyError.
Proof.
  exact (albini_live_ext_keyerror
           (FuelComplex.setFuelParams LIVE TENHR
              (fuel_of AlbiniFuel 1500 0.023) (nffl1_complex AlbiniFuel))
           [(TENHR, fuel_of AlbiniFuel 1500 0.023)]
           eq_refl eq_refl eq_refl).
Defined.

(** ** Evaluation on the standard fuel models *)

Lemma area_fuel_of (c : FuelClass) (sg w : R) :
  FuelComplex.calcMeanSurfaceAreaOneClass (fuel_of c sg w)
  = Ok (sg * w / 32).
Proof.
  unfold FuelComplex.calcMeanSurfaceAreaOneClass, fuel_of.
  cbn [Fuel.sigma Fuel.ovendryLoading Fuel.particleDensity num bind].
  apply py_div_ok. lra.
Qed.

Lemma nffl2_mean (c : FuelClass) :
  FuelComplex.calcMeanSurfaceArea (nffl2_complex c)
  = Ok (FuelComplex.with_classAreas nffl2_areas
          (FuelComplex.with_categoryAreas (categoryAreas_spec nffl2_areas)
             (FuelComplex.with_totalArea (totalArea_spec nffl2_areas)
                (nffl2_complex c)))).
Proof.
  rewrite calcMeanSurfaceArea_eq by apply wf_nffl2.
  unfold areas_spec, dict_mapM, nffl2_complex.
  cbn [FuelComplex.fuelParameters mapM fst snd].
  rewrite !area_fuel_of. reflexivity.
Qed.

Lemma nonneg_fuel_of (c : FuelClass) (sg w : R) :
  0 <= sg -> 0 <= w -> nonneg_particle (fuel_of c sg w).
Proof.
  intros Hs Hw. exists sg, w.
  split; [reflexivity|]. split; [assumption|].
  split; [reflexivity|]. split; [assumption|].
  cbn [fuel_of Fuel.particleDensity]. lra.
Qed.

(** C4, witness: NFFL model 2 (three dead classes, one live class). *)
Lemma weights_sum_to_one_witness :
  exists c2,
    FuelComplex.calcWeightingParameters (nffl2_complex RothermelFuel) = Ok c2
    /\ Rabs (Rsum (dict_values (FuelComplex.categoryWeighting c2)) - 1)
       <= 1e-9
    /\ Forall (fun kv => Rabs (Rsum (dict_values (snd kv)) - 1) <= 1e-9)
         (FuelComplex.classWeighting c2).
Proof.
  assert (Hnn : Forall
                  (fun kv => Forall (fun kf => nonneg_particle (snd kf))
                               (snd kv))
                  (FuelComplex.fuelParameters (nffl2_complex RothermelFuel))).
  { constructor; [|constructor; [|constructor]]; cbn [snd].
    - constructor; [|constructor; [|constructor; [|constructor]]];
        cbn [snd]; apply nonneg_fuel_of; lra.
    - constructor; [|constructor]; cbn [snd]; apply nonneg_fuel_of; lra. }
  destruct (weights_sum_to_one (nffl2_complex RothermelFuel) _
              (wf_nffl2 RothermelFuel)
              ltac:(discriminate) Hnn (nffl2_mean RothermelFuel))
    as (c2 & H1 & _ & _ & H2 & H3).
  - unfold categoryAreas_spec, dict_map, nffl2_areas, sumL, dict_values.
    cbn [FuelComplex.categoryAreas FuelComplex.with_classAreas
         FuelComplex.with_categoryAreas map fst snd fold_left].
    repeat constructor; cbn [snd]; lra.
  - exists c2. split; [exact H1|]. split; [exact H2|exact H3].
Defined.

(** C4, counterexample: the complex without any particle.  No category is
    present, the weighting parameters are computed, and the category
    weights sum to 0. *)
Lemma weights_empty_complex :
  let c := FuelComplex.init RothermelFuel in
  wf_params (FuelComplex.fuelParameters c) /\
  (exists c1,
     FuelComplex.calcMeanSurfaceArea c = Ok c1 /\
     Forall (fun kv => 0 < snd kv) (FuelComplex.categoryAreas c1)) /\
  exists c2,
    FuelComplex.calcWeightingParameters c = Ok c2 /\
    Rsum (dict_values (FuelComplex.categoryWeighting c2)) = 0 /\
    ~ Rabs (Rsum (dict_values (FuelComplex.categoryWeighting c2)) - 1)
        <= 1e-9.
Proof.
  cbv zeta. split; [|split].
  - split; constructor.
  - eexists. split; [reflexivity|]. constructor.
  - eexists. split; [reflexivity|]. split; [reflexivity|].
    cbn [FuelComplex.categoryWeighting FuelComplex.with_classWeighting
         FuelComplex.with_categoryWeighting dict_values map Rsum fold_right].
    replace (0 - 1) with (-1) by lra.
    rewrite Rabs_left by lra. lra.
Qed.

(** ** Degenerate loadings *)













(** ** Aggregation by category *)

Lemma dict_add_last (k : string) (v x : R) (d : dict R) :
  ~ In k (dict_keys d) ->
  dict_add k x (d ++ [(k, v)]) = Ok (d ++ [(k, v + x)]).
Proof.
  intros H. unfold dict_add. rewrite dict_get_mid by assumption.
  cbn [bind]. now rewrite dict_set_mid.
Qed.

Lemma NoDup_app_head {A : Type} (l1 l2 : list A) (x : A) :
  NoDup (l1 ++ x :: l2) -> ~ In x l1.
Proof.
  intros H Hin. apply NoDup_remove_2 in H. apply H.
  apply in_or_app. now left.
Qed.

Lemma aggregateOneClass_eq (cat k : string) (f : Fuel.t) (w : R)
    (fdone frest : dict (dict Fuel.t)) (cdone crest : dict Fuel.t)
    (hX nX eX mX : dict R) (acc : Aggregates) (self : FuelComplex.t) :
  ~ In cat (dict_keys fdone) ->
  ~ In k (dict_keys cdone) ->
  ~ In cat (dict_keys hX) -> ~ In cat (dict_keys nX) ->
  ~ In cat (dict_keys eX) -> ~ In cat (dict_keys mX) ->
  FuelComplex.fuelParameters self
    = fdone ++ (cat, cdone ++ (k, f) :: crest) :: frest ->
  FuelComplex.heatContent self = Some (hX ++ [(cat, a_heat acc)]) ->
  FuelComplex.netFuelLoading self = Some (nX ++ [(cat, a_net acc)]) ->
  FuelComplex.effMineralContent self = Some (eX ++ [(cat, a_eff acc)]) ->
  FuelComplex.fuelMoisture self = Some (mX ++ [(cat, a_moist acc)]) ->
  FuelComplex.aggregateOneClass cat (k, w) self
  = ('(f', acc') <- aggStep f w acc ;;
     Ok (FuelComplex.with_aggregates
           (hX ++ [(cat, a_heat acc')]) (nX ++ [(cat, a_net acc')])
           (eX ++ [(cat, a_eff acc')]) (mX ++ [(cat, a_moist acc')])
           (FuelComplex.with_fuelParameters
              (fdone ++ (cat, cdone ++ (k, f') :: crest) :: frest) self))).
Proof.
  intros Hcat Hk HhX HnX HeX HmX Hfp Hh Hn He Hm.
  unfold FuelComplex.aggregateOneClass, aggStep. cbn [fst snd].
  rewrite Hfp. rewrite dict_get_mid by assumption. cbn [bind].
  rewrite dict_get_mid by assumption. cbn [bind].
  destruct (Fuel.calcNetFuelLoading f) as [f'|e]; cbn [bind]; [|reflexivity].
  rewrite !dict_set_mid by assumption.
  fc_simpl. rewrite Hh, Hn, He, Hm. cbn [attr bind].
  destruct (Fuel.netFuelLoading f') as [n|]; cbn [attr bind]; [|reflexivity].
  rewrite !dict_add_last by assumption. cbn [bind].
  destruct (Fuel.fuelMoisture f') as [m|]; cbn [num bind]; [|reflexivity].
  rewrite !dict_add_last by assumption. cbn [bind].
  destruct self; reflexivity.
Qed.

Lemma aggClass_loop (cat : string) (crest : dict Fuel.t) :
  forall (wrest : dict R) (cdone : dict Fuel.t)
    (fdone frest : dict (dict Fuel.t)) (hX nX eX mX : dict R)
    (acc : Aggregates) (self : FuelComplex.t),
  same_keys crest wrest ->
  NoDup (dict_keys (cdone ++ crest)) ->
  ~ In cat (dict_keys fdone) ->
  ~ In cat (dict_keys hX) -> ~ In cat (dict_keys nX) ->
  ~ In cat (dict_keys eX) -> ~ In cat (dict_keys mX) ->
  FuelComplex.fuelParameters self = fdone ++ (cat, cdone ++ crest) :: frest ->
  FuelComplex.heatContent self = Some (hX ++ [(cat, a_heat acc)]) ->
  FuelComplex.netFuelLoading self = Some (nX ++ [(cat, a_net acc)]) ->
  FuelComplex.effMineralContent self = Some (eX ++ [(cat, a_eff acc)]) ->
  FuelComplex.fuelMoisture self = Some (mX ++ [(cat, a_moist acc)]) ->
  for_each (FuelComplex.aggregateOneClass cat) wrest self
  = ('(rest, acc') <- aggClasses crest wrest acc ;;
     Ok (FuelComplex.with_aggregates
           (hX ++ [(cat, a_heat acc')]) (nX ++ [(cat, a_net acc')])
           (eX ++ [(cat, a_eff acc')]) (mX ++ [(cat, a_moist acc')])
           (FuelComplex.with_fuelParameters
              (fdone ++ (cat, cdone ++ rest) :: frest) self))).
Proof.
  induction crest as [|[k f] crest IH];
    intros wrest cdone fdone frest hX nX eX mX acc self
           Hkeys Hnd Hcat HhX HnX HeX HmX Hfp Hh Hn He Hm.
  - destruct wrest as [|[k' w] wrest]; [|discriminate Hkeys].
    cbn [for_each aggClasses bind].
    destruct self; fc_simpl; subst. reflexivity.
  - destruct wrest as [|[k' w] wrest]; [discriminate Hkeys|].
    injection Hkeys as <- Hkeys.
    assert (Hk : ~ In k (dict_keys cdone)).
    { rewrite dict_keys_app in Hnd. now apply NoDup_app_head in Hnd. }
    cbn [for_each aggClasses].
    rewrite (aggregateOneClass_eq cat k f w fdone frest cdone crest
               hX nX eX mX acc self) by assumption.
    destruct (aggStep f w acc) as [[f' acc']|e]; cbn [bind]; [|reflexivity].
    match goal with
    | |- for_each _ _ ?s = _ =>
        rewrite (IH wrest (cdone ++ [(k, f')]) fdone frest hX nX eX mX
                   acc' s)
    end; try assumption; try reflexivity.
    + destruct (aggClasses crest wrest acc') as [[rest acc'']|e];
        cbn [bind]; [|reflexivity].
      rewrite <- !app_assoc. destruct self; reflexivity.
    + rewrite <- app_assoc. rewrite !dict_keys_app in *. exact Hnd.
    + fc_simpl. now rewrite <- app_assoc.
Qed.

Lemma aggregateOneCategory_eq (cat : string) (classes : dict Fuel.t)
    (cw : dict R) (fdone frest : dict (dict Fuel.t)) (hX nX eX mX : dict R)
    (self : FuelComplex.t) :
  same_keys classes cw ->
  wf_dict classes ->
  ~ In cat (dict_keys fdone) ->
  ~ In cat (dict_keys hX) -> ~ In cat (dict_keys nX) ->
  ~ In cat (dict_keys eX) -> ~ In cat (dict_keys mX) ->
  FuelComplex.fuelParameters self = fdone ++ (cat, classes) :: frest ->
  dict_get cat (FuelComplex.classWeighting self) = Ok cw ->
  FuelComplex.heatContent self = Some hX ->
  FuelComplex.netFuelLoading self = Some nX ->
  FuelComplex.effMineralContent self = Some eX ->
  FuelComplex.fuelMoisture self = Some mX ->
  FuelComplex.aggregateOneCategory cat self
  = ('(rest, acc') <- aggClasses classes cw (mkAggregates 0 0 0 0) ;;
     Ok (FuelComplex.with_aggregates
           (hX ++ [(cat, a_heat acc')]) (nX ++ [(cat, a_net acc')])
           (eX ++ [(cat, a_eff acc')]) (mX ++ [(cat, a_moist acc')])
           (FuelComplex.with_fuelParameters
              (fdone ++ (cat, rest) :: frest) self))).
Proof.
  intros Hkeys Hwf Hcat HhX HnX HeX HmX Hfp Hcw Hh Hn He Hm.
  unfold FuelComplex.aggregateOneCategory.
  rewrite Hh, Hn, He, Hm. cbn [attr bind]. fc_simpl. rewrite Hcw.
  cbn [bind].
  rewrite !dict_set_notin by assumption.
  match goal with
  | |- for_each _ _ ?s = _ =>
      rewrite (aggClass_loop cat classes cw [] fdone frest hX nX eX mX
                 (mkAggregates 0 0 0 0) s)
  end; try assumption; try reflexivity.
Qed.

Lemma same_keys2_keys {A B : Type} (d1 : dict (dict A)) (d2 : dict (dict B)) :
  same_keys2 d1 d2 -> dict_keys d1 = dict_keys d2.
Proof.
  induction 1 as [|[k1 a] [k2 b] d1 d2 [Hk _] _ IH]; [reflexivity|].
  cbn in Hk. subst. unfold dict_keys in *. simpl. now f_equal.
Qed.

Lemma aggCategories_loop (frest : dict (dict Fuel.t)) :
  forall (clwrest clwdone : dict (dict R))
    (done : dict (dict Fuel.t * Aggregates)) (self : FuelComplex.t),
  same_keys2 frest clwrest ->
  NoDup (dict_keys done ++ dict_keys frest) ->
  Forall (fun kv => wf_dict (snd kv)) frest ->
  dict_keys clwdone = dict_keys done ->
  FuelComplex.fuelParameters self = dict_map fst done ++ frest ->
  FuelComplex.classWeighting self = clwdone ++ clwrest ->
  FuelComplex.heatContent self
    = Some (dict_map (fun r => a_heat (snd r)) done) ->
  FuelComplex.netFuelLoading self
    = Some (dict_map (fun r => a_net (snd r)) done) ->
  FuelComplex.effMineralContent self
    = Some (dict_map (fun r => a_eff (snd r)) done) ->
  FuelComplex.fuelMoisture self
    = Some (dict_map (fun r => a_moist (snd r)) done) ->
  for_each FuelComplex.aggregateOneCategory (dict_keys frest) self
  = (cats <- aggCategories frest clwrest ;;
     Ok (FuelComplex.with_aggregates
           (dict_map (fun r => a_heat (snd r)) (done ++ cats))
           (dict_map (fun r => a_net (snd r)) (done ++ cats))
           (dict_map (fun r => a_eff (snd r)) (done ++ cats))
           (dict_map (fun r => a_moist (snd r)) (done ++ cats))
           (FuelComplex.with_fuelParameters
              (dict_map fst (done ++ cats)) self))).
Proof.
  induction frest as [|[cat classes] frest IH];
    intros clwrest clwdone done self Hsk Hnd Hwf Hkd Hfp Hclw Hh Hn He Hm.
  - inversion Hsk; subst. cbn [dict_keys map for_each aggCategories bind].
    rewrite !app_nil_r in *. destruct self; fc_simpl; subst. reflexivity.
  - inversion Hsk as [|? [cat' cw] ? clwrest' [Hc Hkc] Hsk']; subst.
    cbn [fst snd] in Hc, Hkc. subst cat'.
    inversion Hwf as [|? ? Hwc Hwf']; subst. cbn [snd] in Hwc.
    change (dict_keys ((cat, classes) :: frest)) with (cat :: dict_keys frest)
      in *.
    assert (Hcat : ~ In cat (dict_keys done)) by now apply NoDup_app_head in Hnd.
    cbn [for_each aggCategories].
    rewrite (aggregateOneCategory_eq cat classes cw (dict_map fst done) frest
               (dict_map (fun r => a_heat (snd r)) done)
               (dict_map (fun r => a_net (snd r)) done)
               (dict_map (fun r => a_eff (snd r)) done)
               (dict_map (fun r => a_moist (snd r)) done)
               self Hkc Hwc); try eassumption;
      try (now rewrite dict_keys_map).
    2: { rewrite Hclw. apply dict_get_mid. now rewrite Hkd. }
    destruct (aggClasses classes cw _) as [[rest acc']|e]; cbn [bind];
      [|reflexivity].
    match goal with
    | |- for_each _ _ ?s = _ =>
        rewrite (IH clwrest' (clwdone ++ [(cat, cw)])
                   (done ++ [(cat, (rest, acc'))]) s)
    end; try assumption.
    + destruct (aggCategories frest clwrest') as [cats|e]; cbn [bind];
        [|reflexivity].
      rewrite <- !app_assoc. destruct self; reflexivity.
    + rewrite dict_keys_app. cbn [dict_keys map fst].
      rewrite <- app_assoc. exact Hnd.
    + rewrite !dict_keys_app. cbn [dict_keys map fst]. now rewrite Hkd.
    + fc_simpl. unfold dict_map. rewrite map_app, <- app_assoc. reflexivity.
    + fc_simpl. rewrite Hclw. now rewrite <- app_assoc.
    + fc_simpl. unfold dict_map. now rewrite map_app.
    + fc_simpl. unfold dict_map. now rewrite map_app.
    + fc_simpl. unfold dict_map. now rewrite map_app.
    + fc_simpl. unfold dict_map. now rewrite map_app.
Qed.

Lemma aggregateIntoCategories_eq (c : FuelComplex.t) :
  wf_params (FuelComplex.fuelParameters c) ->
  same_keys2 (FuelComplex.fuelParameters c) (FuelComplex.classWeighting c) ->
  dict_keys (FuelComplex.categoryWeighting c)
    = dict_keys (FuelComplex.fuelParameters c) ->
  FuelComplex.aggregateIntoCategories c = aggregateIntoCategories_spec c.
Proof.
  intros [Hnd Hwf] Hsk Hkeys.
  unfold FuelComplex.aggregateIntoCategories, aggregateIntoCategories_spec.
  fc_simpl. rewrite Hkeys.
  match goal with
  | |- for_each _ _ ?s = _ =>
      rewrite (aggCategories_loop (FuelComplex.fuelParameters c)
                 (FuelComplex.classWeighting c) [] [] s)
  end; try assumption; try reflexivity.
Qed.

(** ** Aggregation over the complex *)

Lemma complexClass_loop (self : FuelComplex.t) (cat : string)
    (crest : dict Fuel.t) :
  forall (wrest : dict R) (cdone : dict Fuel.t)
    (fdone frest : dict (dict Fuel.t)) (st : R * R * R),
  same_keys crest wrest ->
  NoDup (dict_keys (cdone ++ crest)) ->
  ~ In cat (dict_keys fdone) ->
  FuelComplex.fuelParameters self = fdone ++ (cat, cdone ++ crest) :: frest ->
  for_each (FuelComplex.complexOneClass self cat) wrest st
  = complexClasses crest wrest st.
Proof.
  induction crest as [|[k f] crest IH];
    intros wrest cdone fdone frest st Hkeys Hnd Hcat Hfp.
  - destruct wrest as [|[k' w] wrest]; [reflexivity|discriminate Hkeys].
  - destruct wrest as [|[k' w] wrest]; [discriminate Hkeys|].
    injection Hkeys as <- Hkeys.
    assert (Hk : ~ In k (dict_keys cdone)).
    { rewrite dict_keys_app in Hnd. now apply NoDup_app_head in Hnd. }
    cbn [for_each complexClasses].
    assert (Hstep : FuelComplex.complexOneClass self cat (k, w) st
                    = complexStep f w st).
    { unfold FuelComplex.complexOneClass, complexStep.
      destruct st as [[catSigma pr] bd]. cbn [fst snd].
      rewrite Hfp. rewrite dict_get_mid by assumption. cbn [bind].
      rewrite dict_get_mid by assumption. reflexivity. }
    rewrite Hstep.
    destruct (complexStep f w st) as [st'|e]; cbn [bind]; [|reflexivity].
    apply (IH wrest (cdone ++ [(k, f)]) fdone frest st'); try assumption.
    + now rewrite <- app_assoc.
    + now rewrite <- app_assoc.
Qed.

Lemma complexCategories_loop (self : FuelComplex.t)
    (frest : dict (dict Fuel.t)) :
  forall (catwrest : dict R) (clwrest clwdone : dict (dict R))
    (fdone : dict (dict Fuel.t)) (st : R * R * R),
  same_keys2 frest clwrest ->
  same_keys frest catwrest ->
  NoDup (dict_keys (fdone ++ frest)) ->
  Forall (fun kv => wf_dict (snd kv)) frest ->
  dict_keys clwdone = dict_keys fdone ->
  FuelComplex.fuelParameters self = fdone ++ frest ->
  FuelComplex.classWeighting self = clwdone ++ clwrest ->
  for_each (FuelComplex.complexOneCategory self) catwrest st
  = complexCategories frest catwrest clwrest st.
Proof.
  induction frest as [|[cat classes] frest IH];
    intros catwrest clwrest clwdone fdone st Hsk Hkc Hnd Hwf Hkd Hfp Hclw.
  - destruct catwrest as [|[k' w] catwrest]; [reflexivity|discriminate Hkc].
  - destruct catwrest as [|[k' catWeight] catwrest]; [discriminate Hkc|].
    injection Hkc as <- Hkc.
    inversion Hsk as [|? [cat' cw] ? clwrest' [Hc Hkcl] Hsk']; subst.
    cbn [fst snd] in Hc, Hkcl. subst cat'.
    inversion Hwf as [|? ? Hwc Hwf']; subst. cbn [snd] in Hwc.
    assert (Hcat : ~ In cat (dict_keys fdone)).
    { rewrite dict_keys_app in Hnd. now apply NoDup_app_head in Hnd. }
    cbn [for_each complexCategories].
    unfold FuelComplex.complexOneCategory at 1.
    destruct st as [[sigma pr] bd]. cbn [fst snd].
    rewrite Hclw. rewrite dict_get_mid by now rewrite Hkd. cbn [bind].
    rewrite (complexClass_loop self cat classes cw [] fdone frest);
      try assumption.
    destruct (complexClasses classes cw (0, pr, bd)) as [[[cs pr'] bd']|e];
      cbn [bind]; [|reflexivity].
    apply (IH catwrest clwrest' (clwdone ++ [(cat, cw)])
              (fdone ++ [(cat, classes)])); try assumption.
    + now rewrite <- app_assoc.
    + rewrite !dict_keys_app. cbn [dict_keys map fst]. now rewrite Hkd.
    + now rewrite <- app_assoc.
    + now rewrite <- app_assoc.
Qed.

Lemma aggregateIntoComplex_eq (c : FuelComplex.t) :
  wf_params (FuelComplex.fuelParameters c) ->
  same_keys2 (FuelComplex.fuelParameters c) (FuelComplex.classWeighting c) ->
  same_keys (FuelComplex.fuelParameters c) (FuelComplex.categoryWeighting c) ->
  FuelComplex.aggregateIntoComplex c = aggregateIntoComplex_spec c.
Proof.
  intros [Hnd Hwf] Hsk Hkeys.
  unfold FuelComplex.aggregateIntoComplex, aggregateIntoComplex_spec.
  rewrite (complexCategories_loop c (FuelComplex.fuelParameters c)
             (FuelComplex.categoryWeighting c)
             (FuelComplex.classWeighting c) [] []); try assumption;
    reflexivity.
Qed.

(** ** The whole of [compute] *)

Lemma same_keys2_refl {A : Type} (d : dict (dict A)) : same_keys2 d d.
Proof.
  induction d as [|[k a] d IH]; constructor; [now split|assumption].
Qed.

Lemma same_keys2_trans {A B C : Type} (d1 : dict (dict A))
    (d2 : dict (dict B)) (d3 : dict (dict C)) :
  same_keys2 d1 d2 -> same_keys2 d2 d3 -> same_keys2 d1 d3.
Proof.
  intros H. revert d3. induction H as [|x y d1 d2 [Hk Hs] _ IH];
    intros d3 H23; inversion H23 as [|? z ? d3' [Hk' Hs'] H23']; subst.
  - constructor.
  - constructor; [|now apply IH]. split; [congruence|].
    unfold same_keys in *. congruence.
Qed.

Lemma same_keys2_sym {A B : Type} (d1 : dict (dict A)) (d2 : dict (dict B)) :
  same_keys2 d1 d2 -> same_keys2 d2 d1.
Proof.
  induction 1 as [|x y d1 d2 [Hk Hs] _ IH]; constructor; [|assumption].
  split; [congruence|]. unfold same_keys in *. congruence.
Qed.

Lemma mapM2_same_keys {A B : Type} (f : A -> result B) (d : dict (dict A))
    (d' : dict (dict B)) :
  dict_mapM (dict_mapM f) d = Ok d' -> same_keys2 d d'.
Proof.
  unfold dict_mapM at 1. revert d'.
  induction d as [|[k v] d IH]; simpl; intros d' H.
  - injection H as <-. constructor.
  - destruct (dict_mapM f v) as [b|e] eqn:Hb; simpl in H; [|discriminate].
    destruct (mapM _ d) as [bs|e]; simpl in H; [|discriminate].
    injection H as <-. constructor; [|now apply IH].
    split; [reflexivity|]. cbn [snd]. unfold same_keys.
    symmetry. apply (mapM_keys _ _ _ Hb).
Qed.

Lemma weights_spec_keys (ca : dict (dict R)) (total : R)
    (ws : dict (R * dict R)) :
  weights_spec ca total = Ok ws ->
  same_keys2 ca (dict_map snd ws) /\ same_keys ca (dict_map fst ws).
Proof.
  unfold weights_spec, dict_mapM at 1. revert ws.
  induction ca as [|[k areas] ca IH]; simpl; intros ws H.
  - injection H as <-. split; [constructor|reflexivity].
  - destruct (py_div _ total) as [w|e]; simpl in H; [|discriminate].
    destruct (dict_mapM _ areas) as [cw|e] eqn:Hcw; simpl in H;
      [|discriminate].
    destruct (mapM _ ca) as [bs|e]; simpl in H; [|discriminate].
    injection H as <-. destruct (IH bs eq_refl) as [IH1 IH2]. split.
    + constructor; [|exact IH1]. split; [reflexivity|]. cbn [snd].
      unfold same_keys. symmetry. apply (mapM_keys _ _ _ Hcw).
    + unfold same_keys, dict_keys in *. simpl. now f_equal.
Qed.

Lemma calcWeightingParameters_spec_inv (c c1 : FuelComplex.t) :
  calcWeightingParameters_spec c = Ok c1 ->
  exists ca ws,
    areas_spec (FuelComplex.fuelParameters c) = Ok ca /\
    weights_spec ca (totalArea_spec ca) = Ok ws /\
    c1 = FuelComplex.with_classWeighting (dict_map snd ws)
           (FuelComplex.with_categoryWeighting (dict_map fst ws)
              (FuelComplex.with_classAreas ca
                 (FuelComplex.with_categoryAreas (categoryAreas_spec ca)
                    (FuelComplex.with_totalArea (totalArea_spec ca) c)))) /\
    same_keys2 (FuelComplex.fuelParameters c) (dict_map snd ws) /\
    same_keys (FuelComplex.fuelParameters c) (dict_map fst ws).
Proof.
  unfold calcWeightingParameters_spec. intros H.
  destruct (areas_spec _) as [ca|e] eqn:Ha; cbn [bind] in H; [|discriminate].
  destruct (weights_spec ca _) as [ws|e] eqn:Hw; cbn [bind] in H;
    [|discriminate].
  injection H as <-. exists ca, ws.
  destruct (weights_spec_keys _ _ _ Hw) as [Hk2 Hk1].
  pose proof (mapM2_same_keys _ _ _ Ha) as Hca.
  repeat split; try assumption.
  - now apply (same_keys2_trans _ ca).
  - unfold same_keys in *. rewrite <- Hk1. now apply same_keys2_keys.
Qed.

(** *** The particles after aggregation *)

Lemma calcNetFuelLoading_inv (f f' : Fuel.t) :
  Fuel.calcNetFuelLoading f = Ok f' ->
  exists n, f' = Fuel.with_netFuelLoading (Some n) f.
Proof.
  unfold Fuel.calcNetFuelLoading.
  destruct (Fuel.class f); [discriminate| |].
  - destruct (Fuel.ovendryLoading f) as [w|]; cbn [num bind];
      [|discriminate].
    destruct (py_div _ _) as [n|e]; cbn [bind]; [|discriminate].
    intros [= <-]. now exists n.
  - destruct (Fuel.ovendryLoading f) as [w|]; cbn [num bind];
      [|discriminate].
    intros [= <-]. eexists. reflexivity.
Qed.

Lemma calcNetFuelLoading_idem (f f' : Fuel.t) :
  Fuel.calcNetFuelLoading f = Ok f' -> Fuel.calcNetFuelLoading f' = Ok f'.
Proof.
  unfold Fuel.calcNetFuelLoading.
  destruct f as [cls w bd em fm sg pd tm eff hc pr op mv ea he hi nl].
  cbn [Fuel.class Fuel.ovendryLoading Fuel.totMineralContent].
  destruct cls; [discriminate| |].
  - destruct w as [w|]; cbn [num bind]; [|discriminate].
    destruct (py_div w (1 + tm)) as [n|e] eqn:Hn; cbn [bind]; [|discriminate].
    intros [= <-]. cbn. rewrite Hn. reflexivity.
  - destruct w as [w|]; cbn [num bind]; [|discriminate].
    intros [= <-]. reflexivity.
Qed.

Lemma aggStep_idem (f f' : Fuel.t) (w : R) (acc acc' : Aggregates) :
  aggStep f w acc = Ok (f', acc') -> aggStep f' w acc = Ok (f', acc').
Proof.
  unfold aggStep. intros H.
  destruct (Fuel.calcNetFuelLoading f) as [f1|e] eqn:Hf; cbn [bind] in H;
    [|discriminate].
  destruct (attr (Fuel.netFuelLoading f1)) as [n|e] eqn:Hn; cbn [bind] in H;
    [|discriminate].
  destruct (num (Fuel.fuelMoisture f1)) as [m|e] eqn:Hm; cbn [bind] in H;
    [|discriminate].
  injection H as <- <-.
  rewrite (calcNetFuelLoading_idem f f1 Hf). cbn [bind].
  rewrite Hn, Hm. reflexivity.
Qed.

Lemma aggStep_area (f f' : Fuel.t) (w : R) (acc acc' : Aggregates) :
  aggStep f w acc = Ok (f', acc') ->
  Fuel.sigma f' = Fuel.sigma f /\
  Fuel.ovendryLoading f' = Fuel.ovendryLoading f /\
  Fuel.particleDensity f' = Fuel.particleDensity f /\
  Fuel.fuelMoisture f' = Fuel.fuelMoisture f /\
  Fuel.heatOfIgnition f' = Fuel.heatOfIgnition f /\
  Fuel.heatingEfficiency f' = Fuel.heatingEfficiency f.
Proof.
  unfold aggStep. intros H.
  destruct (Fuel.calcNetFuelLoading f) as [f1|e] eqn:Hf; cbn [bind] in H;
    [|discriminate].
  destruct (attr (Fuel.netFuelLoading f1)) as [n|e]; cbn [bind] in H;
    [|discriminate].
  destruct (num (Fuel.fuelMoisture f1)) as [m|e]; cbn [bind] in H;
    [|discriminate].
  injection H as <- _.
  destruct (calcNetFuelLoading_inv f f1 Hf) as [n' ->].
  repeat split.
Qed.

Lemma aggClasses_idem (classes : dict Fuel.t) :
  forall (cw : dict R) (acc : Aggregates) (rest : dict Fuel.t)
    (acc' : Aggregates),
  aggClasses classes cw acc = Ok (rest, acc') ->
  aggClasses rest cw acc = Ok (rest, acc').
Proof.
  induction classes as [|[k f] classes IH]; intros cw acc rest acc' H.
  - cbn in H. injection H as <- <-. reflexivity.
  - destruct cw as [|[k' w] cw].
    + cbn in H. injection H as <- <-. reflexivity.
    + cbn [aggClasses] in H.
      destruct (aggStep f w acc) as [[f' acc1]|e] eqn:Hs; cbn [bind] in H;
        [|discriminate].
      destruct (aggClasses classes cw acc1) as [[rest1 acc2]|e] eqn:Hr;
        cbn [bind] in H; [|discriminate].
      injection H as <- <-. cbn [aggClasses].
      rewrite (aggStep_idem _ _ _ _ _ Hs). cbn [bind].
      rewrite (IH _ _ _ _ Hr). reflexivity.
Qed.

Lemma aggClasses_keys (classes : dict Fuel.t) :
  forall (cw : dict R) (acc : Aggregates) (rest : dict Fuel.t)
    (acc' : Aggregates),
  aggClasses classes cw acc = Ok (rest, acc') ->
  dict_keys rest = dict_keys classes.
Proof.
  induction classes as [|[k f] classes IH]; intros cw acc rest acc' H.
  - cbn in H. injection H as <- <-. reflexivity.
  - destruct cw as [|[k' w] cw].
    + cbn in H. injection H as <- <-. reflexivity.
    + cbn [aggClasses] in H.
      destruct (aggStep f w acc) as [[f' acc1]|e] eqn:Hs; cbn [bind] in H;
        [|discriminate].
      destruct (aggClasses classes cw acc1) as [[rest1 acc2]|e] eqn:Hr;
        cbn [bind] in H; [|discriminate].
      injection H as <- <-. unfold dict_keys in *. cbn [map fst].
      f_equal. apply (IH _ _ _ _ Hr).
Qed.

Lemma area_congr (f f' : Fuel.t) :
  Fuel.sigma f' = Fuel.sigma f ->
  Fuel.ovendryLoading f' = Fuel.ovendryLoading f ->
  Fuel.particleDensity f' = Fuel.particleDensity f ->
  FuelComplex.calcMeanSurfaceAreaOneClass f'
  = FuelComplex.calcMeanSurfaceAreaOneClass f.
Proof.
  intros H1 H2 H3. unfold FuelComplex.calcMeanSurfaceAreaOneClass.
  now rewrite H1, H2, H3.
Qed.

Lemma aggClasses_areas (classes : dict Fuel.t) :
  forall (cw : dict R) (acc : Aggregates) (rest : dict Fuel.t)
    (acc' : Aggregates),
  aggClasses classes cw acc = Ok (rest, acc') ->
  dict_mapM FuelComplex.calcMeanSurfaceAreaOneClass rest
  = dict_mapM FuelComplex.calcMeanSurfaceAreaOneClass classes.
Proof.
  unfold dict_mapM.
  induction classes as [|[k f] classes IH]; intros cw acc rest acc' H.
  - cbn in H. injection H as <- <-. reflexivity.
  - destruct cw as [|[k' w] cw].
    + cbn in H. injection H as <- <-. reflexivity.
    + cbn [aggClasses] in H.
      destruct (aggStep f w acc) as [[f' acc1]|e] eqn:Hs; cbn [bind] in H;
        [|discriminate].
      destruct (aggClasses classes cw acc1) as [[rest1 acc2]|e] eqn:Hr;
        cbn [bind] in H; [|discriminate].
      injection H as <- <-. cbn [mapM fst snd].
      destruct (aggStep_area _ _ _ _ _ Hs) as (H1 & H2 & H3 & _).
      rewrite (area_congr f f' H1 H2 H3).
      rewrite (IH _ _ _ _ Hr). reflexivity.
Qed.

Lemma aggCategories_idem (fp : dict (dict Fuel.t)) :
  forall (clw : dict (dict R)) (cats : dict (dict Fuel.t * Aggregates)),
  aggCategories fp clw = Ok cats ->
  aggCategories (dict_map fst cats) clw = Ok cats.
Proof.
  induction fp as [|[cat classes] fp IH]; intros clw cats H.
  - cbn in H. injection H as <-. reflexivity.
  - destruct clw as [|[k' cw] clw].
    + cbn in H. injection H as <-. reflexivity.
    + cbn [aggCategories] in H.
      destruct (aggClasses classes cw _) as [[rest acc]|e] eqn:Hr;
        cbn [bind] in H; [|discriminate].
      destruct (aggCategories fp clw) as [rs|e] eqn:Hrs; cbn [bind] in H;
        [|discriminate].
      injection H as <-. cbn [dict_map map fst snd aggCategories].
      rewrite (aggClasses_idem _ _ _ _ _ Hr). cbn [bind].
      fold (dict_map (@fst (dict Fuel.t) Aggregates) rs).
      rewrite (IH _ _ Hrs). reflexivity.
Qed.

Lemma aggCategories_keys (fp : dict (dict Fuel.t)) :
  forall (clw : dict (dict R)) (cats : dict (dict Fuel.t * Aggregates)),
  same_keys2 fp clw ->
  aggCategories fp clw = Ok cats ->
  same_keys2 fp (dict_map fst cats).
Proof.
  induction fp as [|[cat classes] fp IH]; intros clw cats Hsk H.
  - cbn in H. injection H as <-. constructor.
  - inversion Hsk as [|? [cat' cw] ? clw' [Hc Hkc] Hsk']; subst.
    cbn [aggCategories] in H.
    destruct (aggClasses classes cw _) as [[rest acc]|e] eqn:Hr;
      cbn [bind] in H; [|discriminate].
    destruct (aggCategories fp clw') as [rs|e] eqn:Hrs; cbn [bind] in H;
      [|discriminate].
    injection H as <-. cbn [dict_map map fst snd]. constructor.
    + split; [reflexivity|]. cbn [snd]. unfold same_keys. symmetry.
      apply (aggClasses_keys _ _ _ _ _ Hr).
    + apply (IH clw' rs Hsk' Hrs).
Qed.

Lemma aggCategories_areas (fp : dict (dict Fuel.t)) :
  forall (clw : dict (dict R)) (cats : dict (dict Fuel.t * Aggregates)),
  same_keys2 fp clw ->
  aggCategories fp clw = Ok cats ->
  areas_spec (dict_map fst cats) = areas_spec fp.
Proof.
  unfold areas_spec, dict_mapM at 1 3.
  induction fp as [|[cat classes] fp IH]; intros clw cats Hsk H.
  - cbn in H. injection H as <-. reflexivity.
  - inversion Hsk as [|? [cat' cw] ? clw' [Hc Hkc] Hsk']; subst.
    cbn [aggCategories] in H.
    destruct (aggClasses classes cw _) as [[rest acc]|e] eqn:Hr;
      cbn [bind] in H; [|discriminate].
    destruct (aggCategories fp clw') as [rs|e] eqn:Hrs; cbn [bind] in H;
      [|discriminate].
    injection H as <-. cbn [dict_map map fst snd mapM].
    rewrite (aggClasses_areas _ _ _ _ _ Hr).
    fold (dict_map (@fst (dict Fuel.t) Aggregates) rs).
    rewrite (IH clw' rs Hsk' Hrs). reflexivity.
Qed.

Lemma wf_same_keys2 {A B : Type} (d1 : dict (dict A)) (d2 : dict (dict B)) :
  same_keys2 d1 d2 -> wf_dict2 d1 -> wf_dict2 d2.
Proof.
  intros Hsk [Hnd Hall]. split.
  - unfold wf_dict. now rewrite <- (same_keys2_keys _ _ Hsk).
  - clear Hnd. induction Hsk as [|x y d1 d2 [_ Hs] _ IH]; constructor.
    + inversion Hall; subst. unfold wf_dict, same_keys in *.
      now rewrite <- Hs.
    + apply IH. now inversion Hall.
Qed.

Lemma aggregateIntoCategories_spec_inv (c c2 : FuelComplex.t) :
  aggregateIntoCategories_spec c = Ok c2 ->
  exists cats,
    aggCategories (FuelComplex.fuelParameters c)
      (FuelComplex.classWeighting c) = Ok cats /\
    c2 = FuelComplex.with_aggregates
           (dict_map (fun r => a_heat (snd r)) cats)
           (dict_map (fun r => a_net (snd r)) cats)
           (dict_map (fun r => a_eff (snd r)) cats)
           (dict_map (fun r => a_moist (snd r)) cats)
           (FuelComplex.with_fuelParameters (dict_map fst cats) c).
Proof.
  unfold aggregateIntoCategories_spec. intros H.
  destruct (aggCategories _ _) as [cats|e]; cbn [bind] in H; [|discriminate].
  injection H as <-. now exists cats.
Qed.

(** [compute] is the composition of the three traversals. *)
Lemma compute_eq (c : FuelComplex.t) :
  wf_params (FuelComplex.fuelParameters c) ->
  FuelComplex.compute c = compute_spec c.
Proof.
  intros Hwf. unfold FuelComplex.compute, compute_spec.
  rewrite calcWeightingParameters_eq by assumption.
  destruct (calcWeightingParameters_spec c) as [c1|e] eqn:H1; cbn [bind];
    [|reflexivity].
  destruct (calcWeightingParameters_spec_inv c c1 H1)
    as (ca & ws & _ & _ & -> & Hk2 & Hk1).
  rewrite aggregateIntoCategories_eq; fc_simpl; try assumption.
  2: { symmetry. exact Hk1. }
  match goal with
  | |- (c0 <- ?m ;; _) = _ => destruct m as [c2|e] eqn:H2
  end; cbn [bind]; [|reflexivity].
  destruct (aggregateIntoCategories_spec_inv _ c2 H2) as (cats & Hc & ->).
  fc_simpl.
  pose proof (aggCategories_keys _ _ _ Hk2 Hc) as Hk3.
  apply aggregateIntoComplex_eq; fc_simpl.
  - apply (wf_same_keys2 _ _ Hk3 Hwf).
  - apply (same_keys2_trans _ (FuelComplex.fuelParameters c));
      [now apply same_keys2_sym|assumption].
  - unfold same_keys in *. rewrite <- Hk1. symmetry.
    now apply same_keys2_keys.
Qed.

(** *** Idempotence *)

Lemma setSigma_inv (sg : R) (x y : Fuel.t) :
  Fuel.setSigma sg x = Ok y ->
  exists op mv ea he,
    y = Fuel.with_heatingEfficiency (Some he)
          (Fuel.with_exponentA (Some ea)
             (Fuel.with_maxPotentialVelocity (Some mv)
                (Fuel.with_optimalPacking (Some op)
                   (Fuel.with_sigma (Some sg) x)))) /\
    forall z, Fuel.class z = Fuel.class x ->
      Fuel.setSigma sg z
      = Ok (Fuel.with_heatingEfficiency (Some he)
              (Fuel.with_exponentA (Some ea)
                 (Fuel.with_maxPotentialVelocity (Some mv)
                    (Fuel.with_optimalPacking (Some op)
                       (Fuel.with_sigma (Some sg) z))))).
Proof.
  unfold Fuel.setSigma, Fuel.setSigma_run.
  destruct (py_pow sg (-0.8189)) as [p|e]; [|discriminate].
  destruct (py_pow sg 1.5) as [p15|e]; [|discriminate].
  destruct (py_div p15 _) as [v|e]; [|discriminate].
  unfold Fuel.calcExponentA.
  cbn [Fuel.class Fuel.sigma Fuel.with_maxPotentialVelocity
       Fuel.with_optimalPacking Fuel.with_sigma num bind].
  destruct (Fuel.class x) eqn:Hc; [discriminate| |].
  - destruct (RothermelExponentA sg) as [a|e]; cbn [bind]; [|discriminate].
    destruct (py_div (-138) sg) as [q|e]; [|discriminate].
    intros [= <-]. exists (3.348 * p), v, a, (exp q). split.
    + destruct x; cbn in *; subst; reflexivity.
    + intros z Hz. rewrite Hz. cbn [bind].
      destruct z; cbn in *; subst; reflexivity.
  - destruct (AlbiniExponentA sg) as [a|e]; cbn [bind]; [|discriminate].
    destruct (py_div (-138) sg) as [q|e]; [|discriminate].
    intros [= <-]. exists (3.348 * p), v, a, (exp q). split.
    + destruct x; cbn in *; subst; reflexivity.
    + intros z Hz. rewrite Hz. cbn [bind].
      destruct z; cbn in *; subst; reflexivity.
Qed.

Lemma storeComplex_idem (st : R * R * R) (c c' : FuelComplex.t) :
  FuelComplex.storeComplex st c = Ok c' ->
  FuelComplex.storeComplex st c' = Ok c'.
Proof.
  unfold FuelComplex.storeComplex. destruct st as [[sigma pr] bd].
  destruct (py_div bd (FuelComplex.depth c)) as [bd'|e] eqn:Hbd;
    cbn [bind]; [|discriminate].
  destruct (py_div pr (FuelComplex.depth c)) as [pr'|e] eqn:Hpr;
    cbn [bind]; [|discriminate].
  destruct (Fuel.setSigma sigma _) as [b|e] eqn:Hb; cbn [bind];
    [|discriminate].
  intros [= <-]. fc_simpl. rewrite Hbd, Hpr. cbn [bind].
  destruct (setSigma_inv _ _ _ Hb) as (op & mv & ea & he & -> & Hz).
  rewrite Hz by reflexivity.
  destruct c as [b0 ? ? ? ? ? ? ? ? ? ? ? ? ? ?]. destruct b0. reflexivity.
Qed.

Lemma storeComplex_inv (st : R * R * R) (c c' : FuelComplex.t) :
  FuelComplex.storeComplex st c = Ok c' ->
  exists b, c' = FuelComplex.with_base b c.
Proof.
  unfold FuelComplex.storeComplex. destruct st as [[sigma pr] bd].
  destruct (py_div bd _) as [bd'|e]; cbn [bind]; [|discriminate].
  destruct (py_div pr _) as [pr'|e]; cbn [bind]; [|discriminate].
  destruct (Fuel.setSigma sigma _) as [b|e]; cbn [bind]; [|discriminate].
  intros [= <-]. now exists b.
Qed.

Lemma compute_spec_idem (c c3 : FuelComplex.t) :
  compute_spec c = Ok c3 -> compute_spec c3 = Ok c3.
Proof.
  unfold compute_spec. intros H.
  destruct (calcWeightingParameters_spec c) as [c1|e] eqn:H1;
    cbn [bind] in H; [|discriminate].
  destruct (calcWeightingParameters_spec_inv c c1 H1)
    as (ca & ws & Ha & Hw & -> & Hk2 & Hk1).
  destruct (aggregateIntoCategories_spec _) as [c2|e] eqn:H2;
    cbn [bind] in H; [|discriminate].
  destruct (aggregateIntoCategories_spec_inv _ c2 H2) as (cats & Hc & ->).
  fc_simpl.
  unfold aggregateIntoComplex_spec in H. fc_simpl.
  destruct (complexCategories _ _ _ _) as [st|e] eqn:Hst; cbn [bind] in H;
    [|discriminate].
  pose proof (storeComplex_idem _ _ _ H) as Hidem.
  destruct (storeComplex_inv _ _ _ H) as [b ->].
  unfold calcWeightingParameters_spec. fc_simpl.
  rewrite (aggCategories_areas _ _ _ Hk2 Hc), Ha. cbn [bind].
  rewrite Hw. cbn [bind].
  unfold aggregateIntoCategories_spec. fc_simpl.
  rewrite (aggCategories_idem _ _ _ Hc). cbn [bind].
  unfold aggregateIntoComplex_spec. fc_simpl.
  rewrite Hst. cbn [bind].
  destruct c. exact Hidem.
Qed.

(** C8: when [compute()] succeeds, a second [compute()] on the complex it
    leaves, with nothing changed in between, succeeds and leaves exactly the
    same complex: the same class and category weights, the same
    per-category aggregates (netFuelLoading, heatContent, effMineralContent,
    fuelMoisture) and the same whole-complex aggregates (sigma, packingRatio,
    bulkDensity). *)
Theorem compute_idempotent (c c1 : FuelComplex.t) :
  wf_params (FuelComplex.fuelParameters c) ->
  FuelComplex.compute c = Ok c1 ->
  FuelComplex.compute c1 = Ok c1 /\
  forall c2, FuelComplex.compute c1 = Ok c2 ->
    FuelComplex.classWeighting c2 = FuelComplex.classWeighting c1 /\
    FuelComplex.categoryWeighting c2 = FuelComplex.categoryWeighting c1 /\
    FuelComplex.netFuelLoading c2 = FuelComplex.netFuelLoading c1 /\
    FuelComplex.heatContent c2 = FuelComplex.heatContent c1 /\
    FuelComplex.effMineralContent c2 = FuelComplex.effMineralContent c1 /\
    FuelComplex.fuelMoisture c2 = FuelComplex.fuelMoisture c1 /\
    Fuel.sigma (FuelComplex.base c2) = Fuel.sigma (FuelComplex.base c1) /\
    Fuel.packingRatio (FuelComplex.base c2)
      = Fuel.packingRatio (FuelComplex.base c1) /\
    Fuel.bulkDensity (FuelComplex.base c2)
      = Fuel.bulkDensity (FuelComplex.base c1).
Proof.
  intros Hwf H.
  assert (Hwf1 : wf_params (FuelComplex.fuelParameters c1)).
  { rewrite compute_eq in H by assumption. unfold compute_spec in H.
    destruct (calcWeightingParameters_spec c) as [c0|e] eqn:H1;
      cbn [bind] in H; [|discriminate].
    destruct (calcWeightingParameters_spec_inv c c0 H1)
      as (ca & ws & Ha & Hw & -> & Hk2 & Hk1).
    destruct (aggregateIntoCategories_spec _) as [c2|e] eqn:H2;
      cbn [bind] in H; [|discriminate].
    destruct (aggregateIntoCategories_spec_inv _ c2 H2) as (cats & Hc & ->).
    fc_simpl. unfold aggregateIntoComplex_spec in H.
    destruct (complexCategories _ _ _ _) as [st|e]; cbn [bind] in H;
      [|discriminate].
    destruct (storeComplex_inv _ _ _ H) as [b ->]. fc_simpl.
    apply (wf_same_keys2 (FuelComplex.fuelParameters c)); [|assumption].
    apply (aggCategories_keys _ _ _ Hk2 Hc). }
  assert (H1 : FuelComplex.compute c1 = Ok c1).
  { rewrite compute_eq by assumption. apply (compute_spec_idem c).
    now rewrite <- compute_eq. }
  split; [exact H1|].
  intros c2 H2. rewrite H1 in H2. injection H2 as <-. repeat split.
Qed.

(** ** A complex with a single particle *)

Lemma wf_single (cls : FuelClass) (f : Fuel.t) (ext dp : R) :
  wf_params (FuelComplex.fuelParameters (single_complex cls f ext dp)).
Proof.
  split; repeat constructor; simpl; tauto.
Qed.

Lemma calcNet_ready (cls : FuelClass) (sg w m heat tot eff : R) :
  cls <> FuelBase ->
  (cls = RothermelFuel -> 1 + tot <> 0) ->
  Fuel.calcNetFuelLoading (ready_fuel cls sg w m heat tot eff)
  = Ok (Fuel.with_netFuelLoading (Some (netLoading_of cls w tot))
          (ready_fuel cls sg w m heat tot eff)).
Proof.
  intros Hc Ht. unfold Fuel.calcNetFuelLoading.
  destruct cls; [contradiction| |]; cbn.
  - rewrite py_div_ok by now apply Ht. reflexivity.
  - reflexivity.
Qed.

Lemma single_complex_eq (cls : FuelClass) (f : Fuel.t) (ext dp : R) :
  single_complex cls f ext dp
  = FuelComplex.mk
      (Fuel.mk cls None None None None None 32 0.0555 0.01 8000
         None None None None None None None)
      [(DEAD, [(ONEHR, f)])] [(DEAD, ext)] dp [] [] 0 [] []
      None None None None None None.
Proof. reflexivity. Qed.

Lemma compute_single (cls : FuelClass) (sg w m heat tot eff ext dp : R) :
  cls <> FuelBase ->
  0 < sg -> w <> 0 -> dp <> 0 ->
  (cls = RothermelFuel -> 1 + tot <> 0) ->
  exponentA_defined cls sg ->
  FuelComplex.compute
    (single_complex cls (ready_fuel cls sg w m heat tot eff) ext dp)
  = Ok (computed_single cls sg w m heat tot eff ext dp).
Proof.
  intros Hc Hsg Hw Hdp Htot Hdef.
  rewrite compute_eq by apply wf_single.
  assert (Ha : sg * w / 32 <> 0).
  { unfold Rdiv. apply Rmult_integral_contrapositive_currified.
    - apply Rmult_integral_contrapositive_currified; lra.
    - lra. }
  rewrite single_complex_eq.
  unfold compute_spec, calcWeightingParameters_spec. fc_simpl.
  assert (Hareas : areas_spec
             [(DEAD, [(ONEHR, ready_fuel cls sg w m heat tot eff)])]
           = Ok [(DEAD, [(ONEHR, sg * w / 32)])]).
  { unfold areas_spec, dict_mapM. cbn.
    unfold FuelComplex.calcMeanSurfaceAreaOneClass. cbn.
    rewrite py_div_ok by lra. reflexivity. }
  rewrite Hareas. cbn [bind].
  unfold weights_spec, dict_mapM, totalArea_spec, categoryAreas_spec,
    dict_map, dict_values, sumL.
  cbn [map fst snd fold_left mapM].
  replace (0 + sg * w / 32) with (sg * w / 32) by lra.
  replace (0 + sg * w / 32) with (sg * w / 32) by lra.
  rewrite !py_div_ok by assumption. cbn [bind map fst snd].
  replace (sg * w / 32 / (sg * w / 32)) with 1 by (field; lra).
  unfold aggregateIntoCategories_spec. fc_simpl.
  cbn [aggCategories aggClasses]. unfold aggStep.
  rewrite calcNet_ready by assumption. cbn [bind].
  cbn [Fuel.netFuelLoading Fuel.with_netFuelLoading attr bind
       Fuel.fuelMoisture ready_fuel Fuel.setFuelMoisture num
       Fuel.heatContent Fuel.effMineralContent Fuel.setHeatContent
       Fuel.setMineralContent a_heat a_net a_eff a_moist
       dict_map map fst snd].
  unfold aggregateIntoComplex_spec. fc_simpl.
  cbn [complexCategories complexClasses]. unfold complexStep.
  cbn [Fuel.sigma Fuel.ovendryLoading Fuel.particleDensity
       Fuel.with_netFuelLoading fuel_of num bind ready_fuel
       Fuel.setFuelMoisture Fuel.setHeatContent Fuel.setMineralContent].
  rewrite py_div_ok by lra. cbn [bind].
  unfold FuelComplex.storeComplex. fc_simpl.
  rewrite !py_div_ok by assumption. cbn [bind].
  replace (0 + 1 * (0 + 1 * sg)) with sg by lra.
  rewrite setSigma_pos; [|assumption|exact Hdef].
  cbn [bind]. unfold computed_single. f_equal.
  cbn.
  replace ((0 + 1 * w) / dp) with (w / dp) by (field; assumption).
  replace ((0 + 1 * w / 32) / dp) with (w / 32 / dp) by (field; assumption).
  replace (0 + 1 * heat) with heat by lra.
  replace (0 + 1 * eff) with eff by lra.
  replace (0 + 1 * m) with m by lra.
  replace (0 + 1 * netLoading_of cls w tot) with (netLoading_of cls w tot)
    by lra.
  reflexivity.
Qed.

(** C8, witness: NFFL model 1 with a fuel moisture of 0.06. *)
Lemma compute_idempotent_witness :
  FuelComplex.compute
    (computed_single RothermelFuel 3500 0.034 0.06 8000 0.0555 0.01 0.12 1)
  = Ok (computed_single RothermelFuel 3500 0.034 0.06 8000 0.0555 0.01
          0.12 1).
Proof.
  refine (proj1 (compute_idempotent
            (single_complex RothermelFuel
               (ready_fuel RothermelFuel 3500 0.034 0.06 8000 0.0555 0.01)
               0.12 1) _ (wf_single _ _ _ _) _)).
  apply compute_single; try lra.
  - discriminate.
  - apply rothermel_defined_above. lra.
Defined.

(** ** Assembling a complex *)

Lemma dict_find_set_same {A : Type} (k : string) (v : A) (d : dict A) :
  dict_find k (dict_set k v d) = Some v.
Proof.
  induction d as [|[k' v'] d IH]; simpl.
  - now rewrite eqb_refl_str.
  - destruct (String.eqb_spec k k') as [->|Hne]; simpl.
    + now rewrite eqb_refl_str.
    + destruct (String.eqb_spec k k'); [contradiction|exact IH].
Qed.

Lemma dict_find_set_other {A : Type} (k k' : string) (v : A) (d : dict A) :
  k' <> k -> dict_find k' (dict_set k v d) = dict_find k' d.
Proof.
  intros Hne. induction d as [|[k0 v0] d IH]; simpl.
  - destruct (String.eqb_spec k' k); [contradiction|reflexivity].
  - destruct (String.eqb_spec k k0) as [->|Hk]; simpl.
    + destruct (String.eqb_spec k' k0); [contradiction|reflexivity].
    + destruct (String.eqb_spec k' k0); [reflexivity|exact IH].
Qed.

Lemma dict_set_In_keys {A : Type} (k : string) (v : A) (d : dict A) :
  In k (dict_keys d) -> dict_keys (dict_set k v d) = dict_keys d.
Proof.
  unfold dict_keys. induction d as [|[k0 v0] d IH]; simpl; [contradiction|].
  intros Hin. destruct (String.eqb_spec k k0) as [->|Hk]; simpl.
  - reflexivity.
  - f_equal. apply IH. destruct Hin as [Heq|Hin]; [congruence|assumption].
Qed.

Lemma dict_find_keys {A : Type} (k : string) (d : dict A) :
  dict_find k d <> None <-> In k (dict_keys d).
Proof.
  unfold dict_keys. induction d as [|[k0 v0] d IH]; simpl.
  - split; [congruence|contradiction].
  - destruct (String.eqb_spec k k0) as [->|Hk].
    + split; [now left|discriminate].
    + rewrite IH. split; [now right|].
      intros [Heq|Hin]; [congruence|assumption].
Qed.

Lemma NoDup_snoc {A : Type} (l : list A) (a : A) :
  NoDup l -> ~ In a l -> NoDup (l ++ [a]).
Proof.
  induction l as [|b l IH]; simpl; intros Hnd Hni.
  - constructor; [intros []|constructor].
  - inversion Hnd as [|? ? Hb Hl]; subst. constructor.
    + rewrite in_app_iff. simpl. intros [H|[H|[]]]; [contradiction|].
      subst. apply Hni. now left.
    + apply IH; [assumption|]. intros H. apply Hni. now right.
Qed.

Lemma wf_dict_set {A : Type} (k : string) (v : A) (d : dict A) :
  wf_dict d -> wf_dict (dict_set k v d).
Proof.
  unfold wf_dict. intros Hwf.
  destruct (dict_find k d) as [v0|] eqn:Hf.
  - rewrite dict_set_In_keys; [assumption|].
    apply dict_find_keys. congruence.
  - assert (Hni : ~ In k (dict_keys d)).
    { intros Hin. apply dict_find_keys in Hin. contradiction. }
    rewrite dict_set_notin by assumption.
    rewrite dict_keys_app. simpl.
    now apply NoDup_snoc.
Qed.

Lemma Forall_dict_set {A : Type} (P : string * A -> Prop) (k : string)
    (v : A) (d : dict A) :
  Forall P d -> P (k, v) -> Forall P (dict_set k v d).
Proof.
  intros Hd Hk. induction d as [|[k' v'] d IH]; simpl.
  - constructor; [assumption|constructor].
  - inversion Hd; subst.
    destruct (String.eqb k k'); constructor; auto.
Qed.

Lemma Forall_dict_find {A : Type} (P : string * A -> Prop) (k : string)
    (v : A) (d : dict A) :
  Forall P d -> dict_find k d = Some v -> P (k, v).
Proof.
  intros Hd. induction d as [|[k' v'] d IH]; simpl; [discriminate|].
  inversion Hd; subst.
  destruct (String.eqb_spec k k') as [->|Hne]; intros Hf.
  - now injection Hf as <-.
  - now apply IH.
Qed.

Lemma dict_get_set_same {A : Type} (k : string) (v : A) (d : dict A) :
  dict_get k (dict_set k v d) = Ok v.
Proof. unfold dict_get. now rewrite dict_find_set_same. Qed.

Lemma dict_get_set_other {A : Type} (k k' : string) (v : A) (d : dict A) :
  k' <> k -> dict_get k' (dict_set k v d) = dict_get k' d.
Proof. intros H. unfold dict_get. now rewrite dict_find_set_other. Qed.

Lemma dict_set_set {A : Type} (k : string) (v v' : A) (d : dict A) :
  dict_set k v (dict_set k v' d) = dict_set k v d.
Proof.
  induction d as [|[k0 v0] d IH]; simpl.
  - now rewrite eqb_refl_str.
  - destruct (String.eqb_spec k k0) as [->|Hne]; simpl.
    + now rewrite eqb_refl_str.
    + destruct (String.eqb_spec k k0); [contradiction|]. now rewrite IH.
Qed.

(** [setFuelParams] in one assignment: the classes of the category, or none
    when the category is new, with the particle stored. *)
Lemma setFuelParams_eq (cat cls : string) (f : Fuel.t) (c : FuelComplex.t) :
  FuelComplex.setFuelParams cat cls f c
  = FuelComplex.with_fuelParameters
      (dict_set cat
         (dict_set cls f
            (match dict_find cat (FuelComplex.fuelParameters c) with
             | Some classes => classes
             | None => []
             end))
         (FuelComplex.fuelParameters c)) c.
Proof.
  unfold FuelComplex.setFuelParams, dict_mem.
  destruct (dict_find cat (FuelComplex.fuelParameters c)) as [classes|] eqn:Hf;
    cbv beta iota zeta delta [negb].
  - match goal with
    | |- match ?x with _ => _ end = _ =>
        replace x with (Some classes) by (symmetry; exact Hf)
    end.
    reflexivity.
  - rewrite dict_find_set_same.
    f_equal. apply dict_set_set.
Qed.

(** X1.  Reading the particle map after [setFuelParams(category, fuelClass,
    fuel)]: the slot written holds the new particle, and every other slot
    reads as before, a missing one raising [KeyError] as before. *)
Theorem setFuelParams_particle (cat cls cat' cls' : string) (f : Fuel.t)
    (c : FuelComplex.t) :
  FuelComplex.particle cat' cls' (FuelComplex.setFuelParams cat cls f c)
  = if (String.eqb cat' cat && String.eqb cls' cls)%bool then Ok f
    else FuelComplex.particle cat' cls' c.
Proof.
  rewrite setFuelParams_eq. unfold FuelComplex.particle.
  cbn [FuelComplex.fuelParameters FuelComplex.with_fuelParameters].
  destruct (String.eqb_spec cat' cat) as [->|Hc]; cbn [andb].
  - rewrite dict_get_set_same. cbn [bind].
    destruct (String.eqb_spec cls' cls) as [->|Hk].
    + apply dict_get_set_same.
    + rewrite dict_get_set_other by assumption.
      unfold dict_get.
      destruct (dict_find cat (FuelComplex.fuelParameters c)); reflexivity.
  - now rewrite dict_get_set_other.
Qed.

(** [setFuelParams] keeps the particle map well formed: no category and no
    size class of a category appears twice. *)
Lemma setFuelParams_wf (cat cls : string) (f : Fuel.t) (c : FuelComplex.t) :
  wf_params (FuelComplex.fuelParameters c) ->
  wf_params
    (FuelComplex.fuelParameters (FuelComplex.setFuelParams cat cls f c)).
Proof.
  intros [Hwf Hall]. rewrite setFuelParams_eq.
  cbn [FuelComplex.fuelParameters FuelComplex.with_fuelParameters].
  split.
  - now apply wf_dict_set.
  - apply Forall_dict_set; [assumption|]. cbn [snd].
    apply wf_dict_set.
    destruct (dict_find cat (FuelComplex.fuelParameters c)) as [classes|] eqn:Hf.
    + apply (Forall_dict_find _ _ _ _ Hall Hf).
    + constructor.
Qed.


(** X2.  [setFuelMoisture(category, sizeClass, moisture)] of a complex
    raises [KeyError] when the category or the size class is missing.
    Otherwise the particle read back from that slot has the new moisture,
    the heat of ignition [250 + 1116 * moisture] and no extinction moisture
    of its own, and its class, loading, sigma, particle density, mineral
    contents and heat content are those of the particle found there. *)
Theorem setFuelMoisture_slot (cat cls : string) (m : R) (c : FuelComplex.t) :
  (is_err (FuelComplex.particle cat cls c) ->
   FuelComplex.setFuelMoisture cat cls m c = Err KeyError) /\
  (forall f, FuelComplex.particle cat cls c = Ok f ->
   exists c' f',
     FuelComplex.setFuelMoisture cat cls m c = Ok c' /\
     FuelComplex.particle cat cls c' = Ok f' /\
     Fuel.fuelMoisture f' = Some m /\
     Fuel.heatOfIgnition f' = Some (250 + 1116 * m) /\
     Fuel.extMoisture f' = None /\
     same_but_moisture f f').
Proof.
  unfold FuelComplex.setFuelMoisture, FuelComplex.particle, dict_get.
  destruct (dict_find cat (FuelComplex.fuelParameters c)) as [classes|] eqn:Hf;
    cbn [bind].
  - destruct (dict_find cls classes) as [f0|] eqn:Hc; cbn [bind].
    + split; [intros [e He]; discriminate|].
      intros f [= <-]. eexists. exists (Fuel.setFuelMoisture m None f0).
      split; [reflexivity|].
      cbn [FuelComplex.fuelParameters FuelComplex.with_fuelParameters].
      rewrite dict_find_set_same. cbn [bind].
      rewrite dict_find_set_same.
      split; [reflexivity|]. repeat split. discriminate.
    + split; [reflexivity|]. intros f H. discriminate.
  - split; [reflexivity|]. intros f H. discriminate.
Qed.

Lemma setFuelMoisture_slot_witness :
  FuelComplex.setFuelMoisture LIVE ONEHR 0.9 (nffl1_complex RothermelFuel)
    = Err KeyError /\
  exists c' f',
    FuelComplex.setFuelMoisture DEAD ONEHR 0.06 (nffl1_complex RothermelFuel)
      = Ok c' /\
    FuelComplex.particle DEAD ONEHR c' = Ok f' /\
    Fuel.fuelMoisture f' = Some 0.06 /\
    Fuel.heatOfIgnition f' = Some (250 + 1116 * 0.06) /\
    Fuel.extMoisture f' = None /\
    same_but_moisture (fuel_of RothermelFuel 3500 0.034) f'.
Proof.
  split.
  - apply (setFuelMoisture_slot LIVE ONEHR 0.9 (nffl1_complex RothermelFuel)).
    exists KeyError. reflexivity.
  - apply (setFuelMoisture_slot DEAD ONEHR 0.06
             (nffl1_complex RothermelFuel)).
    reflexivity.
Defined.

(** ** The live moisture of extinction *)

(** X3.  Rothermel's live moisture of extinction (eqn 88) from the loadings
    [wd] and [wl] of the dead and the live 1-hr particles and the moisture
    [md] of the dead one: [2.9 * (wd / wl) * (1 - 10/3 * md) - 0.226] is
    stored for the live category when [wl] and [wd + wl] are not zero;
    otherwise one of the two divisions raises [ZeroDivisionError]. *)
Theorem rothermel_live_ext (c : FuelComplex.t) (fd fl : Fuel.t)
    (wd wl md : R) :
  FuelComplex.particle DEAD ONEHR c = Ok fd ->
  FuelComplex.particle LIVE ONEHR c = Ok fl ->
  Fuel.ovendryLoading fd = Some wd ->
  Fuel.ovendryLoading fl = Some wl ->
  Fuel.fuelMoisture fd = Some md ->
  FuelComplex.calcLivingExtMoisture_Rothermel c
  = if Req_dec_T (wl * (wd + wl)) 0 then Err ZeroDivisionError
    else Ok (FuelComplex.setExtMoisture LIVE
               (2.9 * (wd / wl) * (1 - 10 / 3 * md) - 0.226) c).
Proof.
  intros Hd Hl Hwd Hwl Hmd.
  unfold FuelComplex.calcLivingExtMoisture_Rothermel.
  rewrite Hd, Hl. cbn [bind]. rewrite Hwd, Hwl. cbn [bind num].
  destruct (Req_dec_T (wl * (wd + wl)) 0) as [Hz|Hnz].
  - destruct (Req_dec_T (wd + wl) 0) as [Hs|Hs].
    + now rewrite Hs, py_div_zero.
    + assert (Hwl0 : wl = 0).
      { destruct (Rmult_integral _ _ Hz); [assumption|contradiction]. }
      rewrite py_div_ok by assumption. cbn [bind].
      replace (wl / (wd + wl)) with 0 by (subst wl; unfold Rdiv; ring).
      now rewrite py_div_zero.
  - assert (Hwl0 : wl <> 0) by (intros ->; apply Hnz; ring).
    assert (Hs : wd + wl <> 0) by (intros E; apply Hnz; rewrite E; ring).
    rewrite py_div_ok by assumption. cbn [bind].
    rewrite py_div_ok.
    2:{ unfold Rdiv. apply Rmult_integral_contrapositive_currified;
        [assumption|now apply Rinv_neq_0_compat]. }
    cbn [bind]. rewrite Hmd. cbn [bind num].
    do 2 f_equal. field. split; assumption.
Qed.

Lemma rothermel_live_ext_witness :
  FuelComplex.calcLivingExtMoisture_Rothermel
    (FuelComplex.setFuelParams DEAD ONEHR
       (Fuel.setFuelMoisture 0.06 None (fuel_of RothermelFuel 3000 0.092))
       (nffl2_complex RothermelFuel))
  = if Req_dec_T (0.023 * (0.092 + 0.023)) 0 then Err ZeroDivisionError
    else Ok (FuelComplex.setExtMoisture LIVE
               (2.9 * (0.092 / 0.023) * (1 - 10 / 3 * 0.06) - 0.226)
               (FuelComplex.setFuelParams DEAD ONEHR
                  (Fuel.setFuelMoisture 0.06 None
                     (fuel_of RothermelFuel 3000 0.092))
                  (nffl2_complex RothermelFuel))).
Proof.
  apply (rothermel_live_ext _
           (Fuel.setFuelMoisture 0.06 None (fuel_of RothermelFuel 3000 0.092))
           (fuel_of RothermelFuel 1500 0.023));
    reflexivity.
Defined.

(** X4.  A live 1-hr particle without loading: the Albini complex skips the
    live moisture of extinction and returns unchanged, where the Rothermel
    complex (with a loaded dead 1-hr particle) raises
    [ZeroDivisionError]. *)
Theorem live_ext_zero_loading (c : FuelComplex.t) (fd fl : Fuel.t) (wd : R) :
  FuelComplex.particle DEAD ONEHR c = Ok fd ->
  FuelComplex.particle LIVE ONEHR c = Ok fl ->
  Fuel.ovendryLoading fd = Some wd ->
  Fuel.ovendryLoading fl = Some 0 ->
  FuelComplex.calcLivingExtMoisture_Albini c = Ok c /\
  FuelComplex.calcLivingExtMoisture_Rothermel c = Err ZeroDivisionError.
Proof.
  intros Hd Hl Hwd Hwl. split.
  - unfold FuelComplex.calcLivingExtMoisture_Albini.
    destruct (negb (dict_mem LIVE (FuelComplex.fuelParameters c)));
      [reflexivity|].
    rewrite Hl. cbn [bind]. rewrite Hwl.
    destruct (Req_dec_T 0 0) as [_|Hne]; [reflexivity|now elim Hne].
  - unfold FuelComplex.calcLivingExtMoisture_Rothermel.
    rewrite Hd, Hl. cbn [bind]. rewrite Hwd, Hwl. cbn [bind num].
    destruct (Req_dec_T (wd + 0) 0) as [Hs|Hs].
    + now rewrite Hs, py_div_zero.
    + rewrite py_div_ok by assumption. cbn [bind].
      replace (0 / (wd + 0)) with 0 by (unfold Rdiv; ring).
      now rewrite py_div_zero.
Qed.

Lemma live_ext_zero_loading_witness :
  FuelComplex.calcLivingExtMoisture_Albini
    (FuelComplex.setFuelParams LIVE ONEHR (fuel_of AlbiniFuel 1500 0)
       (nffl1_complex AlbiniFuel))
  = Ok (FuelComplex.setFuelParams LIVE ONEHR (fuel_of AlbiniFuel 1500 0)
          (nffl1_complex AlbiniFuel)) /\
  FuelComplex.calcLivingExtMoisture_Rothermel
    (FuelComplex.setFuelParams LIVE ONEHR (fuel_of AlbiniFuel 1500 0)
       (nffl1_complex AlbiniFuel))
  = Err ZeroDivisionError.
Proof.
  apply (live_ext_zero_loading _ (fuel_of AlbiniFuel 3500 0.034)
           (fuel_of AlbiniFuel 1500 0) 0.034);
    reflexivity.
Defined.

(** ** Net fuel loading *)

(** X5.  The two net fuel loadings of particles with the same loading
    [w > 0] and the same total mineral content [tot >= 0.001]: both
    formulas return, and Albini's [w * (1 - tot)] is below Rothermel's
    [w / (1 + tot)]. *)
Theorem net_loading_albini_lt_rothermel (fr fa : Fuel.t) (w tot : R) :
  Fuel.class fr = RothermelFuel ->
  Fuel.class fa = AlbiniFuel ->
  Fuel.ovendryLoading fr = Some w ->
  Fuel.ovendryLoading fa = Some w ->
  Fuel.totMineralContent fr = tot ->
  Fuel.totMineralContent fa = tot ->
  0 < w ->
  0.001 <= tot ->
  exists nr na,
    Fuel.calcNetFuelLoading fr = Ok (Fuel.with_netFuelLoading (Some nr) fr) /\
    Fuel.calcNetFuelLoading fa = Ok (Fuel.with_netFuelLoading (Some na) fa) /\
    na < nr.
Proof.
  intros Hcr Hca Hwr Hwa Htr Hta Hw Htot.
  exists (w / (1 + tot)), (w * (1 - tot)).
  unfold Fuel.calcNetFuelLoading.
  rewrite Hcr, Hca, Hwr, Hwa, Htr, Hta. cbn [bind num].
  rewrite py_div_ok by lra. cbn [bind].
  repeat split.
  apply Rmult_lt_reg_r with (r := 1 + tot); [lra|].
  replace (w / (1 + tot) * (1 + tot)) with w by (field; lra).
  assert (0 < w * (tot * tot)).
  { apply Rmult_lt_0_compat; [assumption|]. apply Rmult_lt_0_compat; lra. }
  lra.
Qed.

Lemma net_loading_albini_lt_rothermel_witness :
  exists nr na,
    Fuel.calcNetFuelLoading (fuel_of RothermelFuel 3500 0.034)
    = Ok (Fuel.with_netFuelLoading (Some nr)
            (fuel_of RothermelFuel 3500 0.034)) /\
    Fuel.calcNetFuelLoading (fuel_of AlbiniFuel 3500 0.034)
    = Ok (Fuel.with_netFuelLoading (Some na)
            (fuel_of AlbiniFuel 3500 0.034)) /\
    na < nr.
Proof.
  apply (net_loading_albini_lt_rothermel _ _ 0.034 0.0555);
    try reflexivity; lra.
Defined.

(** ** Moisture damping *)

Lemma moistureDampingOf_decreasing (x y : R) :
  x < y -> moistureDampingOf y < moistureDampingOf x.
Proof.
  intros Hxy. unfold moistureDampingOf.
  assert (Hq : 0 < 2.59 - 5.11 * (x + y) + 3.52 * (x * x + x * y + y * y)).
  { assert (H1 := Rle_0_sqr (x + y - 5.11 / 5.28)).
    assert (H2 := Rle_0_sqr (x - y)).
    unfold Rsqr in H1, H2. lra. }
  assert (Hp : 0 < (y - x)
                   * (2.59 - 5.11 * (x + y)
                      + 3.52 * (x * x + x * y + y * y))).
  { apply Rmult_lt_0_compat; lra. }
  assert (E : (1 - 2.59 * x + 5.11 * (x * x) - 3.52 * (x * x * x))
               - (1 - 2.59 * y + 5.11 * (y * y) - 3.52 * (y * y * y))
               = (y - x)
                 * (2.59 - 5.11 * (x + y)
                    + 3.52 * (x * x + x * y + y * y))) by ring.
  cbv zeta. lra.
Qed.

Lemma moistureDampingOf_0 : moistureDampingOf 0 = 1.
Proof. unfold moistureDampingOf. lra. Qed.



(** The moisture damping coefficient one hundredth of the extinction
    moisture away from it, on either side. *)
Lemma moistureDampingOf_margin (m e : R) :
  0 < e -> 0 <= m ->
  moistureDampingOf (m / e) <= 1 /\
  (m <= 0.99 * e -> 0.02 < moistureDampingOf (m / e)) /\
  (1.01 * e <= m -> moistureDampingOf (m / e) < -0.02).
Proof.
  intros He Hm.
  assert (Hr : 0 <= m / e).
  { apply Rmult_le_pos; [assumption|].
    left. now apply Rinv_0_lt_compat. }
  assert (H99 : 0.02 < moistureDampingOf 0.99)
    by (unfold moistureDampingOf; lra).
  assert (H101 : moistureDampingOf 1.01 < -0.02)
    by (unfold moistureDampingOf; lra).
  repeat split.
  - destruct Hr as [Hr|Hr].
    + left. rewrite <- moistureDampingOf_0.
      now apply moistureDampingOf_decreasing.
    + rewrite <- Hr, moistureDampingOf_0. lra.
  - intros Hle.
    assert (Hq : m / e <= 0.99).
    { apply Rmult_le_reg_r with (r := e); [assumption|].
      replace (m / e * e) with m by (field; lra). lra. }
    destruct Hq as [Hq|Hq].
    + pose proof (moistureDampingOf_decreasing _ _ Hq). lra.
    + rewrite Hq. exact H99.
  - intros Hle.
    assert (Hq : 1.01 <= m / e).
    { apply Rmult_le_reg_r with (r := e); [assumption|].
      replace (m / e * e) with m by (field; lra). lra. }
    destruct Hq as [Hq|Hq].
    + pose proof (moistureDampingOf_decreasing _ _ Hq). lra.
    + rewrite <- Hq. exact H101.
Qed.

(** X6.  The moisture damping coefficient of the basic model (eqn 29) for a
    fuel moisture [m >= 0] and an extinction moisture [e > 0]: it is at
    most 1, above 0.02 while the moisture is at most 99 % of the extinction
    moisture, and below -0.02 once the moisture is at least 101 % of it:
    the polynomial is stored as computed, negative values included. *)
Theorem basic_moisture_damping_sign (md : RothermelModel.t) (m e : R) :
  Fuel.fuelMoisture (Model.fuel md) = Some m ->
  Fuel.extMoisture (Model.fuel md) = Some e ->
  0 < e ->
  0 <= m ->
  exists d,
    RothermelModel.calcMoistureDamping md
    = Ok (Model.with_dampMoisture (Some d) md) /\
    d <= 1 /\ (m <= 0.99 * e -> 0.02 < d) /\ (1.01 * e <= m -> d < -0.02).
Proof.
  intros Hm He Hpos Hnn.
  exists (moistureDampingOf (m / e)). split.
  - unfold RothermelModel.calcMoistureDamping.
    rewrite Hm, He. cbn [bind num].
    rewrite py_div_ok by lra. reflexivity.
  - now apply moistureDampingOf_margin.
Qed.

Lemma basic_moisture_damping_sign_witness :
  (exists d,
     RothermelModel.calcMoistureDamping
       (RothermelModel.init
          (Fuel.setFuelMoisture 0.2 (Some 0.12)
             (fuel_of RothermelFuel 3500 0.034)))
     = Ok (Model.with_dampMoisture (Some d)
             (RothermelModel.init
                (Fuel.setFuelMoisture 0.2 (Some 0.12)
                   (fuel_of RothermelFuel 3500 0.034)))) /\
     d < -0.02) /\
  (exists d,
     RothermelModel.calcMoistureDamping
       (RothermelModel.init
          (Fuel.setFuelMoisture 0.06 (Some 0.12)
             (fuel_of RothermelFuel 3500 0.034)))
     = Ok (Model.with_dampMoisture (Some d)
             (RothermelModel.init
                (Fuel.setFuelMoisture 0.06 (Some 0.12)
                   (fuel_of RothermelFuel 3500 0.034)))) /\
     0.02 < d).
Proof.
  split.
  - destruct (basic_moisture_damping_sign
                (RothermelModel.init
                   (Fuel.setFuelMoisture 0.2 (Some 0.12)
                      (fuel_of RothermelFuel 3500 0.034)))
                0.2 0.12 eq_refl eq_refl)
      as (d & Hd & _ & _ & Hneg); [lra|lra|].
    exists d. split; [exact Hd|]. apply Hneg. lra.
  - destruct (basic_moisture_damping_sign
                (RothermelModel.init
                   (Fuel.setFuelMoisture 0.06 (Some 0.12)
                      (fuel_of RothermelFuel 3500 0.034)))
                0.06 0.12 eq_refl eq_refl)
      as (d & Hd & _ & Hpos & _); [lra|lra|].
    exists d. split; [exact Hd|]. apply Hpos. lra.
Defined.

(** ** The bed depth *)

Lemma for_each_inv {X S : Type} (P : S -> Prop) (body : X -> S -> result S)
    (l : list X) :
  (forall x s s', body x s = Ok s' -> P s -> P s') ->
  forall s s', for_each body l s = Ok s' -> P s -> P s'.
Proof.
  intros Hbody. induction l as [|x l IH]; simpl; intros s s' H Hs.
  - now injection H as <-.
  - destruct (body x s) as [s1|e] eqn:E; cbn [bind] in H; [|discriminate].
    apply (IH s1 s' H). now apply (Hbody x s s1).
Qed.

Ltac inv_bind H :=
  repeat match type of H with
    | bind ?m _ = Ok _ =>
        let E := fresh "E" in
        destruct m eqn:E; cbn [bind] in H; [|discriminate H]
    | (match ?p with (_, _) => _ end) = Ok _ => destruct p
    end.

Lemma calcWeightingParameters_depth (c c' : FuelComplex.t) :
  FuelComplex.calcWeightingParameters c = Ok c' ->
  FuelComplex.depth c' = FuelComplex.depth c.
Proof.
  unfold FuelComplex.calcWeightingParameters. intros H.
  destruct (FuelComplex.calcMeanSurfaceArea c) as [c1|e] eqn:E1;
    cbn [bind] in H; [|discriminate].
  assert (H1 : FuelComplex.depth c1 = FuelComplex.depth c).
  { unfold FuelComplex.calcMeanSurfaceArea in E1.
    apply (for_each_inv
             (fun s => FuelComplex.depth s = FuelComplex.depth c)) in E1;
      [assumption| |reflexivity].
    intros x s s' Hb Hs. unfold FuelComplex.meanSurfaceAreaStep in Hb.
    inv_bind Hb. injection Hb as <-.
    unfold FuelComplex.calcMeanSurfaceAreaOneCategory in E.
    inv_bind E. injection E as <-. exact Hs. }
  apply (for_each_inv
           (fun s => FuelComplex.depth s = FuelComplex.depth c)) in H;
    [assumption| |exact H1].
  intros x s s' Hb Hs. unfold FuelComplex.weightingOneCategory in Hb.
  inv_bind Hb. injection Hb as <-. exact Hs.
Qed.

Lemma aggregateIntoCategories_depth (c c' : FuelComplex.t) :
  FuelComplex.aggregateIntoCategories c = Ok c' ->
  FuelComplex.depth c' = FuelComplex.depth c.
Proof.
  unfold FuelComplex.aggregateIntoCategories. intros H.
  apply (for_each_inv
           (fun s => FuelComplex.depth s = FuelComplex.depth c)) in H;
    [assumption| |reflexivity].
  intros x s s' Hb Hs. unfold FuelComplex.aggregateOneCategory in Hb.
  inv_bind Hb.
  apply (for_each_inv
           (fun s => FuelComplex.depth s = FuelComplex.depth c)) in Hb;
    [assumption| |exact Hs].
  clear. intros j s s' Hb Hs. unfold FuelComplex.aggregateOneClass in Hb.
  inv_bind Hb. injection Hb as <-. exact Hs.
Qed.

(** X7.  [compute()] on a complex whose bed depth is zero, the value the
    constructor leaves, never returns: when the loops pass, the bulk
    density divides by the depth. *)
Theorem compute_zero_depth (c : FuelComplex.t) :
  FuelComplex.depth c = 0 ->
  is_err (FuelComplex.compute c).
Proof.
  intros Hd. unfold FuelComplex.compute, is_err.
  destruct (FuelComplex.calcWeightingParameters c) as [c1|e] eqn:E1;
    cbn [bind]; [|now exists e].
  destruct (FuelComplex.aggregateIntoCategories c1) as [c2|e] eqn:E2;
    cbn [bind]; [|now exists e].
  assert (Hd2 : FuelComplex.depth c2 = 0).
  { rewrite (aggregateIntoCategories_depth _ _ E2).
    now rewrite (calcWeightingParameters_depth _ _ E1). }
  unfold FuelComplex.aggregateIntoComplex.
  destruct (for_each (FuelComplex.complexOneCategory c2) _ _)
    as [[[sg pr] bd]|e]; cbn [bind]; [|now exists e].
  unfold FuelComplex.storeComplex. rewrite Hd2, py_div_zero.
  now exists ZeroDivisionError.
Qed.

Lemma compute_zero_depth_witness :
  is_err
    (FuelComplex.compute
       (FuelComplex.setFuelParams DEAD ONEHR
          (Fuel.setFuelMoisture 0.05 None (fuel_of RothermelFuel 3500 0.034))
          (FuelComplex.init RothermelFuel))).
Proof.
  apply compute_zero_depth. reflexivity.
Defined.

(** ** The methods of the models *)

Ltac md_simpl :=
  cbn [Model.fuel Model.windSpeed Model.windMultiplier Model.slopeRad
       Model.slopeMultiplier Model.midflameWind Model.dampMoisture
       Model.dampMineral Model.potReactionVelocity Model.reactionIntensity
       Model.propFluxRatio Model.noWindRos Model.ros
       Model.with_fuel Model.with_dampMoisture Model.with_dampMineral
       Model.with_potReactionVelocity Model.with_reactionIntensity
       Model.with_propFluxRatio Model.with_noWindRos Model.with_ros
       bind attr num] in *.

Lemma optimalPacking_pos (sg : R) : 0 < 3.348 * Rpower sg (-0.8189).
Proof. pose proof (Rpower_pos sg (-0.8189)). lra. Qed.

Lemma Rdiv_pos (a b : R) : 0 < a -> 0 < b -> 0 < a / b.
Proof.
  intros Ha Hb. unfold Rdiv. apply Rmult_lt_0_compat; [assumption|].
  now apply Rinv_0_lt_compat.
Qed.

Lemma packing_pos (w dp : R) : 0 < w -> 0 < dp -> 0 < w / 32 / dp.
Proof.
  intros Hw Hdp. apply Rdiv_pos; [|assumption]. apply Rdiv_pos; lra.
Qed.

Section SharedMethods.

Context {F D : Type} (scalars : F -> Fuel.t).

Lemma calcPropFluxRatio_ok (md : Model.t F D) (sg pr : R) :
  Fuel.sigma (scalars (Model.fuel md)) = Some sg ->
  Fuel.packingRatio (scalars (Model.fuel md)) = Some pr ->
  0 <= sg ->
  Model.calcPropFluxRatio scalars md
  = Ok (Model.with_propFluxRatio (Some (propFluxRatio_of sg pr)) md).
Proof.
  intros Hs Hp Hsg. unfold Model.calcPropFluxRatio. cbv zeta.
  rewrite Hs, Hp. cbn [bind num attr].
  rewrite py_sqrt_ok by assumption. cbn [bind].
  rewrite py_div_ok by lra. reflexivity.
Qed.

Lemma calcPotReactionVelocity_ok (md : Model.t F D) (pr op mv a : R) :
  Fuel.packingRatio (scalars (Model.fuel md)) = Some pr ->
  Fuel.optimalPacking (scalars (Model.fuel md)) = Some op ->
  Fuel.maxPotentialVelocity (scalars (Model.fuel md)) = Some mv ->
  Fuel.exponentA (scalars (Model.fuel md)) = Some a ->
  0 < pr -> 0 < op ->
  Model.calcPotReactionVelocity scalars md
  = Ok (Model.with_potReactionVelocity
          (Some (mv * Rpower (pr / op) a * exp (a * (1 - pr / op)))) md).
Proof.
  intros Hp Ho Hm Ha Hpr Hop. unfold Model.calcPotReactionVelocity. cbv zeta.
  rewrite Hp, Ho, Hm, Ha. cbn [bind attr].
  rewrite py_div_ok by lra. cbn [bind].
  rewrite py_pow_pos by (now apply Rdiv_pos). reflexivity.
Qed.

Lemma calcRos_ok (md : Model.t F D) (r0 : R) :
  Model.noWindRos md = Some r0 ->
  Model.calcRos md
  = Ok (Model.with_ros
          (Some (r0 * (1 + Model.windMultiplier md
                       + Model.slopeMultiplier md))) md).
Proof. intros H. unfold Model.calcRos. now rewrite H. Qed.

End SharedMethods.

(** A loop that stores one value per entry of a well-formed dictionary. *)
Lemma for_each_store {A B : Type}
    (body : string * A -> dict B -> result (dict B)) (h : string -> A -> B)
    (l : dict A) (acc : dict B) :
  NoDup (dict_keys acc ++ dict_keys l) ->
  (forall kv acc, In kv l ->
     body kv acc = Ok (dict_set (fst kv) (h (fst kv) (snd kv)) acc)) ->
  for_each body l acc
  = Ok (acc ++ map (fun kv => (fst kv, h (fst kv) (snd kv))) l).
Proof.
  revert acc. induction l as [|[k a] l IH]; simpl; intros acc Hnd Hb.
  - now rewrite app_nil_r.
  - rewrite Hb by now left. cbn [bind fst snd].
    assert (Hk : ~ In k (dict_keys acc)).
    { intros Hin. apply NoDup_remove_2 in Hnd. apply Hnd.
      apply in_or_app. now left. }
    rewrite dict_set_notin by assumption.
    rewrite IH.
    + now rewrite <- app_assoc.
    + rewrite dict_keys_app. simpl. rewrite <- app_assoc. simpl.
      assumption.
    + intros kv acc' Hin. apply Hb. now right.
Qed.

Lemma weighted_calcMineralDamping_ok (md : Weighted.t) (eff : dict R) :
  FuelComplex.effMineralContent (Model.fuel md) = Some eff ->
  wf_dict eff ->
  Forall (fun kv => 0 < snd kv) eff ->
  Weighted.calcMineralDamping md
  = Ok (Model.with_dampMineral (Some (dict_map mineralDamping_of eff)) md).
Proof.
  intros He Hwf Hpos. unfold Weighted.calcMineralDamping.
  rewrite He. cbn [bind attr].
  rewrite (for_each_store _ (fun _ x => mineralDamping_of x)).
  - reflexivity.
  - exact Hwf.
  - intros kv acc Hin. rewrite Forall_forall in Hpos.
    rewrite py_pow_pos by now apply Hpos. reflexivity.
Qed.

Lemma weighted_calcMoistureDamping_ok (md : Weighted.t) (fms : dict R) :
  FuelComplex.fuelMoisture (Model.fuel md) = Some fms ->
  wf_dict fms ->
  (forall k, In k (dict_keys fms) ->
     exists e, dict_find k (FuelComplex.extMoisture (Model.fuel md)) = Some e
               /\ e <> 0) ->
  Weighted.calcMoistureDamping md
  = Ok (Model.with_dampMoisture
          (Some (moistureDamping_by_category
                   (FuelComplex.extMoisture (Model.fuel md)) fms)) md).
Proof.
  intros Hf Hwf Hext. unfold Weighted.calcMoistureDamping.
  rewrite Hf. cbn [bind attr].
  rewrite (for_each_store _
             (fun k m =>
                moistureDampingOf
                  (m / dget (FuelComplex.extMoisture (Model.fuel md)) k))).
  - reflexivity.
  - exact Hwf.
  - intros [k m] acc Hin. cbv zeta. cbn [fst snd].
    destruct (Hext k) as (e & He & Hne).
    { unfold dict_keys. apply in_map_iff. now exists (k, m). }
    unfold dict_get, dget. rewrite He. cbn [bind].
    rewrite py_div_ok by assumption. reflexivity.
Qed.

Lemma dget_found (d : dict R) (k : string) :
  In k (dict_keys d) -> dict_get k d = Ok (dget d k).
Proof.
  intros Hin. apply dict_find_keys in Hin. unfold dict_get, dget.
  destruct (dict_find k d); [reflexivity|contradiction].
Qed.

Lemma for_each_sum {X : Type} (body : X -> R -> result R) (term : X -> R)
    (l : list X) (s : R) :
  (forall x s, In x l -> body x s = Ok (s + term x)) ->
  for_each body l s = Ok (s + Rsum (map term l)).
Proof.
  revert s. induction l as [|x l IH]; simpl; intros s Hb.
  - f_equal. lra.
  - rewrite Hb by now left. cbn [bind].
    rewrite IH by (intros y s' Hy; apply Hb; now right).
    f_equal. lra.
Qed.

(** The loop of [calcReactionIntensity] as a sum over the categories of
    the moisture damping dictionary. *)
Lemma calcReactionIntensity_sum (cls : WeightedClass) (md : Weighted.t)
    (n h dmo dmi : dict R) (v : R) :
  FuelComplex.netFuelLoading (Model.fuel md) = Some n ->
  FuelComplex.heatContent (Model.fuel md) = Some h ->
  Model.dampMoisture md = Some dmo ->
  Model.dampMineral md = Some dmi ->
  Model.potReactionVelocity md = Some v ->
  (forall k, In k (dict_keys dmo) ->
     In k (dict_keys n) /\ In k (dict_keys h) /\ In k (dict_keys dmi) /\
     (cls = WeightedRothermelModel ->
      In k (dict_keys (FuelComplex.categoryWeighting (Model.fuel md))))) ->
  Weighted.calcReactionIntensity cls md
  = Ok (Model.with_reactionIntensity
          (Some (Rsum (map (intensity_term cls
                              (FuelComplex.categoryWeighting (Model.fuel md))
                              n h dmo dmi)
                         (dict_keys dmo)) * v)) md).
Proof.
  intros Hn Hh Hdmo Hdmi Hv Hkeys.
  unfold Weighted.calcReactionIntensity. rewrite Hdmo. cbn [bind attr].
  rewrite (for_each_sum _
             (intensity_term cls
                (FuelComplex.categoryWeighting (Model.fuel md))
                n h dmo dmi)).
  - cbn [bind]. rewrite Hv. cbn [bind attr]. do 3 f_equal. lra.
  - intros k s Hin. destruct (Hkeys k Hin) as (Kn & Kh & Kd & Kc).
    destruct cls.
    + unfold Weighted.intensityTerm_Rothermel. cbv zeta.
      rewrite (dget_found _ k (Kc eq_refl)). cbn [bind].
      rewrite Hn, Hh, Hdmo, Hdmi. unfold subscript. cbn [bind attr].
      rewrite !dget_found by assumption. reflexivity.
    + unfold Weighted.intensityTerm_Albini. cbv zeta.
      rewrite Hn, Hh, Hdmo, Hdmi. unfold subscript. cbn [bind attr].
      rewrite !dget_found by assumption. reflexivity.
Qed.

(** X8.  The reaction intensity of the two weighted models on the same
    state.  Rothermel's (eqn 58) is the sum over the categories of category
    weight, net fuel loading, heat content, moisture damping and mineral
    damping, times the potential reaction velocity; Albini's is the same
    sum without the category weight. *)
Theorem weighted_reaction_intensity (md : Weighted.t)
    (n h dmo dmi : dict R) (v : R) :
  FuelComplex.netFuelLoading (Model.fuel md) = Some n ->
  FuelComplex.heatContent (Model.fuel md) = Some h ->
  Model.dampMoisture md = Some dmo ->
  Model.dampMineral md = Some dmi ->
  Model.potReactionVelocity md = Some v ->
  (forall k, In k (dict_keys dmo) ->
     In k (dict_keys n) /\ In k (dict_keys h) /\ In k (dict_keys dmi) /\
     In k (dict_keys (FuelComplex.categoryWeighting (Model.fuel md)))) ->
  Weighted.calcReactionIntensity WeightedRothermelModel md
  = Ok (Model.with_reactionIntensity
          (Some (Rsum (map (fun k =>
                              dget (FuelComplex.categoryWeighting
                                      (Model.fuel md)) k
                              * dget n k * dget h k * dget dmo k
                              * dget dmi k)
                         (dict_keys dmo)) * v)) md) /\
  Weighted.calcReactionIntensity WeightedAlbiniModel md
  = Ok (Model.with_reactionIntensity
          (Some (Rsum (map (fun k =>
                              dget n k * dget h k * dget dmo k * dget dmi k)
                         (dict_keys dmo)) * v)) md).
Proof.
  intros Hn Hh Hdmo Hdmi Hv Hkeys.
  split.
  - rewrite (calcReactionIntensity_sum WeightedRothermelModel md n h dmo dmi v);
      try assumption; [reflexivity|].
    intros k Hin. destruct (Hkeys k Hin) as (Kn & Kh & Kd & Kc). tauto.
  - rewrite (calcReactionIntensity_sum WeightedAlbiniModel md n h dmo dmi v);
      try assumption; [reflexivity|].
    intros k Hin. destruct (Hkeys k Hin) as (Kn & Kh & Kd & Kc).
    repeat split; try assumption. discriminate.
Qed.

(** ** A single particle in both models *)

Lemma dget_head (k : string) (v : R) (d : dict R) : dget ((k, v) :: d) k = v.
Proof. unfold dget. simpl. now rewrite eqb_refl_str. Qed.

Lemma weighted_calcNoWindRos_single (md : Weighted.t) (cat cls : string)
    (f : Fuel.t) (hi he pfr ri : R) :
  FuelComplex.fuelParameters (Model.fuel md) = [(cat, [(cls, f)])] ->
  FuelComplex.classWeighting (Model.fuel md) = [(cat, [(cls, 1)])] ->
  FuelComplex.categoryWeighting (Model.fuel md) = [(cat, 1)] ->
  Fuel.heatOfIgnition f = Some hi ->
  Fuel.heatingEfficiency f = Some he ->
  Model.propFluxRatio md = Some pfr ->
  Model.reactionIntensity md = Some ri ->
  hi * he <> 0 ->
  Weighted.calcNoWindRos md
  = Ok (Model.with_noWindRos (Some (pfr * ri / (hi * he))) md).
Proof.
  intros Hfp Hclw Hcw Hhi Hhe Hpfr Hri Hne.
  unfold Weighted.calcNoWindRos. cbv zeta.
  rewrite Hpfr, Hri, Hfp. cbn [bind attr for_each].
  unfold Weighted.sinksOneCategory. cbv zeta. cbn [fst snd for_each].
  unfold Weighted.sinksOneClass. cbv zeta. cbn [fst snd].
  rewrite Hclw, Hcw. unfold dict_get. cbn [dict_find].
  rewrite !eqb_refl_str. cbn [bind dict_find].
  rewrite !eqb_refl_str. cbn [bind].
  rewrite Hhi, Hhe. cbn [bind attr].
  replace (0 + 1 * (0 + 1 * hi * he)) with (hi * he) by ring.
  rewrite py_div_ok by assumption. reflexivity.
Qed.

Lemma weighted_evaluate_single (wcls : WeightedClass) (cls : FuelClass)
    (sg w m heat tot eff ext dp : R) (md : Weighted.t) :
  evaluable cls sg w m tot eff ext dp ->
  Model.fuel md = computed_single cls sg w m heat tot eff ext dp ->
  exists md',
    Weighted.evaluate wcls md
      = Ok (propFluxRatio_of sg (w / 32 / dp)
            * intensity_single cls sg w m heat tot eff ext dp
            / ((250 + 1116 * m) * exp (-138 / sg))
            * (1 + Model.windMultiplier md + Model.slopeMultiplier md), md')
    /\ Model.reactionIntensity md'
       = Some (intensity_single cls sg w m heat tot eff ext dp)
    /\ Model.ros md'
       = Some (propFluxRatio_of sg (w / 32 / dp)
               * intensity_single cls sg w m heat tot eff ext dp
               / ((250 + 1116 * m) * exp (-138 / sg))
               * (1 + Model.windMultiplier md + Model.slopeMultiplier md))
    /\ Model.fuel md' = Model.fuel md.
Proof.
  intros (Hc & Hsg & Hw & Hdp & Heff & Hext & Hhi & Htot & Hdef) Hfuel.
  pose proof (optimalPacking_pos sg) as Hop.
  pose proof (packing_pos w dp Hw Hdp) as Hpr.
  pose proof (exp_pos (-138 / sg)) as Hhe.
  unfold Weighted.evaluate.
  (* propagating flux ratio *)
  rewrite (calcPropFluxRatio_ok Weighted.scalars md sg (w / 32 / dp));
    [|unfold Weighted.scalars; rewrite Hfuel; reflexivity
     |unfold Weighted.scalars; rewrite Hfuel; reflexivity|lra].
  cbn [bind].
  (* mineral damping *)
  rewrite (weighted_calcMineralDamping_ok _ [(DEAD, eff)]);
    [|md_simpl; rewrite Hfuel; reflexivity
     |repeat constructor; simpl; tauto
     |repeat constructor; assumption].
  cbn [bind].
  (* moisture damping *)
  rewrite (weighted_calcMoistureDamping_ok _ [(DEAD, m)]);
    [|md_simpl; rewrite Hfuel; reflexivity
     |repeat constructor; simpl; tauto|].
  2:{ md_simpl. rewrite Hfuel. intros k [<-|[]]. exists ext.
      split; [reflexivity|assumption]. }
  cbn [bind]. md_simpl.
  (* potential reaction velocity *)
  rewrite (calcPotReactionVelocity_ok Weighted.scalars _ (w / 32 / dp)
             (3.348 * Rpower sg (-0.8189))
             (Rpower sg 1.5 / (495 + 0.0594 * Rpower sg 1.5))
             (exponentA_of cls sg));
    [|md_simpl; unfold Weighted.scalars; rewrite Hfuel; reflexivity ..
     |assumption|assumption].
  cbn [bind].
  (* reaction intensity *)
  rewrite (calcReactionIntensity_sum wcls _
             [(DEAD, netLoading_of cls w tot)] [(DEAD, heat)]
             (moistureDamping_by_category [(DEAD, ext)] [(DEAD, m)])
             (dict_map mineralDamping_of [(DEAD, eff)])
             (Rpower sg 1.5 / (495 + 0.0594 * Rpower sg 1.5)
              * Rpower (w / 32 / dp / (3.348 * Rpower sg (-0.8189)))
                  (exponentA_of cls sg)
              * exp (exponentA_of cls sg
                     * (1 - w / 32 / dp / (3.348 * Rpower sg (-0.8189))))));
    [|md_simpl; try rewrite Hfuel; reflexivity ..|].
  2:{ md_simpl. rewrite Hfuel. intros k [<-|[]].
      repeat split; now left. }
  cbn [bind]. md_simpl.
  rewrite Hfuel.
  cbn [computed_single FuelComplex.categoryWeighting
       moistureDamping_by_category dict_map map dict_keys fst snd Rsum
       fold_right].
  unfold intensity_term.
  (* no-wind rate of spread *)
  erewrite (weighted_calcNoWindRos_single _ DEAD ONEHR
             (Fuel.with_netFuelLoading (Some (netLoading_of cls w tot))
                (ready_fuel cls sg w m heat tot eff))
             (250 + 1116 * m) (exp (-138 / sg)));
    [|md_simpl; try rewrite Hfuel; reflexivity ..|].
  2:{ apply Rmult_integral_contrapositive_currified; lra. }
  cbn [bind].
  erewrite calcRos_ok by reflexivity. cbn [bind]. md_simpl.
  assert (Hri :
    match wcls with
    | WeightedRothermelModel =>
        dget [(DEAD, 1)] DEAD * dget [(DEAD, netLoading_of cls w tot)] DEAD
        * dget [(DEAD, heat)] DEAD
        * dget [(DEAD, moistureDampingOf (m / dget [(DEAD, ext)] DEAD))] DEAD
        * dget [(DEAD, mineralDamping_of eff)] DEAD
    | WeightedAlbiniModel =>
        dget [(DEAD, netLoading_of cls w tot)] DEAD
        * dget [(DEAD, heat)] DEAD
        * dget [(DEAD, moistureDampingOf (m / dget [(DEAD, ext)] DEAD))] DEAD
        * dget [(DEAD, mineralDamping_of eff)] DEAD
    end
    = netLoading_of cls w tot * heat * mineralDamping_of eff
      * moistureDampingOf (m / ext)).
  { destruct wcls; rewrite !dget_head; ring. }
  rewrite Hri.
  eexists. split; [|split; [|split]].
  - f_equal. f_equal.
    unfold intensity_single, potReactionVelocity_of. cbv zeta.
    field; repeat split; try lra; apply sigma15_divisor.
  - md_simpl. f_equal.
    unfold intensity_single, potReactionVelocity_of. cbv zeta. ring.
  - md_simpl. f_equal.
    unfold intensity_single, potReactionVelocity_of. cbv zeta.
    field; repeat split; try lra; apply sigma15_divisor.
  - md_simpl. exact Hfuel.
Qed.

Ltac fuel_simpl :=
  cbn [Fuel.class Fuel.ovendryLoading Fuel.bulkDensity Fuel.extMoisture
       Fuel.fuelMoisture Fuel.sigma Fuel.particleDensity
       Fuel.totMineralContent Fuel.effMineralContent Fuel.heatContent
       Fuel.packingRatio Fuel.optimalPacking Fuel.maxPotentialVelocity
       Fuel.exponentA Fuel.heatingEfficiency Fuel.heatOfIgnition
       Fuel.netFuelLoading Fuel.setFuelMoisture Fuel.setHeatContent
       Fuel.setMineralContent Fuel.with_netFuelLoading fuel_of ready_fuel
       RothermelModel.scalars bind attr num] in *.



Lemma weighted_reaction_intensity_witness :
  Weighted.calcReactionIntensity WeightedRothermelModel
    (Model.mk (computed_single AlbiniFuel 3500 0.034 0.06 8000 0.0555 0.01
                 0.12 1)
       0 0 0 0 None (Some [(DEAD, 0.5)]) (Some [(DEAD, 0.4)]) (Some 10)
       None None None None)
  = Ok (Model.with_reactionIntensity
          (Some (Rsum (map (fun k =>
                              dget [(DEAD, 1)] k
                              * dget [(DEAD, netLoading_of AlbiniFuel 0.034
                                                 0.0555)] k
                              * dget [(DEAD, 8000)] k * dget [(DEAD, 0.5)] k
                              * dget [(DEAD, 0.4)] k)
                         [DEAD]) * 10))
          (Model.mk (computed_single AlbiniFuel 3500 0.034 0.06 8000 0.0555
                       0.01 0.12 1)
             0 0 0 0 None (Some [(DEAD, 0.5)]) (Some [(DEAD, 0.4)]) (Some 10)
             None None None None)) /\
  Weighted.calcReactionIntensity WeightedAlbiniModel
    (Model.mk (computed_single AlbiniFuel 3500 0.034 0.06 8000 0.0555 0.01
                 0.12 1)
       0 0 0 0 None (Some [(DEAD, 0.5)]) (Some [(DEAD, 0.4)]) (Some 10)
       None None None None)
  = Ok (Model.with_reactionIntensity
          (Some (Rsum (map (fun k =>
                              dget [(DEAD, netLoading_of AlbiniFuel 0.034
                                              0.0555)] k
                              * dget [(DEAD, 8000)] k * dget [(DEAD, 0.5)] k
                              * dget [(DEAD, 0.4)] k)
                         [DEAD]) * 10))
          (Model.mk (computed_single AlbiniFuel 3500 0.034 0.06 8000 0.0555
                       0.01 0.12 1)
             0 0 0 0 None (Some [(DEAD, 0.5)]) (Some [(DEAD, 0.4)]) (Some 10)
             None None None None)).
Proof.
  apply (weighted_reaction_intensity
           (Model.mk (computed_single AlbiniFuel 3500 0.034 0.06 8000 0.0555
                        0.01 0.12 1)
              0 0 0 0 None (Some [(DEAD, 0.5)]) (Some [(DEAD, 0.4)])
              (Some 10) None None None None)
           [(DEAD, netLoading_of AlbiniFuel 0.034 0.0555)] [(DEAD, 8000)]
           [(DEAD, 0.5)] [(DEAD, 0.4)] 10);
    try reflexivity.
  intros k [<-|[]]. repeat split; now left.
Defined.





(** ** Wind and slope *)

Lemma py_pow_zero (y : R) : 0 < y -> py_pow 0 y = Ok 0.
Proof.
  intros Hy. unfold py_pow.
  destruct (Rlt_dec 0 0); [lra|].
  destruct (Req_dec_T 0 0) as [_|Hne]; [|now elim Hne].
  destruct (Rlt_dec y 0); [lra|].
  destruct (Req_dec_T y 0); [lra|reflexivity].
Qed.

Lemma py_pow_neg_frac (x y : R) :
  x < 0 -> frac_part y <> 0 -> py_pow x y = Err ValueError.
Proof.
  intros Hx Hf. unfold py_pow.
  destruct (Rlt_dec 0 x); [lra|].
  destruct (Req_dec_T x 0); [lra|].
  unfold is_integral.
  destruct (Req_dec_T (frac_part y) 0); [contradiction|reflexivity].
Qed.

Section WindSlope.

Context {F D : Type} (scalars : F -> Fuel.t).

Lemma setSlope_ok (md : Model.t F D) (pr slope : R) :
  Fuel.packingRatio (scalars (Model.fuel md)) = Some pr ->
  0 < pr ->
  Model.setSlope scalars slope md
  = Ok (Model.mk (Model.fuel md) (Model.windSpeed md)
          (Model.windMultiplier md) slope (slopeMultiplier_of pr slope)
          (Model.midflameWind md) (Model.dampMoisture md)
          (Model.dampMineral md) (Model.potReactionVelocity md)
          (Model.reactionIntensity md) (Model.propFluxRatio md)
          (Model.noWindRos md) (Model.ros md)).
Proof.
  intros Hp Hpr. unfold Model.setSlope. cbv zeta.
  rewrite Hp. cbn [bind attr]. rewrite py_pow_pos by assumption.
  reflexivity.
Qed.

Lemma setWind_run (md : Model.t F D) (sg pr op wind : R) :
  Fuel.sigma (scalars (Model.fuel md)) = Some sg ->
  Fuel.packingRatio (scalars (Model.fuel md)) = Some pr ->
  Fuel.optimalPacking (scalars (Model.fuel md)) = Some op ->
  0 < sg -> 0 < pr -> 0 < op ->
  Model.setWind scalars wind md
  = (pw <- py_pow wind (0.02526 * Rpower sg 0.54) ;;
     Ok (Model.mk (Model.fuel md) (Model.windSpeed md)
           (7.47 * exp (-0.133 * Rpower sg 0.55) * pw
            * Rpower (pr / op) (- (0.715 * exp (-3.59e-4 * sg))))
           (Model.slopeRad md) (Model.slopeMultiplier md) (Some wind)
           (Model.dampMoisture md) (Model.dampMineral md)
           (Model.potReactionVelocity md) (Model.reactionIntensity md)
           (Model.propFluxRatio md) (Model.noWindRos md) (Model.ros md))).
Proof.
  intros Hs Hp Ho Hsg Hpr Hop. unfold Model.setWind. cbv zeta.
  rewrite Hs, Hp, Ho. cbn [bind num attr].
  rewrite !(py_pow_pos sg) by assumption. cbn [bind].
  destruct (py_pow wind _) as [pw|e]; cbn [bind]; [|reflexivity].
  rewrite py_div_ok by lra. cbn [bind].
  rewrite py_pow_pos by (unfold Rdiv; apply Rmult_lt_0_compat;
                         [assumption|now apply Rinv_0_lt_compat]).
  reflexivity.
Qed.

(** X10.  The midflame wind given to [setWind] on a fuel with a sigma
    between 1 and 10000 and positive packing ratios: a positive wind gives
    a positive multiplier, no wind gives the multiplier zero, and a
    negative wind raises [ValueError] from [math.pow] when the exponent
    [0.02526 * sigma^0.54] is at least 0.001 away from the whole
    numbers. *)
Theorem setWind_domain (md : Model.t F D) (sg pr op wind : R) :
  Fuel.sigma (scalars (Model.fuel md)) = Some sg ->
  Fuel.packingRatio (scalars (Model.fuel md)) = Some pr ->
  Fuel.optimalPacking (scalars (Model.fuel md)) = Some op ->
  1 <= sg <= 10000 -> 0 < pr -> 0 < op ->
  (0 < wind ->
   exists md', Model.setWind scalars wind md = Ok md' /\
     Model.windMultiplier md' = windMultiplier_of sg (pr / op) wind /\
     0 < Model.windMultiplier md') /\
  (wind = 0 ->
   exists md', Model.setWind scalars wind md = Ok md' /\
     Model.windMultiplier md' = 0) /\
  (wind < 0 ->
   (exists z : Z,
      IZR z + 0.001 <= 0.02526 * Rpower sg 0.54 <= IZR z + 0.999) ->
   Model.setWind scalars wind md = Err ValueError).
Proof.
  intros Hs Hp Ho Hsg Hpr Hop.
  rewrite (setWind_run md sg pr op wind) by (try assumption; lra).
  repeat split.
  - intros Hw. rewrite py_pow_pos by assumption. cbn [bind].
    eexists. split; [reflexivity|]. cbn [Model.windMultiplier].
    split; [reflexivity|].
    apply Rmult_lt_0_compat; [|apply Rpower_pos].
    apply Rmult_lt_0_compat; [|apply Rpower_pos].
    apply Rmult_lt_0_compat; [lra|apply exp_pos].
  - intros ->. rewrite py_pow_zero.
    + cbn [bind]. eexists. split; [reflexivity|].
      cbn [Model.windMultiplier]. ring.
    + pose proof (Rpower_pos sg 0.54). lra.
  - intros Hw [z Hz]. rewrite py_pow_neg_frac; [reflexivity|assumption|].
    apply (frac_part_between _ z). rewrite plus_IZR. lra.
Qed.

End WindSlope.

Lemma Rpower_054_gt (x a : R) :
  0 < a -> a ^ 50 < x ^ 27 -> 0 < x -> a < Rpower x 0.54.
Proof.
  intros Ha Hx Hx0.
  assert (Hp : 0 < a ^ 50) by now apply pow_lt.
  replace a with (Rpower (a ^ 50) 0.02) at 1.
  - replace (Rpower x 0.54) with (Rpower (x ^ 27) 0.02).
    + apply Rlt_Rpower_l; lra.
    + rewrite <- (Rpower_pow 27 x Hx0). rewrite Rpower_mult.
      f_equal. simpl. lra.
  - rewrite <- (Rpower_pow 50 a Ha). rewrite Rpower_mult.
    replace (INR 50 * 0.02) with 1 by (simpl; lra).
    now apply Rpower_1.
Qed.

Lemma Rpower_054_lt (x a : R) :
  0 < a -> x ^ 27 < a ^ 50 -> 0 < x -> Rpower x 0.54 < a.
Proof.
  intros Ha Hx Hx0.
  assert (Hp : 0 < x ^ 27) by now apply pow_lt.
  replace a with (Rpower (a ^ 50) 0.02) at 1.
  - replace (Rpower x 0.54) with (Rpower (x ^ 27) 0.02).
    + apply Rlt_Rpower_l; lra.
    + rewrite <- (Rpower_pow 27 x Hx0). rewrite Rpower_mult.
      f_equal. simpl. lra.
  - rewrite <- (Rpower_pow 50 a Ha). rewrite Rpower_mult.
    replace (INR 50 * 0.02) with 1 by (simpl; lra).
    now apply Rpower_1.
Qed.

(** The exponent of the wind at the sigma of NFFL model 1 lies between 2
    and 3. *)
Lemma wind_exponent_3500 :
  exists z : Z, IZR z + 0.001 <= 0.02526 * Rpower 3500 0.54 <= IZR z + 0.999.
Proof.
  assert (H1 : 79.3 < Rpower 3500 0.54) by (apply Rpower_054_gt; lra).
  assert (H2 : Rpower 3500 0.54 < 118) by (apply Rpower_054_lt; lra).
  exists 2%Z. lra.
Qed.

Lemma setWind_domain_witness :
  (exists md',
     Model.setWind Weighted.scalars 88
       (Weighted.init
          (computed_single RothermelFuel 3500 0.034 0.06 8000 0.0555 0.01
             0.12 1)) = Ok md' /\
     Model.windMultiplier md'
     = windMultiplier_of 3500
         (0.034 / 32 / 1 / (3.348 * Rpower 3500 (-0.8189))) 88 /\
     0 < Model.windMultiplier md') /\
  (exists md',
     Model.setWind Weighted.scalars 0
       (Weighted.init
          (computed_single RothermelFuel 3500 0.034 0.06 8000 0.0555 0.01
             0.12 1)) = Ok md' /\
     Model.windMultiplier md' = 0) /\
  Model.setWind Weighted.scalars (-88)
    (Weighted.init
       (computed_single RothermelFuel 3500 0.034 0.06 8000 0.0555 0.01
          0.12 1)) = Err ValueError.
Proof.
  pose proof (optimalPacking_pos 3500) as Hop.
  assert (Hsg : 1 <= 3500 <= 10000) by lra.
  assert (Hpr : 0 < 0.034 / 32 / 1) by lra.
  split; [|split].
  - apply (setWind_domain Weighted.scalars
             (Weighted.init
                (computed_single RothermelFuel 3500 0.034 0.06 8000 0.0555
                   0.01 0.12 1))
             3500 (0.034 / 32 / 1) (3.348 * Rpower 3500 (-0.8189)) 88
             eq_refl eq_refl eq_refl Hsg Hpr Hop).
    lra.
  - apply (setWind_domain Weighted.scalars
             (Weighted.init
                (computed_single RothermelFuel 3500 0.034 0.06 8000 0.0555
                   0.01 0.12 1))
             3500 (0.034 / 32 / 1) (3.348 * Rpower 3500 (-0.8189)) 0
             eq_refl eq_refl eq_refl Hsg Hpr Hop).
    reflexivity.
  - apply (setWind_domain Weighted.scalars
             (Weighted.init
                (computed_single RothermelFuel 3500 0.034 0.06 8000 0.0555
                   0.01 0.12 1))
             3500 (0.034 / 32 / 1) (3.348 * Rpower 3500 (-0.8189)) (-88)
             eq_refl eq_refl eq_refl Hsg Hpr Hop).
    + lra.
    + apply wind_exponent_3500.
Defined.

(** ** The facade *)

Lemma propFluxRatio_pos (sg pr : R) : 0 < sg -> 0 < propFluxRatio_of sg pr.
Proof.
  intros Hsg. unfold propFluxRatio_of. apply Rdiv_pos; [apply exp_pos|lra].
Qed.





Lemma fbp_evaluate_single (s : FBP.t) (md : Weighted.t) (cls : FuelClass)
    (sg w m heat tot eff ext dp : R) :
  FBP.fireModel s = Some md ->
  Model.fuel md
  = single_complex cls (ready_fuel cls sg w m heat tot eff) ext dp ->
  FBP.rateOfSpread s = None ->
  FBP.heatPerArea s = None ->
  evaluable cls sg w m tot eff ext dp ->
  0 < 250 + 1116 * m ->
  0 <= FBP.midflameWindSpeed s ->
  exists md' k,
    0 < k /\
    FBP.evaluate s
    = Ok (FBP.with_outputs
            (Some (k * intensity_single cls sg w m heat tot eff ext dp))
            (Some (intensity_single cls sg w m heat tot eff ext dp))
            (FBP.with_fireModel (Some md') s)).
Proof.
  intros Hfm Hfuel Hros Hhpa Hev Hhi0 Hwind.
  pose proof Hev as (Hcls & Hsg & Hw & Hdp & Heff & Hext & Hhi & Htot & Hdef).
  pose proof (optimalPacking_pos sg) as Hop.
  pose proof (packing_pos w dp Hw Hdp) as Hpr.
  pose proof (exp_pos (-138 / sg)) as Hhe.
  unfold FBP.evaluate. rewrite Hros, Hhpa, Hfm. cbn [bind attr].
  rewrite Hfuel, compute_single by (try assumption; lra).
  cbn [bind].
  change (dict_mem LIVE
            (FuelComplex.fuelParameters
               (computed_single cls sg w m heat tot eff ext dp)))
    with false.
  cbv iota. cbn [bind].
  rewrite (setSlope_ok Weighted.scalars _ (w / 32 / dp));
    [|reflexivity|assumption].
  cbn [bind].
  rewrite (setWind_run Weighted.scalars _ sg (w / 32 / dp)
             (3.348 * Rpower sg (-0.8189)));
    [|reflexivity|reflexivity|reflexivity|assumption|assumption|assumption].
  assert (Hpw : exists pw, 0 <= pw /\
            py_pow (FBP.midflameWindSpeed s * (5280 / 60))
              (0.02526 * Rpower sg 0.54) = Ok pw).
  { destruct Hwind as [Hpos|Hz].
    - exists (Rpower (FBP.midflameWindSpeed s * (5280 / 60))
                (0.02526 * Rpower sg 0.54)).
      split; [left; apply Rpower_pos|].
      apply py_pow_pos. lra.
    - exists 0. split; [lra|].
      rewrite <- Hz. replace (0 * (5280 / 60)) with 0 by lra.
      apply py_pow_zero. pose proof (Rpower_pos sg 0.54). lra. }
  destruct Hpw as (pw & Hpw0 & Hpw). rewrite Hpw. cbn [bind]. md_simpl.
  set (wm := 7.47 * exp (-0.133 * Rpower sg 0.55) * pw
             * Rpower (w / 32 / dp / (3.348 * Rpower sg (-0.8189)))
                 (- (0.715 * exp (-3.59e-4 * sg)))).
  set (sm := slopeMultiplier_of (w / 32 / dp) (radians (FBP.slope s))).
  assert (Hwm : 0 <= wm).
  { unfold wm. apply Rmult_le_pos; [|left; apply Rpower_pos].
    apply Rmult_le_pos; [|assumption].
    left. apply Rmult_lt_0_compat; [lra|apply exp_pos]. }
  assert (Hsm : 0 <= sm).
  { unfold sm, slopeMultiplier_of.
    apply Rmult_le_pos; [|apply Rle_0_sqr].
    pose proof (Rpower_pos (w / 32 / dp) (-0.3)). lra. }
  match goal with
  | |- context [Weighted.evaluate ?c ?x] =>
      destruct (weighted_evaluate_single c cls sg w m heat tot eff ext dp x
                  Hev eq_refl) as (md' & He & Hri & Hr & _)
  end.
  rewrite He. cbn [bind]. rewrite Hri, Hr. cbn [bind attr].
  md_simpl.
  exists md',
    (propFluxRatio_of sg (w / 32 / dp)
     / ((250 + 1116 * m) * exp (-138 / sg)) * (1 + wm + sm)).
  split.
  - apply Rmult_lt_0_compat; [|lra].
    apply Rdiv_pos; [now apply propFluxRatio_pos|].
    now apply Rmult_lt_0_compat.
  - do 3 f_equal. field. split; lra.
Qed.

Lemma getRateOfSpread_fresh (s s' : FBP.t) (r : R) :
  FBP.rateOfSpread s = None ->
  FBP.evaluate s = Ok s' ->
  FBP.rateOfSpread s' = Some r ->
  FBP.getRateOfSpread s
  = Ok (Rmax r 0,
        if Rlt_dec r 0 then FBP.with_outputs (Some 0) (FBP.heatPerArea s') s'
        else s').
Proof.
  intros Hn He Hr. unfold FBP.getRateOfSpread.
  rewrite Hn, He. cbn [bind]. rewrite Hr. cbn [bind num].
  destruct (Rlt_dec r 0) as [Hlt|Hge].
  - cbn [FBP.rateOfSpread FBP.with_outputs bind num].
    rewrite Rmax_right by lra. reflexivity.
  - rewrite Hr. cbn [bind num]. rewrite Rmax_left by lra. reflexivity.
Qed.

Lemma getHeatPerArea_fresh (s s' : FBP.t) (h : R) :
  FBP.rateOfSpread s = None ->
  FBP.evaluate s = Ok s' ->
  FBP.heatPerArea s' = Some h ->
  FBP.getHeatPerArea s
  = Ok (Some (Rmax h 0),
        if Rlt_dec h 0 then FBP.with_outputs (FBP.rateOfSpread s') (Some 0) s'
        else s').
Proof.
  intros Hn He Hh. unfold FBP.getHeatPerArea.
  rewrite Hn, He. cbn [bind]. rewrite Hh. cbn [bind num].
  destruct (Rlt_dec h 0) as [Hlt|Hge].
  - cbn [FBP.heatPerArea FBP.with_outputs].
    rewrite Rmax_right by lra. reflexivity.
  - rewrite Hh. rewrite Rmax_left by lra. reflexivity.
Qed.

Lemma getHeatPerArea_cached (s : FBP.t) (r : R) :
  FBP.rateOfSpread s = Some r ->
  FBP.getHeatPerArea s = Ok (FBP.heatPerArea s, s).
Proof. intros H. unfold FBP.getHeatPerArea. now rewrite H. Qed.

Lemma getRateOfSpread_cached (s : FBP.t) (r : R) :
  FBP.rateOfSpread s = Some r ->
  FBP.getRateOfSpread s = Ok (r, s).
Proof. intros H. unfold FBP.getRateOfSpread. now rewrite H. Qed.

Lemma rate_then_heat (s s' : FBP.t) (r h : R) :
  FBP.rateOfSpread s = None ->
  FBP.evaluate s = Ok s' ->
  FBP.rateOfSpread s' = Some r ->
  FBP.heatPerArea s' = Some h ->
  exists s1,
    FBP.getRateOfSpread s = Ok (Rmax r 0, s1) /\
    FBP.getHeatPerArea s1 = Ok (Some h, s1).
Proof.
  intros Hn He Hr Hh.
  exists (if Rlt_dec r 0
          then FBP.with_outputs (Some 0) (FBP.heatPerArea s') s' else s').
  split; [now apply (getRateOfSpread_fresh s s')|].
  destruct (Rlt_dec r 0).
  - rewrite (getHeatPerArea_cached _ 0) by reflexivity.
    cbn [FBP.heatPerArea FBP.with_outputs]. now rewrite Hh.
  - rewrite (getHeatPerArea_cached _ r) by assumption. now rewrite Hh.
Qed.

Lemma heat_then_rate (s s' : FBP.t) (r h : R) :
  FBP.rateOfSpread s = None ->
  FBP.evaluate s = Ok s' ->
  FBP.rateOfSpread s' = Some r ->
  FBP.heatPerArea s' = Some h ->
  exists s1,
    FBP.getHeatPerArea s = Ok (Some (Rmax h 0), s1) /\
    FBP.getRateOfSpread s1 = Ok (r, s1).
Proof.
  intros Hn He Hr Hh.
  exists (if Rlt_dec h 0
          then FBP.with_outputs (FBP.rateOfSpread s') (Some 0) s' else s').
  split; [now apply (getHeatPerArea_fresh s s')|].
  destruct (Rlt_dec h 0).
  - apply getRateOfSpread_cached.
    cbn [FBP.rateOfSpread FBP.with_outputs]. exact Hr.
  - now apply getRateOfSpread_cached.
Qed.

(** X11.  The two accessors of the facade on a state without outputs whose
    evaluation gives the rate of spread [r] and the heat per area [h].  The
    accessor called first evaluates and returns its own output clamped at
    zero; the accessor called next finds the rate of spread cached and
    returns its own output as evaluated, negative or not. *)
Theorem accessors_clamp_first_only (s s' : FBP.t) (r h : R) :
  FBP.rateOfSpread s = None ->
  FBP.evaluate s = Ok s' ->
  FBP.rateOfSpread s' = Some r ->
  FBP.heatPerArea s' = Some h ->
  (exists s1 s2,
     FBP.getRateOfSpread s = Ok (Rmax r 0, s1) /\
     FBP.getHeatPerArea s1 = Ok (Some h, s2)) /\
  (exists s1 s2,
     FBP.getHeatPerArea s = Ok (Some (Rmax h 0), s1) /\
     FBP.getRateOfSpread s1 = Ok (r, s2)).
Proof.
  intros Hn He Hr Hh. split.
  - destruct (rate_then_heat s s' r h Hn He Hr Hh) as (s1 & H1 & H2).
    now exists s1, s1.
  - destruct (heat_then_rate s s' r h Hn He Hr Hh) as (s1 & H1 & H2).
    now exists s1, s1.
Qed.

Lemma accessors_clamp_first_only_witness :
  exists s' r h,
    FBP.evaluate
      (single_facade WeightedRothermelModel RothermelFuel 3500 0.034 0.06
         8000 0.0555 0.01 0.12 1 0 5) = Ok s' /\
    (exists s1 s2,
       FBP.getRateOfSpread
         (single_facade WeightedRothermelModel RothermelFuel 3500 0.034 0.06
            8000 0.0555 0.01 0.12 1 0 5) = Ok (Rmax r 0, s1) /\
       FBP.getHeatPerArea s1 = Ok (Some h, s2)) /\
    (exists s1 s2,
       FBP.getHeatPerArea
         (single_facade WeightedRothermelModel RothermelFuel 3500 0.034 0.06
            8000 0.0555 0.01 0.12 1 0 5) = Ok (Some (Rmax h 0), s1) /\
       FBP.getRateOfSpread s1 = Ok (r, s2)).
Proof.
  assert (Hev : evaluable RothermelFuel 3500 0.034 0.06 0.0555 0.01 0.12 1).
  { unfold evaluable. repeat split; try lra.
    - discriminate.
    - apply rothermel_defined_above. lra. }
  destruct (fbp_evaluate_single
              (single_facade WeightedRothermelModel RothermelFuel 3500 0.034
                 0.06 8000 0.0555 0.01 0.12 1 0 5)
              _ RothermelFuel 3500 0.034 0.06 8000 0.0555 0.01 0.12 1
              eq_refl eq_refl eq_refl eq_refl Hev)
    as (md' & k & Hk & He).
  - lra.
  - cbn [FBP.midflameWindSpeed single_facade]. lra.
  - eexists _, _, _. split; [exact He|].
    apply (accessors_clamp_first_only
             (single_facade WeightedRothermelModel RothermelFuel 3500 0.034
                0.06 8000 0.0555 0.01 0.12 1 0 5)
             _ _ _ eq_refl He eq_refl eq_refl).
Defined.



(** ** The complex after [compute()] *)

Lemma compute_inv (c c3 : FuelComplex.t) :
  wf_params (FuelComplex.fuelParameters c) ->
  FuelComplex.compute c = Ok c3 ->
  exists ca ws cats st b,
    areas_spec (FuelComplex.fuelParameters c) = Ok ca /\
    weights_spec ca (totalArea_spec ca) = Ok ws /\
    same_keys2 (FuelComplex.fuelParameters c) (dict_map snd ws) /\
    same_keys (FuelComplex.fuelParameters c) (dict_map fst ws) /\
    aggCategories (FuelComplex.fuelParameters c) (dict_map snd ws)
      = Ok cats /\
    same_keys2 (FuelComplex.fuelParameters c) (dict_map fst cats) /\
    complexCategories (dict_map fst cats) (dict_map fst ws)
      (dict_map snd ws) (0, 0, 0) = Ok st /\
    FuelComplex.storeComplex st (aggregated c ca ws cats) = Ok c3 /\
    c3 = FuelComplex.with_base b (aggregated c ca ws cats).
Proof.
  intros Hwf H. rewrite compute_eq in H by assumption.
  unfold compute_spec in H.
  destruct (calcWeightingParameters_spec c) as [c1|e] eqn:H1;
    cbn [bind] in H; [|discriminate].
  destruct (calcWeightingParameters_spec_inv c c1 H1)
    as (ca & ws & Ha & Hw & -> & Hk2 & Hk1).
  destruct (aggregateIntoCategories_spec _) as [c2|e] eqn:H2;
    cbn [bind] in H; [|discriminate].
  destruct (aggregateIntoCategories_spec_inv _ c2 H2) as (cats & Hc & ->).
  fc_simpl.
  unfold aggregateIntoComplex_spec in H. fc_simpl.
  destruct (complexCategories _ _ _ _) as [st|e] eqn:Hst; cbn [bind] in H;
    [|discriminate].
  destruct (storeComplex_inv _ _ _ H) as [b Hb].
  exists ca, ws, cats, st, b.
  repeat split; try assumption.
  apply (aggCategories_keys _ _ _ Hk2 Hc).
Qed.

Lemma dict_keys_same_keys2 {A B : Type} (d1 : dict (dict A))
    (d2 : dict (dict B)) :
  same_keys2 d1 d2 -> same_keys d1 d2.
Proof. apply same_keys2_keys. Qed.

(** X13.  After a successful [compute()] on a well-formed particle map, the
    particle map has the categories and size classes it had, every particle
    has a class weight, and every category has a weight and its four
    aggregates: the dictionaries all carry the keys of the particle map, in
    its order. *)
Theorem compute_keys (c c3 : FuelComplex.t) :
  wf_params (FuelComplex.fuelParameters c) ->
  FuelComplex.compute c = Ok c3 ->
  same_keys2 (FuelComplex.fuelParameters c) (FuelComplex.fuelParameters c3) /\
  same_keys2 (FuelComplex.fuelParameters c) (FuelComplex.classWeighting c3) /\
  same_keys (FuelComplex.fuelParameters c) (FuelComplex.categoryWeighting c3) /\
  exists heat net eff moist,
    FuelComplex.heatContent c3 = Some heat /\
    FuelComplex.netFuelLoading c3 = Some net /\
    FuelComplex.effMineralContent c3 = Some eff /\
    FuelComplex.fuelMoisture c3 = Some moist /\
    same_keys (FuelComplex.fuelParameters c) heat /\
    same_keys (FuelComplex.fuelParameters c) net /\
    same_keys (FuelComplex.fuelParameters c) eff /\
    same_keys (FuelComplex.fuelParameters c) moist.
Proof.
  intros Hwf H.
  destruct (compute_inv c c3 Hwf H)
    as (ca & ws & cats & st & b & Ha & Hw & Hk2 & Hk1 & Hc & Hkc & Hst & Hs
        & ->).
  unfold aggregated. fc_simpl.
  assert (Hk : dict_keys (FuelComplex.fuelParameters c) = dict_keys cats).
  { rewrite (same_keys2_keys _ _ Hkc). apply dict_keys_map. }
  split; [exact Hkc|]. split; [exact Hk2|]. split; [exact Hk1|].
  eexists _, _, _, _. repeat split; unfold same_keys;
    rewrite dict_keys_map; exact Hk.
Qed.

Lemma compute_keys_witness :
  same_keys2
    (FuelComplex.fuelParameters
       (single_complex AlbiniFuel
          (ready_fuel AlbiniFuel 3500 0.034 0.06 8000 0.0555 0.01) 0.12 1))
    (FuelComplex.fuelParameters
       (computed_single AlbiniFuel 3500 0.034 0.06 8000 0.0555 0.01 0.12 1))
  /\
  same_keys2
    (FuelComplex.fuelParameters
       (single_complex AlbiniFuel
          (ready_fuel AlbiniFuel 3500 0.034 0.06 8000 0.0555 0.01) 0.12 1))
    (FuelComplex.classWeighting
       (computed_single AlbiniFuel 3500 0.034 0.06 8000 0.0555 0.01 0.12 1))
  /\
  same_keys
    (FuelComplex.fuelParameters
       (single_complex AlbiniFuel
          (ready_fuel AlbiniFuel 3500 0.034 0.06 8000 0.0555 0.01) 0.12 1))
    (FuelComplex.categoryWeighting
       (computed_single AlbiniFuel 3500 0.034 0.06 8000 0.0555 0.01 0.12 1))
  /\
  exists heat net eff moist,
    FuelComplex.heatContent
      (computed_single AlbiniFuel 3500 0.034 0.06 8000 0.0555 0.01 0.12 1)
    = Some heat /\
    FuelComplex.netFuelLoading
      (computed_single AlbiniFuel 3500 0.034 0.06 8000 0.0555 0.01 0.12 1)
    = Some net /\
    FuelComplex.effMineralContent
      (computed_single AlbiniFuel 3500 0.034 0.06 8000 0.0555 0.01 0.12 1)
    = Some eff /\
    FuelComplex.fuelMoisture
      (computed_single AlbiniFuel 3500 0.034 0.06 8000 0.0555 0.01 0.12 1)
    = Some moist /\
    same_keys
      (FuelComplex.fuelParameters
         (single_complex AlbiniFuel
            (ready_fuel AlbiniFuel 3500 0.034 0.06 8000 0.0555 0.01) 0.12 1))
      heat /\
    same_keys
      (FuelComplex.fuelParameters
         (single_complex AlbiniFuel
            (ready_fuel AlbiniFuel 3500 0.034 0.06 8000 0.0555 0.01) 0.12 1))
      net /\
    same_keys
      (FuelComplex.fuelParameters
         (single_complex AlbiniFuel
            (ready_fuel AlbiniFuel 3500 0.034 0.06 8000 0.0555 0.01) 0.12 1))
      eff /\
    same_keys
      (FuelComplex.fuelParameters
         (single_complex AlbiniFuel
            (ready_fuel AlbiniFuel 3500 0.034 0.06 8000 0.0555 0.01) 0.12 1))
      moist.
Proof.
  apply compute_keys.
  - apply wf_single.
  - apply compute_single; try lra; try discriminate. exact I.
Defined.

(** ** A change of moisture *)

Lemma same_but_moisture_refl (f : Fuel.t) : same_but_moisture f f.
Proof. unfold same_but_moisture. tauto. Qed.

Lemma same_but_moisture1_refl (d : dict Fuel.t) : same_but_moisture1 d d.
Proof.
  induction d; constructor; [|assumption].
  split; [reflexivity|apply same_but_moisture_refl].
Qed.

Lemma same_but_moisture2_refl (d : dict (dict Fuel.t)) :
  same_but_moisture2 d d.
Proof.
  induction d; constructor; [|assumption].
  split; [reflexivity|apply same_but_moisture1_refl].
Qed.

Lemma same_but_moisture_trans (f g h : Fuel.t) :
  same_but_moisture f g -> same_but_moisture g h -> same_but_moisture f h.
Proof.
  unfold same_but_moisture.
  intros (A1 & A2 & A3 & A4 & A5 & A6 & A7 & A8)
         (B1 & B2 & B3 & B4 & B5 & B6 & B7 & B8).
  repeat split; try congruence. auto.
Qed.

(** Storing a particle that differs in its moisture only. *)
Lemma same_but_moisture1_set (d : dict Fuel.t) (k : string) (f f' : Fuel.t) :
  dict_find k d = Some f ->
  same_but_moisture f f' ->
  same_but_moisture1 d (dict_set k f' d).
Proof.
  intros Hf Hs. induction d as [|[k0 f0] d IH]; simpl in *; [discriminate|].
  destruct (String.eqb_spec k k0) as [->|Hne].
  - injection Hf as ->. constructor.
    + split; [reflexivity|assumption].
    + apply same_but_moisture1_refl.
  - constructor.
    + split; [reflexivity|apply same_but_moisture_refl].
    + now apply IH.
Qed.

Lemma same_but_moisture2_set (d : dict (dict Fuel.t)) (k : string)
    (classes classes' : dict Fuel.t) :
  dict_find k d = Some classes ->
  same_but_moisture1 classes classes' ->
  same_but_moisture2 d (dict_set k classes' d).
Proof.
  intros Hf Hs. induction d as [|[k0 c0] d IH]; simpl in *; [discriminate|].
  destruct (String.eqb_spec k k0) as [->|Hne].
  - injection Hf as ->. constructor.
    + split; [reflexivity|assumption].
    + apply same_but_moisture2_refl.
  - constructor.
    + split; [reflexivity|apply same_but_moisture1_refl].
    + now apply IH.
Qed.

Lemma setFuelMoisture_same (m : R) (o : option R) (f : Fuel.t) :
  same_but_moisture f (Fuel.setFuelMoisture m o f).
Proof.
  unfold same_but_moisture, Fuel.setFuelMoisture. cbn.
  repeat split. discriminate.
Qed.

Lemma same_but_moisture_area (f f' : Fuel.t) :
  same_but_moisture f f' ->
  FuelComplex.calcMeanSurfaceAreaOneClass f'
  = FuelComplex.calcMeanSurfaceAreaOneClass f.
Proof.
  intros (_ & H2 & H3 & H4 & _). now apply area_congr.
Qed.

Lemma same_but_moisture2_areas (fp fp' : dict (dict Fuel.t)) :
  same_but_moisture2 fp fp' -> areas_spec fp' = areas_spec fp.
Proof.
  unfold areas_spec, dict_mapM.
  induction 1 as [|[k d] [k' d'] fp fp' [Hk Hd] Hrest IH]; [reflexivity|].
  cbn [fst snd] in *. subst k'. cbn [mapM fst snd].
  assert (E : mapM (fun kv => v <- FuelComplex.calcMeanSurfaceAreaOneClass
                                      (snd kv) ;; Ok (fst kv, v)) d'
              = mapM (fun kv => v <- FuelComplex.calcMeanSurfaceAreaOneClass
                                        (snd kv) ;; Ok (fst kv, v)) d).
  { clear -Hd.
    induction Hd as [|[c f] [c' f'] d d' [Hc Hf] Hrest IH]; [reflexivity|].
    cbn [fst snd] in *. subst c'. cbn [mapM fst snd].
    rewrite (same_but_moisture_area f f' Hf), IH. reflexivity. }
  rewrite E, IH. reflexivity.
Qed.

Lemma aggStep_moisture (f f' f1 : Fuel.t) (w : R) (acc acc' a1 : Aggregates) :
  same_but_moisture f f' ->
  a_heat acc' = a_heat acc -> a_net acc' = a_net acc ->
  a_eff acc' = a_eff acc ->
  aggStep f w acc = Ok (f1, a1) ->
  exists f1' a1',
    aggStep f' w acc' = Ok (f1', a1') /\
    same_but_moisture f1 f1' /\
    a_heat a1' = a_heat a1 /\ a_net a1' = a_net a1 /\ a_eff a1' = a_eff a1.
Proof.
  intros (A1 & A2 & A3 & A4 & A5 & A6 & A7 & A8) Hh Hn He H.
  unfold aggStep in *.
  destruct (Fuel.calcNetFuelLoading f) as [g|e] eqn:Hg; cbn [bind] in H;
    [|discriminate].
  destruct (calcNetFuelLoading_inv f g Hg) as [n ->].
  assert (Hg' : Fuel.calcNetFuelLoading f'
                = Ok (Fuel.with_netFuelLoading (Some n) f')).
  { unfold Fuel.calcNetFuelLoading in *. rewrite A1, A2, A5.
    destruct (Fuel.class f); [discriminate| |].
    - destruct (num (Fuel.ovendryLoading f)) as [x|e]; cbn [bind] in *;
        [|discriminate].
      destruct (py_div x _) as [y|e]; cbn [bind] in *; [|discriminate].
      injection Hg as ->. reflexivity.
    - destruct (num (Fuel.ovendryLoading f)) as [x|e]; cbn [bind] in *;
        [|discriminate].
      injection Hg as <-. reflexivity. }
  rewrite Hg'. cbn [bind].
  cbn [Fuel.netFuelLoading Fuel.fuelMoisture Fuel.with_netFuelLoading
       Fuel.heatContent Fuel.effMineralContent attr bind] in *.
  destruct (Fuel.fuelMoisture f) as [m|] eqn:Hm; cbn [num bind] in H;
    [|discriminate].
  injection H as <- <-.
  destruct (Fuel.fuelMoisture f') as [m'|] eqn:Hm';
    [|exfalso; apply A8; [discriminate|reflexivity]].
  cbn [num bind].
  eexists _, _. split; [reflexivity|].
  split.
  - unfold same_but_moisture.
    cbn [Fuel.class Fuel.ovendryLoading Fuel.sigma Fuel.particleDensity
         Fuel.totMineralContent Fuel.effMineralContent Fuel.heatContent
         Fuel.fuelMoisture Fuel.with_netFuelLoading].
    rewrite Hm, Hm'. repeat split; try assumption; discriminate.
  - cbn [a_heat a_net a_eff]. rewrite Hh, Hn, He, A6, A7. repeat split.
Qed.

Lemma aggClasses_moisture (classes classes' : dict Fuel.t) :
  same_but_moisture1 classes classes' ->
  forall (cw : dict R) (acc acc' a : Aggregates) (rest : dict Fuel.t),
  a_heat acc' = a_heat acc -> a_net acc' = a_net acc ->
  a_eff acc' = a_eff acc ->
  aggClasses classes cw acc = Ok (rest, a) ->
  exists rest' a',
    aggClasses classes' cw acc' = Ok (rest', a') /\
    same_but_moisture1 rest rest' /\
    a_heat a' = a_heat a /\ a_net a' = a_net a /\ a_eff a' = a_eff a.
Proof.
  induction 1 as [|[k f] [k' f'] classes classes' [Hk Hf] Hrest IH];
    intros cw acc acc' a rest Hh Hn He H.
  - cbn in H. injection H as <- <-. exists [], acc'.
    repeat split; try assumption. constructor.
  - cbn [fst snd] in *. subst k'.
    destruct cw as [|[kw w] cw].
    + cbn in H. injection H as <- <-.
      exists ((k, f') :: classes'), acc'.
      repeat split; try assumption.
      constructor; [split; [reflexivity|assumption]|assumption].
    + cbn [aggClasses] in *.
      destruct (aggStep f w acc) as [[f1 a1]|e] eqn:Hs; cbn [bind] in H;
        [|discriminate].
      destruct (aggClasses classes cw a1) as [[rest1 a2]|e] eqn:Hr;
        cbn [bind] in H; [|discriminate].
      injection H as <- <-.
      destruct (aggStep_moisture f f' f1 w acc acc' a1 Hf Hh Hn He Hs)
        as (f1' & a1' & Hs' & Hf1 & Hh1 & Hn1 & He1).
      destruct (IH cw a1 a1' a2 rest1 Hh1 Hn1 He1 Hr)
        as (rest' & a' & Hr' & Hrest' & Hh2 & Hn2 & He2).
      rewrite Hs'. cbn [bind]. rewrite Hr'. cbn [bind].
      eexists _, _. split; [reflexivity|].
      repeat split; try assumption.
      constructor; [split; [reflexivity|assumption]|assumption].
Qed.

Lemma aggCategories_moisture (fp fp' : dict (dict Fuel.t)) :
  same_but_moisture2 fp fp' ->
  forall (clw : dict (dict R)) (cats : dict (dict Fuel.t * Aggregates)),
  aggCategories fp clw = Ok cats ->
  exists cats',
    aggCategories fp' clw = Ok cats' /\
    same_but_moisture2 (dict_map fst cats) (dict_map fst cats') /\
    dict_map (fun r => a_heat (snd r)) cats'
    = dict_map (fun r => a_heat (snd r)) cats /\
    dict_map (fun r => a_net (snd r)) cats'
    = dict_map (fun r => a_net (snd r)) cats /\
    dict_map (fun r => a_eff (snd r)) cats'
    = dict_map (fun r => a_eff (snd r)) cats.
Proof.
  induction 1 as [|[k d] [k' d'] fp fp' [Hk Hd] Hrest IH];
    intros clw cats H.
  - cbn in H. injection H as <-. exists [].
    repeat split. constructor.
  - cbn [fst snd] in *. subst k'.
    destruct clw as [|[kw cw] clw].
    + cbn in H. injection H as <-. exists [].
      repeat split. constructor.
    + cbn [aggCategories] in *.
      destruct (aggClasses d cw _) as [[rest a]|e] eqn:Hr; cbn [bind] in H;
        [|discriminate].
      destruct (aggCategories fp clw) as [rs|e] eqn:Hrs; cbn [bind] in H;
        [|discriminate].
      injection H as <-.
      destruct (aggClasses_moisture d d' Hd cw _ _ a rest
                  eq_refl eq_refl eq_refl Hr)
        as (rest' & a' & Hr' & Hrest' & Hh & Hn & He).
      destruct (IH clw rs Hrs) as (rs' & Hrs' & Hsim & Eh & En & Ee).
      rewrite Hr'. cbn [bind]. rewrite Hrs'. cbn [bind].
      eexists. split; [reflexivity|].
      unfold dict_map in *. cbn [map fst snd].
      rewrite Hh, Hn, He, Eh, En, Ee.
      repeat split.
      constructor; [split; [reflexivity|assumption]|assumption].
Qed.

Lemma complexClasses_moisture (classes classes' : dict Fuel.t) :
  same_but_moisture1 classes classes' ->
  forall (cw : dict R) (st : R * R * R),
  complexClasses classes' cw st = complexClasses classes cw st.
Proof.
  induction 1 as [|[k f] [k' f'] classes classes' [Hk Hf] Hrest IH];
    intros cw st; [reflexivity|].
  cbn [fst snd] in *.
  destruct cw as [|[kw w] cw]; [reflexivity|].
  cbn [complexClasses].
  assert (E : complexStep f' w st = complexStep f w st).
  { destruct Hf as (_ & H2 & H3 & H4 & _). unfold complexStep.
    destruct st as [[a b] c0]. now rewrite H2, H3, H4. }
  rewrite E. destruct (complexStep f w st); cbn [bind]; [apply IH|reflexivity].
Qed.

Lemma complexCategories_moisture (fp fp' : dict (dict Fuel.t)) :
  same_but_moisture2 fp fp' ->
  forall (catw : dict R) (clw : dict (dict R)) (st : R * R * R),
  complexCategories fp' catw clw st = complexCategories fp catw clw st.
Proof.
  induction 1 as [|[k d] [k' d'] fp fp' [Hk Hd] Hrest IH];
    intros catw clw st; [reflexivity|].
  cbn [fst snd] in *.
  destruct catw as [|[kc cwt] catw]; [reflexivity|].
  destruct clw as [|[kw cw] clw]; [reflexivity|].
  cbn [complexCategories]. destruct st as [[sg pr] bd].
  rewrite (complexClasses_moisture d d' Hd).
  destruct (complexClasses d cw _) as [[[a b] c0]|e]; cbn [bind];
    [apply IH|reflexivity].
Qed.

Lemma same_but_moisture2_keys (fp fp' : dict (dict Fuel.t)) :
  same_but_moisture2 fp fp' -> same_keys2 fp fp'.
Proof.
  induction 1 as [|[k d] [k' d'] fp fp' [Hk Hd] Hrest IH]; constructor;
    [|assumption].
  split; [assumption|]. cbn [fst snd] in *. unfold same_keys, dict_keys.
  clear -Hd. induction Hd as [|x y d d' [Hx _] _ IH]; [reflexivity|].
  cbn [map]. now rewrite Hx, IH.
Qed.

Lemma storeComplex_congr (st : R * R * R) (x y : FuelComplex.t) :
  FuelComplex.base x = FuelComplex.base y ->
  FuelComplex.depth x = FuelComplex.depth y ->
  FuelComplex.storeComplex st y = Ok y ->
  FuelComplex.storeComplex st x
  = Ok (FuelComplex.with_base (FuelComplex.base y) x).
Proof.
  unfold FuelComplex.storeComplex. destruct st as [[sigma pr] bd].
  intros Hb Hd. rewrite Hb, Hd.
  destruct (py_div bd _) as [bd'|e]; cbn [bind]; [|discriminate].
  destruct (py_div pr _) as [pr'|e]; cbn [bind]; [|discriminate].
  destruct (Fuel.setSigma sigma _) as [b|e]; cbn [bind]; [|discriminate].
  intros H. injection H as H.
  apply (f_equal FuelComplex.base) in H. fc_simpl. now rewrite H.
Qed.

(** X14.  A change of one particle's moisture on a computed complex,
    followed by [compute()] again: the call returns, and the surface areas,
    the class and category weights, the aggregated heat content, net fuel
    loading and effective mineral content, and the values of the whole
    complex (sigma, packing ratio, bulk density and the geometry that
    [setSigma] derives) are what they were. *)
Theorem moisture_change_keeps_weights (c c1 c1' : FuelComplex.t)
    (cat cls : string) (m : R) :
  wf_params (FuelComplex.fuelParameters c) ->
  FuelComplex.compute c = Ok c1 ->
  FuelComplex.setFuelMoisture cat cls m c1 = Ok c1' ->
  exists c2,
    FuelComplex.compute c1' = Ok c2 /\
    FuelComplex.classWeighting c2 = FuelComplex.classWeighting c1 /\
    FuelComplex.categoryWeighting c2 = FuelComplex.categoryWeighting c1 /\
    FuelComplex.classAreas c2 = FuelComplex.classAreas c1 /\
    FuelComplex.categoryAreas c2 = FuelComplex.categoryAreas c1 /\
    FuelComplex.totalArea c2 = FuelComplex.totalArea c1 /\
    FuelComplex.heatContent c2 = FuelComplex.heatContent c1 /\
    FuelComplex.netFuelLoading c2 = FuelComplex.netFuelLoading c1 /\
    FuelComplex.effMineralContent c2 = FuelComplex.effMineralContent c1 /\
    FuelComplex.base c2 = FuelComplex.base c1.
Proof.
  intros Hwf H Hset.
  destruct (compute_inv c c1 Hwf H)
    as (ca & ws & cats & st & b & Ha & Hw & Hk2 & Hk1 & Hc & Hkc & Hst & Hs
        & E1).
  pose proof (storeComplex_idem _ _ _ Hs) as Hidem.
  assert (Hfp1 : FuelComplex.fuelParameters c1 = dict_map fst cats).
  { rewrite E1. reflexivity. }
  assert (Hwf1 : wf_params (FuelComplex.fuelParameters c1)).
  { rewrite Hfp1.
    apply (wf_same_keys2 (FuelComplex.fuelParameters c)); assumption. }
  (* the particle map after the change *)
  unfold FuelComplex.setFuelMoisture, dict_get in Hset.
  destruct (dict_find cat (FuelComplex.fuelParameters c1)) as [classes|]
    eqn:Hcat; cbn [bind] in Hset; [|discriminate].
  destruct (dict_find cls classes) as [f|] eqn:Hcls; cbn [bind] in Hset;
    [|discriminate].
  injection Hset as <-.
  set (fp1' := dict_set cat
                 (dict_set cls (Fuel.setFuelMoisture m None f) classes)
                 (FuelComplex.fuelParameters c1)).
  assert (Hsim : same_but_moisture2 (FuelComplex.fuelParameters c1) fp1').
  { apply (same_but_moisture2_set _ _ classes); [assumption|].
    apply (same_but_moisture1_set _ _ f); [assumption|].
    apply setFuelMoisture_same. }
  assert (Hwf1' : wf_params fp1').
  { apply (wf_same_keys2 (FuelComplex.fuelParameters c1)); [|assumption].
    now apply same_but_moisture2_keys. }
  rewrite compute_eq by exact Hwf1'.
  unfold compute_spec, calcWeightingParameters_spec. fc_simpl.
  rewrite (same_but_moisture2_areas _ _ Hsim).
  pose proof (aggCategories_areas _ _ _ Hk2 Hc) as Har.
  rewrite <- Hfp1 in Har. rewrite Har, Ha. cbn [bind].
  rewrite Hw. cbn [bind].
  unfold aggregateIntoCategories_spec. fc_simpl.
  pose proof (aggCategories_idem _ _ _ Hc) as Hc1.
  rewrite <- Hfp1 in Hc1.
  destruct (aggCategories_moisture _ _ Hsim _ _ Hc1)
    as (cats' & Hc' & Hsim' & Eh & En & Ee).
  rewrite Hc'. cbn [bind].
  unfold aggregateIntoComplex_spec. fc_simpl.
  rewrite (complexCategories_moisture _ _ Hsim'), Hst. cbn [bind].
  rewrite (storeComplex_congr st _ c1);
    [|reflexivity|reflexivity|exact Hidem].
  eexists. split; [reflexivity|].
  fc_simpl. rewrite Eh, En, Ee, E1. unfold aggregated. fc_simpl.
  repeat split.
Qed.

Lemma moisture_change_keeps_weights_witness :
  exists c1',
    FuelComplex.setFuelMoisture DEAD ONEHR 0.1
      (computed_single RothermelFuel 3500 0.034 0.06 8000 0.0555 0.01 0.12 1)
    = Ok c1' /\
    exists c2,
      FuelComplex.compute c1' = Ok c2 /\
      FuelComplex.classWeighting c2
      = FuelComplex.classWeighting
          (computed_single RothermelFuel 3500 0.034 0.06 8000 0.0555 0.01
             0.12 1) /\
      FuelComplex.categoryWeighting c2
      = FuelComplex.categoryWeighting
          (computed_single RothermelFuel 3500 0.034 0.06 8000 0.0555 0.01
             0.12 1) /\
      FuelComplex.classAreas c2
      = FuelComplex.classAreas
          (computed_single RothermelFuel 3500 0.034 0.06 8000 0.0555 0.01
             0.12 1) /\
      FuelComplex.categoryAreas c2
      = FuelComplex.categoryAreas
          (computed_single RothermelFuel 3500 0.034 0.06 8000 0.0555 0.01
             0.12 1) /\
      FuelComplex.totalArea c2
      = FuelComplex.totalArea
          (computed_single RothermelFuel 3500 0.034 0.06 8000 0.0555 0.01
             0.12 1) /\
      FuelComplex.heatContent c2
      = FuelComplex.heatContent
          (computed_single RothermelFuel 3500 0.034 0.06 8000 0.0555 0.01
             0.12 1) /\
      FuelComplex.netFuelLoading c2
      = FuelComplex.netFuelLoading
          (computed_single RothermelFuel 3500 0.034 0.06 8000 0.0555 0.01
             0.12 1) /\
      FuelComplex.effMineralContent c2
      = FuelComplex.effMineralContent
          (computed_single RothermelFuel 3500 0.034 0.06 8000 0.0555 0.01
             0.12 1) /\
      FuelComplex.base c2
      = FuelComplex.base
          (computed_single RothermelFuel 3500 0.034 0.06 8000 0.0555 0.01
             0.12 1).
Proof.
  eexists. split; [reflexivity|].
  apply (moisture_change_keeps_weights
           (single_complex RothermelFuel
              (ready_fuel RothermelFuel 3500 0.034 0.06 8000 0.0555 0.01)
              0.12 1)
           (computed_single RothermelFuel 3500 0.034 0.06 8000 0.0555 0.01
              0.12 1)
           _ DEAD ONEHR 0.1).
  - apply wf_single.
  - apply compute_single; try lra; try discriminate.
    apply rothermel_defined_above. lra.
  - reflexivity.
Defined.

(** ** A change of moisture without [compute()] *)

Ltac step_bind :=
  repeat match goal with
    | |- bind ?m _ = bind (bind ?m _) _ =>
        destruct m; cbn [bind]; [|reflexivity]
    end.

Section Refuel.

Variables (md : Weighted.t) (c' : FuelComplex.t).

Hypothesis Hsame : same_aggregates (Model.fuel md) c'.

Lemma refuel_calcPropFluxRatio :
  Model.calcPropFluxRatio Weighted.scalars (Model.with_fuel c' md)
  = (m <- Model.calcPropFluxRatio Weighted.scalars md ;;
     Ok (Model.with_fuel c' m)).
Proof.
  destruct Hsame as (Hb & _).
  unfold Model.calcPropFluxRatio, Weighted.scalars. cbv zeta. md_simpl.
  rewrite Hb. step_bind. reflexivity.
Qed.

Lemma refuel_calcPotReactionVelocity :
  Model.calcPotReactionVelocity Weighted.scalars (Model.with_fuel c' md)
  = (m <- Model.calcPotReactionVelocity Weighted.scalars md ;;
     Ok (Model.with_fuel c' m)).
Proof.
  destruct Hsame as (Hb & _).
  unfold Model.calcPotReactionVelocity, Weighted.scalars. cbv zeta. md_simpl.
  rewrite Hb. step_bind. reflexivity.
Qed.

Lemma refuel_calcMineralDamping :
  Weighted.calcMineralDamping (Model.with_fuel c' md)
  = (m <- Weighted.calcMineralDamping md ;; Ok (Model.with_fuel c' m)).
Proof.
  destruct Hsame as (_ & _ & _ & _ & _ & He & _).
  unfold Weighted.calcMineralDamping. md_simpl.
  rewrite He. step_bind. reflexivity.
Qed.

Lemma refuel_calcMoistureDamping :
  Weighted.calcMoistureDamping (Model.with_fuel c' md)
  = (m <- Weighted.calcMoistureDamping md ;; Ok (Model.with_fuel c' m)).
Proof.
  destruct Hsame as (_ & Hx & _ & _ & _ & _ & Hm).
  unfold Weighted.calcMoistureDamping. md_simpl.
  rewrite Hx, Hm. step_bind. reflexivity.
Qed.

Lemma refuel_calcReactionIntensity (cls : WeightedClass) :
  Weighted.calcReactionIntensity cls (Model.with_fuel c' md)
  = (m <- Weighted.calcReactionIntensity cls md ;;
     Ok (Model.with_fuel c' m)).
Proof.
  destruct Hsame as (_ & _ & Hw & Hh & Hn & _ & _).
  unfold Weighted.calcReactionIntensity. md_simpl.
  destruct (Model.dampMoisture md) as [dmo|]; cbn [bind attr];
    [|reflexivity].
  assert (E : for_each
                match cls with
                | WeightedRothermelModel =>
                    Weighted.intensityTerm_Rothermel (Model.with_fuel c' md)
                | WeightedAlbiniModel =>
                    Weighted.intensityTerm_Albini (Model.with_fuel c' md)
                end (dict_keys dmo) 0
              = for_each
                  match cls with
                  | WeightedRothermelModel =>
                      Weighted.intensityTerm_Rothermel md
                  | WeightedAlbiniModel => Weighted.intensityTerm_Albini md
                  end (dict_keys dmo) 0).
  { apply for_each_ext. intros k x _. destruct cls.
    - unfold Weighted.intensityTerm_Rothermel. cbv zeta. md_simpl.
      now rewrite Hw, Hh, Hn.
    - unfold Weighted.intensityTerm_Albini. cbv zeta. md_simpl.
      now rewrite Hh, Hn. }
  rewrite E. step_bind. reflexivity.
Qed.

End Refuel.

Lemma same_aggregates_with (md : Weighted.t) (c' : FuelComplex.t)
    (v : Weighted.t) :
  Model.fuel v = Model.fuel md ->
  same_aggregates (Model.fuel md) c' -> same_aggregates (Model.fuel v) c'.
Proof. now intros ->. Qed.

Lemma refuel_evaluate_to_intensity (cls : WeightedClass) (md : Weighted.t)
    (c' : FuelComplex.t) :
  same_aggregates (Model.fuel md) c' ->
  evaluate_to_intensity cls (Model.with_fuel c' md)
  = (m <- evaluate_to_intensity cls md ;; Ok (Model.with_fuel c' m)).
Proof.
  intros Hs. unfold evaluate_to_intensity.
  rewrite (refuel_calcPropFluxRatio md c' Hs).
  destruct (Model.calcPropFluxRatio Weighted.scalars md) as [m1|e] eqn:E1;
    cbn [bind]; [|reflexivity].
  assert (H1 : same_aggregates (Model.fuel m1) c').
  { unfold Model.calcPropFluxRatio in E1. cbv zeta in E1.
    inv_bind E1. injection E1 as <-. exact Hs. }
  rewrite (refuel_calcMineralDamping m1 c' H1).
  destruct (Weighted.calcMineralDamping m1) as [m2|e] eqn:E2;
    cbn [bind]; [|reflexivity].
  assert (H2 : same_aggregates (Model.fuel m2) c').
  { unfold Weighted.calcMineralDamping in E2.
    inv_bind E2. injection E2 as <-. exact H1. }
  rewrite (refuel_calcMoistureDamping m2 c' H2).
  destruct (Weighted.calcMoistureDamping m2) as [m3|e] eqn:E3;
    cbn [bind]; [|reflexivity].
  assert (H3 : same_aggregates (Model.fuel m3) c').
  { unfold Weighted.calcMoistureDamping in E3.
    inv_bind E3. injection E3 as <-. exact H2. }
  rewrite (refuel_calcPotReactionVelocity m3 c' H3).
  destruct (Model.calcPotReactionVelocity Weighted.scalars m3) as [m4|e]
    eqn:E4; cbn [bind]; [|reflexivity].
  assert (H4 : same_aggregates (Model.fuel m4) c').
  { unfold Model.calcPotReactionVelocity in E4. cbv zeta in E4.
    inv_bind E4. injection E4 as <-. exact H3. }
  apply (refuel_calcReactionIntensity m4 c' H4).
Qed.

(** X15.  A particle's moisture changed on the complex of a weighted model
    without calling [compute()] again: the calls of [evaluate()] up to the
    reaction intensity behave as before the change, with the same moisture
    damping coefficients and the same reaction intensity, since they read
    the aggregated moisture of the category and not the particle. *)
Theorem moisture_change_needs_compute (cls : WeightedClass)
    (md md1 : Weighted.t) (cat sz : string) (m : R) (c' : FuelComplex.t) :
  FuelComplex.setFuelMoisture cat sz m (Model.fuel md) = Ok c' ->
  evaluate_to_intensity cls md = Ok md1 ->
  exists md1',
    evaluate_to_intensity cls (Model.with_fuel c' md) = Ok md1' /\
    Model.dampMoisture md1' = Model.dampMoisture md1 /\
    Model.reactionIntensity md1' = Model.reactionIntensity md1.
Proof.
  intros Hset He.
  assert (Hs : same_aggregates (Model.fuel md) c').
  { unfold FuelComplex.setFuelMoisture in Hset.
    inv_bind Hset. injection Hset as <-.
    unfold same_aggregates. fc_simpl. repeat split. }
  rewrite (refuel_evaluate_to_intensity cls md c' Hs), He. cbn [bind].
  eexists. split; [reflexivity|]. split; reflexivity.
Qed.

Lemma evaluate_prefix (cls : WeightedClass) (md md' : Weighted.t) (r : R) :
  Weighted.evaluate cls md = Ok (r, md') ->
  exists m1, evaluate_to_intensity cls md = Ok m1.
Proof.
  unfold Weighted.evaluate, evaluate_to_intensity. intros H.
  destruct (Model.calcPropFluxRatio Weighted.scalars md) as [m1|e];
    cbn [bind] in *; [|discriminate].
  destruct (Weighted.calcMineralDamping m1) as [m2|e];
    cbn [bind] in *; [|discriminate].
  destruct (Weighted.calcMoistureDamping m2) as [m3|e];
    cbn [bind] in *; [|discriminate].
  destruct (Model.calcPotReactionVelocity Weighted.scalars m3) as [m4|e];
    cbn [bind] in *; [|discriminate].
  destruct (Weighted.calcReactionIntensity cls m4) as [m5|e];
    cbn [bind] in *; [|discriminate].
  now exists m5.
Qed.

Lemma moisture_change_needs_compute_witness :
  exists c' md1,
    FuelComplex.setFuelMoisture DEAD ONEHR 0.3
      (Model.fuel
         (Weighted.init
            (computed_single AlbiniFuel 3500 0.034 0.06 8000 0.0555 0.01
               0.12 1))) = Ok c' /\
    evaluate_to_intensity WeightedAlbiniModel
      (Weighted.init
         (computed_single AlbiniFuel 3500 0.034 0.06 8000 0.0555 0.01
            0.12 1)) = Ok md1 /\
    exists md1',
      evaluate_to_intensity WeightedAlbiniModel
        (Model.with_fuel c'
           (Weighted.init
              (computed_single AlbiniFuel 3500 0.034 0.06 8000 0.0555 0.01
                 0.12 1))) = Ok md1' /\
      Model.dampMoisture md1' = Model.dampMoisture md1 /\
      Model.reactionIntensity md1' = Model.reactionIntensity md1.
Proof.
  assert (Hev : evaluable AlbiniFuel 3500 0.034 0.06 0.0555 0.01 0.12 1).
  { unfold evaluable. repeat split; try lra. discriminate. }
  destruct (weighted_evaluate_single WeightedAlbiniModel AlbiniFuel 3500
              0.034 0.06 8000 0.0555 0.01 0.12 1
              (Weighted.init
                 (computed_single AlbiniFuel 3500 0.034 0.06 8000 0.0555
                    0.01 0.12 1)) Hev eq_refl) as (md' & He & _).
  destruct (evaluate_prefix _ _ _ _ He) as [md1 Hmd1].
  eexists _, md1. split; [reflexivity|]. split; [exact Hmd1|].
  apply (moisture_change_needs_compute WeightedAlbiniModel
           (Weighted.init
              (computed_single AlbiniFuel 3500 0.034 0.06 8000 0.0555 0.01
                 0.12 1))
           md1 DEAD ONEHR 0.3);
    [reflexivity|exact Hmd1].
Defined.

(** ** A category without extinction moisture *)

Lemma moistureDamping_loop_missing (ext : dict R) (fms : dict R) :
  Forall (fun kv => snd kv <> 0) ext ->
  (exists k, In k (dict_keys fms) /\ dict_find k ext = None) ->
  forall acc,
    for_each
      (fun (i : string * R) (acc : dict R) =>
         let category := fst i in
         let fuelMoisture := snd i in
         extMoisture <- dict_get category ext ;;
         ratio <- py_div fuelMoisture extMoisture ;;
         Ok (dict_set category (moistureDampingOf ratio) acc))
      fms acc
    = Err KeyError.
Proof.
  intros Hnz. induction fms as [|[k0 m0] fms IH]; intros (k & Hin & Hk) acc.
  - destruct Hin.
  - cbn [for_each]. cbv zeta. cbn [fst snd]. unfold dict_get.
    destruct (dict_find k0 ext) as [e|] eqn:He; cbn [bind]; [|reflexivity].
    assert (Hne : e <> 0).
    { apply dict_find_In in He. rewrite Forall_forall in Hnz.
      apply (Hnz (k0, e) He). }
    rewrite py_div_ok by assumption. cbn [bind].
    apply IH. exists k. split; [|assumption].
    destruct Hin as [Heq|Hin]; [|assumption].
    cbn [fst] in Heq. subst k0. congruence.
Qed.

(** X16.  [calcMoistureDamping()] of a weighted model whose complex has an
    aggregated moisture for a category that has no extinction moisture (a
    live category before [calcLivingExtMoisture()], for one) raises
    [KeyError], the extinction moistures present being non-zero. *)
Theorem moisture_damping_missing_extinction (md : Weighted.t)
    (fms : dict R) (k : string) :
  FuelComplex.fuelMoisture (Model.fuel md) = Some fms ->
  In k (dict_keys fms) ->
  dict_find k (FuelComplex.extMoisture (Model.fuel md)) = None ->
  Forall (fun kv => snd kv <> 0) (FuelComplex.extMoisture (Model.fuel md)) ->
  Weighted.calcMoistureDamping md = Err KeyError.
Proof.
  intros Hf Hin Hk Hnz. unfold Weighted.calcMoistureDamping.
  rewrite Hf. cbn [bind attr].
  rewrite moistureDamping_loop_missing; [reflexivity|assumption|].
  now exists k.
Qed.

Lemma moisture_damping_missing_extinction_witness :
  Weighted.calcMoistureDamping
    (Weighted.init
       (FuelComplex.with_aggregates [(DEAD, 8000); (LIVE, 8000)]
          [(DEAD, 0.1); (LIVE, 0.02)] [(DEAD, 0.01); (LIVE, 0.01)]
          [(DEAD, 0.06); (LIVE, 0.9)] (nffl2_complex RothermelFuel)))
  = Err KeyError.
Proof.
  apply (moisture_damping_missing_extinction _ [(DEAD, 0.06); (LIVE, 0.9)]
           LIVE).
  - reflexivity.
  - right. now left.
  - reflexivity.
  - repeat constructor. cbn [snd]. lra.
Defined.

(** ** No wind and no slope *)

Section CalmFlat.

Context {F D : Type} (scalars : F -> Fuel.t).

(** X17.  With a slope of zero degrees and no midflame wind, on a fuel with
    positive sigma, packing ratio and optimal packing ratio, both
    multipliers are zero and [calcRos()] stores the no-wind rate of
    spread. *)
Theorem calm_flat_ros (md : Model.t F D) (sg pr op r0 : R) :
  Fuel.sigma (scalars (Model.fuel md)) = Some sg ->
  Fuel.packingRatio (scalars (Model.fuel md)) = Some pr ->
  Fuel.optimalPacking (scalars (Model.fuel md)) = Some op ->
  0 < sg -> 0 < pr -> 0 < op ->
  Model.noWindRos md = Some r0 ->
  exists md',
    (m1 <- Model.setSlope scalars (radians 0) md ;;
     m2 <- Model.setWind scalars (0 * (5280 / 60)) m1 ;;
     Model.calcRos m2) = Ok md' /\
    Model.slopeMultiplier md' = 0 /\
    Model.windMultiplier md' = 0 /\
    Model.ros md' = Some r0.
Proof.
  intros Hs Hp Ho Hsg Hpr Hop Hr.
  rewrite (setSlope_ok scalars md pr) by assumption. cbn [bind].
  rewrite (setWind_run scalars _ sg pr op) by assumption.
  replace (0 * (5280 / 60)) with 0 by lra.
  rewrite py_pow_zero by (pose proof (Rpower_pos sg 0.54); lra).
  cbn [bind].
  erewrite calcRos_ok by exact Hr.
  eexists. split; [reflexivity|].
  md_simpl. unfold slopeMultiplier_of, radians.
  replace (0 * PI / 180) with 0 by (unfold Rdiv; ring).
  rewrite tan_0.
  split; [ring|]. split; [ring|]. f_equal. ring.
Qed.

End CalmFlat.

Lemma calm_flat_ros_witness :
  exists md',
    (m1 <- Model.setSlope Weighted.scalars (radians 0)
             (Model.mk
                (computed_single RothermelFuel 3500 0.034 0.06 8000 0.0555
                   0.01 0.12 1)
                0 0 0 0 None None None None None None (Some 2) None
              : Weighted.t) ;;
     m2 <- Model.setWind Weighted.scalars (0 * (5280 / 60)) m1 ;;
     Model.calcRos m2) = Ok md' /\
    Model.slopeMultiplier md' = 0 /\
    Model.windMultiplier md' = 0 /\
    Model.ros md' = Some 2.
Proof.
  apply (calm_flat_ros Weighted.scalars
           (Model.mk
              (computed_single RothermelFuel 3500 0.034 0.06 8000 0.0555
                 0.01 0.12 1)
              0 0 0 0 None None None None None None (Some 2) None
            : Weighted.t)
           3500 (0.034 / 32 / 1) (3.348 * Rpower 3500 (-0.8189)) 2);
    try reflexivity; try lra.
  apply optimalPacking_pos.
Defined.

(** ** The loops of Albini's sums *)

Lemma albini_loop (k : R) (l : list Fuel.t) (a : R) :
  Forall live_measured l ->
  for_each
    (fun (f : Fuel.t) (acc : R) =>
       s <- num (Fuel.sigma f) ;;
       q <- py_div k s ;;
       w <- num (Fuel.ovendryLoading f) ;;
       Ok (acc + w * exp q))
    l a
  = Ok (a + Rsum (map (albini_term k) l)).
Proof.
  intros Hl. apply for_each_sum. intros f s Hin.
  rewrite Forall_forall in Hl.
  destruct (Hl f Hin) as ((sg & Hs & Hne) & Hw).
  unfold albini_term, loading_value, sigma_value. rewrite Hs.
  destruct (Fuel.ovendryLoading f) as [w|]; [|contradiction].
  cbn [bind num]. rewrite py_div_ok by assumption. reflexivity.
Qed.

Lemma albini_moisture_loop (l : list Fuel.t) (a b : R) :
  Forall dead_measured l ->
  for_each
    (fun (deadFuel : Fuel.t) (st : R * R) =>
       s <- num (Fuel.sigma deadFuel) ;;
       q <- py_div (-138) s ;;
       w <- num (Fuel.ovendryLoading deadFuel) ;;
       let term := w * exp q in
       m <- num (Fuel.fuelMoisture deadFuel) ;;
       Ok (fst st + term * m, snd st + term))
    l (a, b)
  = Ok (a + Rsum (map (fun f => albini_term (-138) f * moisture_value f) l),
        b + Rsum (map (albini_term (-138)) l)).
Proof.
  revert a b. induction l as [|f l IH]; intros a b Hl.
  - cbn. do 2 f_equal; lra.
  - inversion Hl as [|? ? (((sg & Hs & Hne) & Hw) & Hm) Hl']; subst.
    destruct (Fuel.ovendryLoading f) as [w|] eqn:Ew; [|contradiction].
    destruct (Fuel.fuelMoisture f) as [m|] eqn:Em; [|contradiction].
    assert (Et : albini_term (-138) f = w * exp (-138 / sg)).
    { unfold albini_term, loading_value, sigma_value. now rewrite Hs, Ew. }
    assert (Emv : moisture_value f = m).
    { unfold moisture_value. now rewrite Em. }
    cbn [for_each map Rsum fold_right]. cbv zeta.
    rewrite Hs, Ew, Em. cbn [bind num fst snd].
    rewrite py_div_ok by assumption. cbn [bind].
    rewrite IH by assumption. rewrite Et, Emv. unfold Rsum.
    apply f_equal. apply f_equal2; ring.
Qed.

(** ** The weights are fractions *)

Lemma Rsum_nonneg (l : list R) : Forall (fun x => 0 <= x) l -> 0 <= Rsum l.
Proof.
  induction 1 as [|x l Hx Hl IH]; cbn [Rsum fold_right]; [lra|].
  unfold Rsum in IH. lra.
Qed.

Lemma Rsum_In_le (l : list R) (x : R) :
  Forall (fun x => 0 <= x) l -> In x l -> x <= Rsum l.
Proof.
  induction 1 as [|y l Hy Hl IH]; intros Hin; [destruct Hin|].
  cbn [Rsum fold_right]. pose proof (Rsum_nonneg l Hl) as Hs.
  unfold Rsum in *. destruct Hin as [->|Hin]; [lra|].
  specialize (IH Hin). lra.
Qed.

Lemma unit_div (a s : R) : 0 <= a <= s -> s <> 0 -> unit_interval (a / s).
Proof.
  intros [Ha Has] Hs. assert (Hpos : 0 < s) by lra.
  unfold unit_interval. split.
  - apply Rmult_le_pos; [assumption|]. left. now apply Rinv_0_lt_compat.
  - apply Rmult_le_reg_r with (r := s); [assumption|].
    replace (a / s * s) with a by (field; assumption). lra.
Qed.

Lemma dict_mapM_Forall {A B : Type} (f : A -> result B) (P : B -> Prop)
    (d : dict A) :
  forall d', dict_mapM f d = Ok d' ->
  Forall (fun kv => forall b, f (snd kv) = Ok b -> P b) d ->
  Forall (fun kv => P (snd kv)) d'.
Proof.
  unfold dict_mapM. induction d as [|[k a] d IH]; intros d' H Hd.
  - cbn in H. injection H as <-. constructor.
  - cbn [mapM fst snd] in H.
    destruct (f a) as [b|e] eqn:Hb; cbn [bind] in H; [|discriminate].
    destruct (mapM _ d) as [bs|e] eqn:Hbs; cbn [bind] in H; [|discriminate].
    injection H as <-. inversion Hd as [|? ? Ha Hd']; subst.
    constructor.
    + cbn [snd] in *. now apply Ha.
    + now apply IH.
Qed.

Lemma area_nonneg (f : Fuel.t) (a : R) :
  nonneg_particle f ->
  FuelComplex.calcMeanSurfaceAreaOneClass f = Ok a -> 0 <= a.
Proof.
  intros (s & w & Hs & Hs0 & Hw & Hw0 & Hd).
  unfold FuelComplex.calcMeanSurfaceAreaOneClass.
  rewrite Hs, Hw. cbn [bind num]. rewrite py_div_ok by lra.
  intros [= <-]. apply Rmult_le_pos.
  - now apply Rmult_le_pos.
  - left. now apply Rinv_0_lt_compat.
Qed.

(** X19.  After [calcWeightingParameters()] on a well-formed particle map
    whose particles have a sigma and a loading that are not negative and a
    positive particle density, every category weight and every class weight
    lies between 0 and 1. *)
Theorem weights_are_fractions (c c2 : FuelComplex.t) :
  wf_params (FuelComplex.fuelParameters c) ->
  Forall (fun kv => Forall (fun kf => nonneg_particle (snd kf)) (snd kv))
    (FuelComplex.fuelParameters c) ->
  FuelComplex.calcWeightingParameters c = Ok c2 ->
  Forall (fun kv => unit_interval (snd kv)) (FuelComplex.categoryWeighting c2)
  /\
  Forall (fun kv => Forall (fun kw => unit_interval (snd kw)) (snd kv))
    (FuelComplex.classWeighting c2).
Proof.
  intros Hwf Hnn H.
  rewrite calcWeightingParameters_eq in H by assumption.
  destruct (calcWeightingParameters_spec_inv c c2 H)
    as (ca & ws & Ha & Hw & -> & _ & _).
  fc_simpl.
  (* the areas are not negative *)
  assert (Hca : Forall (fun kv => Forall (fun ka => 0 <= snd ka) (snd kv)) ca).
  { unfold areas_spec in Ha.
    apply (dict_mapM_Forall _ (fun areas => Forall (fun ka => 0 <= snd ka)
                                              areas) _ _ Ha).
    eapply Forall_impl; [|exact Hnn].
    intros [k classes] Hcl areas Hareas. cbn [snd] in *.
    apply (dict_mapM_Forall _ (fun a => 0 <= a) _ _ Hareas).
    eapply Forall_impl; [|exact Hcl].
    intros [k' f] Hf a Hfa. cbn [snd] in *. now apply (area_nonneg f). }
  assert (Hsum : forall areas : dict R,
             Forall (fun ka => 0 <= snd ka) areas ->
             Forall (fun x => 0 <= x) (dict_values areas)).
  { intros areas Hall. unfold dict_values. now rewrite Forall_map. }
  assert (Hcats : Forall (fun x => 0 <= x)
                    (dict_values (categoryAreas_spec ca))).
  { unfold categoryAreas_spec. rewrite dict_values_map, Forall_map.
    change (dict_values ca) with (map snd ca). rewrite Forall_map.
    eapply Forall_impl; [|exact Hca].
    intros [k areas] Hall. cbn [snd] in *. rewrite sumL_Rsum.
    apply Rsum_nonneg. now apply Hsum. }
  (* each weight is a part of a sum of such parts *)
  assert (Hws : Forall (fun kv => unit_interval (fst (snd kv)) /\
                          Forall (fun kw => unit_interval (snd kw))
                            (snd (snd kv))) ws).
  { unfold weights_spec in Hw.
    apply (dict_mapM_Forall _
             (fun r => unit_interval (fst r) /\
                       Forall (fun kw => unit_interval (snd kw)) (snd r))
             _ _ Hw).
    rewrite Forall_forall. intros [k areas] Hin [w cw] Hr. cbn [fst snd] in *.
    assert (Hall : Forall (fun ka => 0 <= snd ka) areas).
    { rewrite Forall_forall in Hca. apply (Hca (k, areas) Hin). }
    destruct (py_div (sumL (dict_values areas)) (totalArea_spec ca))
      as [w'|e] eqn:Hd; cbn [bind] in Hr; [|discriminate].
    destruct (dict_mapM _ areas) as [cw'|e] eqn:Hcw; cbn [bind] in Hr;
      [|discriminate].
    injection Hr as <- <-.
    destruct (py_div_inv _ _ _ Hd) as [Htot ->].
    split.
    - apply unit_div; [|assumption]. split.
      + rewrite sumL_Rsum. apply Rsum_nonneg. now apply Hsum.
      + unfold totalArea_spec.
        rewrite (sumL_Rsum (dict_values (categoryAreas_spec ca))).
        apply Rsum_In_le; [assumption|].
        unfold categoryAreas_spec. rewrite dict_values_map.
        apply in_map_iff. exists areas. split; [reflexivity|].
        unfold dict_values. apply in_map_iff. now exists (k, areas).
    - apply (dict_mapM_Forall _ unit_interval _ _ Hcw).
      rewrite Forall_forall. intros [k' a] Hin' b Hb. cbn [snd] in *.
      destruct (py_div_inv _ _ _ Hb) as [Hs ->].
      apply unit_div; [|assumption]. split.
      + rewrite Forall_forall in Hall. apply (Hall (k', a) Hin').
      + rewrite sumL_Rsum. apply Rsum_In_le; [now apply Hsum|].
        unfold dict_values. apply in_map_iff. now exists (k', a). }
  split.
  - unfold dict_map. rewrite Forall_map.
    eapply Forall_impl; [|exact Hws]. now intros kv [H1 _].
  - unfold dict_map. rewrite Forall_map.
    eapply Forall_impl; [|exact Hws]. now intros kv [_ H2].
Qed.

Lemma compute_weighting_ok (c c3 : FuelComplex.t) :
  FuelComplex.compute c = Ok c3 ->
  exists c2, FuelComplex.calcWeightingParameters c = Ok c2.
Proof.
  unfold FuelComplex.compute. intros H.
  destruct (FuelComplex.calcWeightingParameters c) as [c2|e];
    [now exists c2|discriminate H].
Qed.

Lemma weights_are_fractions_witness :
  exists c2,
    FuelComplex.calcWeightingParameters
      (single_complex RothermelFuel
         (ready_fuel RothermelFuel 3500 0.034 0.06 8000 0.0555 0.01) 0.12 1)
    = Ok c2 /\
    Forall (fun kv => unit_interval (snd kv))
      (FuelComplex.categoryWeighting c2) /\
    Forall (fun kv => Forall (fun kw => unit_interval (snd kw)) (snd kv))
      (FuelComplex.classWeighting c2).
Proof.
  assert (Hc : FuelComplex.compute
                 (single_complex RothermelFuel
                    (ready_fuel RothermelFuel 3500 0.034 0.06 8000 0.0555
                       0.01) 0.12 1)
               = Ok (computed_single RothermelFuel 3500 0.034 0.06 8000
                       0.0555 0.01 0.12 1)).
  { apply compute_single; try lra; try discriminate.
    apply rothermel_defined_above. lra. }
  destruct (compute_weighting_ok _ _ Hc) as [c2 E].
  exists c2. split; [exact E|].
  apply (weights_are_fractions
           (single_complex RothermelFuel
              (ready_fuel RothermelFuel 3500 0.034 0.06 8000 0.0555 0.01)
              0.12 1)).
  - apply wf_single.
  - constructor; [|constructor]. cbn [snd].
    constructor; [|constructor]. cbn [snd].
    exists 3500, 0.034.
    split; [reflexivity|]. split; [lra|].
    split; [reflexivity|]. split; [lra|].
    unfold ready_fuel, Fuel.setFuelMoisture. fuel_simpl. lra.
  - exact E.
Defined.

(** ** The two reaction intensities compared *)

Lemma Rsum_le_pointwise {X : Type} (f g : X -> R) (l : list X) :
  (forall x, In x l -> f x <= g x) ->
  Rsum (map f l) <= Rsum (map g l).
Proof.
  induction l as [|x l IH]; intros H; cbn [map Rsum fold_right]; [lra|].
  assert (H1 := H x (or_introl eq_refl)).
  assert (H2 : Rsum (map f l) <= Rsum (map g l)).
  { apply IH. intros y Hy. apply H. now right. }
  unfold Rsum in H2. lra.
Qed.

(** X20.  On the same model state, with category weights between 0 and 1,
    category terms (net fuel loading times heat content times the two
    damping coefficients) that are not negative and a potential reaction
    velocity that is not negative, both weighted models store a reaction
    intensity and Rothermel's never exceeds Albini's. *)
Theorem rothermel_intensity_le_albini (md : Weighted.t)
    (n h dmo dmi : dict R) (v : R) :
  FuelComplex.netFuelLoading (Model.fuel md) = Some n ->
  FuelComplex.heatContent (Model.fuel md) = Some h ->
  Model.dampMoisture md = Some dmo ->
  Model.dampMineral md = Some dmi ->
  Model.potReactionVelocity md = Some v ->
  0 <= v ->
  (forall k, In k (dict_keys dmo) ->
     In k (dict_keys n) /\ In k (dict_keys h) /\ In k (dict_keys dmi) /\
     In k (dict_keys (FuelComplex.categoryWeighting (Model.fuel md))) /\
     unit_interval (dget (FuelComplex.categoryWeighting (Model.fuel md)) k) /\
     0 <= dget n k * dget h k * dget dmo k * dget dmi k) ->
  exists mr ma ir ia,
    Weighted.calcReactionIntensity WeightedRothermelModel md = Ok mr /\
    Weighted.calcReactionIntensity WeightedAlbiniModel md = Ok ma /\
    Model.reactionIntensity mr = Some ir /\
    Model.reactionIntensity ma = Some ia /\
    ir <= ia.
Proof.
  intros Hn Hh Hdmo Hdmi Hv Hv0 Hk.
  rewrite (calcReactionIntensity_sum WeightedRothermelModel md n h dmo dmi v);
    try assumption.
  2:{ intros k Hin. destruct (Hk k Hin) as (K1 & K2 & K3 & K4 & _). tauto. }
  rewrite (calcReactionIntensity_sum WeightedAlbiniModel md n h dmo dmi v);
    try assumption.
  2:{ intros k Hin. destruct (Hk k Hin) as (K1 & K2 & K3 & K4 & _).
      repeat split; try assumption. discriminate. }
  eexists _, _, _, _.
  split; [reflexivity|]. split; [reflexivity|].
  split; [reflexivity|]. split; [reflexivity|].
  apply Rmult_le_compat_r; [assumption|].
  apply Rsum_le_pointwise. intros k Hin.
  destruct (Hk k Hin) as (_ & _ & _ & _ & [Hc0 Hc1] & Ht).
  unfold intensity_term.
  set (cw := dget (FuelComplex.categoryWeighting (Model.fuel md)) k) in *.
  set (t := dget n k * dget h k * dget dmo k * dget dmi k) in *.
  replace (cw * dget n k * dget h k * dget dmo k * dget dmi k)
    with (cw * t) by (unfold t; ring).
  assert (0 <= (1 - cw) * t) by (apply Rmult_le_pos; lra).
  lra.
Qed.

Lemma rothermel_intensity_le_albini_witness :
  exists mr ma ir ia,
    Weighted.calcReactionIntensity WeightedRothermelModel
      (Model.mk (computed_single AlbiniFuel 3500 0.034 0.06 8000 0.0555 0.01
                   0.12 1)
         0 0 0 0 None (Some [(DEAD, 0.5)]) (Some [(DEAD, 0.4)]) (Some 10)
         None None None None) = Ok mr /\
    Weighted.calcReactionIntensity WeightedAlbiniModel
      (Model.mk (computed_single AlbiniFuel 3500 0.034 0.06 8000 0.0555 0.01
                   0.12 1)
         0 0 0 0 None (Some [(DEAD, 0.5)]) (Some [(DEAD, 0.4)]) (Some 10)
         None None None None) = Ok ma /\
    Model.reactionIntensity mr = Some ir /\
    Model.reactionIntensity ma = Some ia /\
    ir <= ia.
Proof.
  apply (rothermel_intensity_le_albini
           (Model.mk (computed_single AlbiniFuel 3500 0.034 0.06 8000 0.0555
                        0.01 0.12 1)
              0 0 0 0 None (Some [(DEAD, 0.5)]) (Some [(DEAD, 0.4)])
              (Some 10) None None None None)
           [(DEAD, netLoading_of AlbiniFuel 0.034 0.0555)] [(DEAD, 8000)]
           [(DEAD, 0.5)] [(DEAD, 0.4)] 10);
    try reflexivity; try lra.
  intros k [<-|[]].
  cbn [Model.fuel computed_single FuelComplex.categoryWeighting].
  rewrite !dget_head.
  repeat split; try (now left); unfold netLoading_of; lra.
Defined.

(** ** Albini's sums on particles with loadings that are not negative *)

Lemma live_particle_measured (f : Fuel.t) :
  live_particle f -> live_measured f.
Proof.
  intros (s & w & Hs & Hs1 & Hw & _). split.
  - exists s. split; [assumption|lra].
  - rewrite Hw. discriminate.
Qed.

Lemma dead_particle_measured (f : Fuel.t) :
  dead_particle f -> dead_measured f.
Proof.
  intros [Hl [m Hm]]. split; [now apply live_particle_measured|].
  rewrite Hm. discriminate.
Qed.

Lemma albini_term_nonneg (k : R) (f : Fuel.t) :
  live_particle f -> 0 <= albini_term k f.
Proof.
  intros (s & w & Hs & _ & Hw & Hw0). unfold albini_term, loading_value.
  rewrite Hw. apply Rmult_le_pos; [assumption|]. left. apply exp_pos.
Qed.

Lemma albini_term_pos (k : R) (f : Fuel.t) :
  0 < loading_value f -> 0 < albini_term k f.
Proof.
  intros Hw. unfold albini_term. apply Rmult_lt_0_compat; [assumption|].
  apply exp_pos.
Qed.

Lemma albini_sum_pos (k : R) (classes : dict Fuel.t) :
  Forall live_particle (dict_values classes) ->
  0 < total_loading classes ->
  0 < albini_sum k classes.
Proof.
  unfold total_loading, albini_sum.
  induction (dict_values classes) as [|f l IH]; cbn [map Rsum fold_right].
  - intros _ H. lra.
  - intros Hall Hpos. inversion Hall as [|? ? Hf Hl]; subst.
    pose proof (albini_term_nonneg k f Hf) as Ht.
    assert (Hrest : 0 <= Rsum (map (albini_term k) l)).
    { apply Rsum_nonneg. rewrite Forall_map.
      eapply Forall_impl; [|exact Hl]. intros g. apply albini_term_nonneg. }
    unfold Rsum in *.
    destruct (Rlt_dec 0 (loading_value f)) as [Hw|Hw].
    + pose proof (albini_term_pos k f Hw). lra.
    + assert (Hw0 : loading_value f = 0).
      { destruct Hf as (s & w & _ & _ & Hw' & Hw0). unfold loading_value in *.
        rewrite Hw' in *. lra. }
      rewrite Hw0 in Hpos. specialize (IH Hl). lra.
Qed.

Lemma albini_sum_In_pos (k : R) (classes : dict Fuel.t) (cls : string)
    (f : Fuel.t) (w : R) :
  Forall live_particle (dict_values classes) ->
  dict_find cls classes = Some f ->
  Fuel.ovendryLoading f = Some w -> 0 < w ->
  0 < albini_sum k classes.
Proof.
  intros Hall Hf Hw Hpos. apply albini_sum_pos; [assumption|].
  unfold total_loading.
  assert (Hnn : Forall (fun x => 0 <= x)
                  (map loading_value (dict_values classes))).
  { rewrite Forall_map. eapply Forall_impl; [|exact Hall].
    intros g (s & w' & _ & _ & Hw' & Hw0). unfold loading_value.
    now rewrite Hw'. }
  assert (Hin : In (loading_value f)
                  (map loading_value (dict_values classes))).
  { apply in_map. unfold dict_values. apply in_map_iff.
    exists (cls, f). split; [reflexivity|now apply dict_find_In]. }
  pose proof (Rsum_In_le _ _ Hnn Hin) as Hle.
  unfold loading_value in Hle at 1. rewrite Hw in Hle. lra.
Qed.


(** ** Degenerate loadings in the weights and in Albini's sums *)



Lemma live_fuel_of (c : FuelClass) (sg w : R) :
  1 <= sg -> 0 <= w -> live_particle (fuel_of c sg w).
Proof.
  intros Hs Hw. exists sg, w. repeat split; assumption.
Qed.

Lemma dead_fuel_of (c : FuelClass) (sg w m : R) :
  1 <= sg -> 0 <= w ->
  dead_particle (Fuel.setFuelMoisture m None (fuel_of c sg w)).
Proof.
  intros Hs Hw. split.
  - exists sg, w. repeat split; assumption.
  - now exists m.
Qed.




(** ** Albini's live moisture of extinction: the value *)

(** X18.  Albini's live moisture of extinction (appendix III) on a complex
    whose particles have a sigma of at least 1 and a loading that is not
    negative, with a loaded live 1-hr particle and some dead loading: with
    W' = sum_dead(w exp(-138/sigma)) / sum_live(w exp(-500/sigma)) and
    M' = sum_dead(w exp(-138/sigma) m) / sum_dead(w exp(-138/sigma)), the
    call stores W', M' and the live extinction moisture
    2.9 W' (1 - M' / ext_dead) - 0.226. *)
Theorem albini_live_ext_value (c : FuelComplex.t)
    (deads lives : dict Fuel.t) (fl : Fuel.t) (wl ed : R) :
  dict_find DEAD (FuelComplex.fuelParameters c) = Some deads ->
  dict_find LIVE (FuelComplex.fuelParameters c) = Some lives ->
  dict_find ONEHR lives = Some fl ->
  Fuel.ovendryLoading fl = Some wl ->
  0 < wl ->
  Forall dead_particle (dict_values deads) ->
  Forall live_particle (dict_values lives) ->
  0 < total_loading deads ->
  dict_find DEAD (FuelComplex.extMoisture c) = Some ed ->
  ed <> 0 ->
  FuelComplex.calcLivingExtMoisture_Albini c
  = Ok (FuelComplex.setExtMoisture LIVE
          (2.9 * wPrime_of deads lives * (1 - mPrime_of deads / ed) - 0.226)
          (FuelComplex.with_mPrime (Some (mPrime_of deads))
             (FuelComplex.with_wPrime (Some (wPrime_of deads lives)) c))).
Proof.
  intros Hd Hl Hfl Hwl Hwl0 Hdp Hlp Htot Hed Hed0.
  assert (Hdl : Forall live_particle (dict_values deads)).
  { eapply Forall_impl; [|exact Hdp]. now intros f [H _]. }
  assert (Hdm : Forall dead_measured (dict_values deads)).
  { eapply Forall_impl; [|exact Hdp]. apply dead_particle_measured. }
  assert (Hlm' : Forall live_measured (dict_values deads)).
  { eapply Forall_impl; [|exact Hdl]. apply live_particle_measured. }
  assert (Hlm : Forall live_measured (dict_values lives)).
  { eapply Forall_impl; [|exact Hlp]. apply live_particle_measured. }
  pose proof (albini_sum_pos (-138) deads Hdl Htot) as Hn.
  pose proof (albini_sum_In_pos (-500) lives ONEHR fl wl Hlp Hfl Hwl Hwl0)
    as Hden.
  unfold FuelComplex.calcLivingExtMoisture_Albini, dict_mem.
  rewrite Hl. cbn [negb].
  unfold FuelComplex.particle, dict_get. rewrite Hl. cbn [bind].
  rewrite Hfl. cbn [bind]. rewrite Hwl.
  destruct (Req_dec_T wl 0) as [Hz|_]; [lra|]. cbn [bind].
  unfold FuelComplex.calcWPrime, FuelComplex.wPrime_num,
    FuelComplex.wPrime_den, dict_get.
  rewrite Hd, Hl. cbn [bind].
  rewrite (albini_loop (-138)) by assumption. cbn [bind].
  rewrite (albini_loop (-500)) by assumption. cbn [bind].
  replace (0 + Rsum (map (albini_term (-138)) (dict_values deads)))
    with (albini_sum (-138) deads) by (unfold albini_sum; lra).
  replace (0 + Rsum (map (albini_term (-500)) (dict_values lives)))
    with (albini_sum (-500) lives) by (unfold albini_sum; lra).
  rewrite py_div_ok by lra. cbn [bind].
  unfold FuelComplex.calcMPrime, dict_get. fc_simpl.
  rewrite Hd. cbn [bind].
  rewrite albini_moisture_loop by assumption. cbn [bind].
  replace (0 + Rsum (map (fun f => albini_term (-138) f * moisture_value f)
                       (dict_values deads)))
    with (albini_moisture_sum deads) by (unfold albini_moisture_sum; lra).
  replace (0 + Rsum (map (albini_term (-138)) (dict_values deads)))
    with (albini_sum (-138) deads) by (unfold albini_sum; lra).
  rewrite py_div_ok by lra. cbn [bind]. fc_simpl.
  rewrite Hed. cbn [bind attr]. rewrite py_div_ok by assumption.
  reflexivity.
Qed.

Lemma albini_live_ext_value_witness :
  FuelComplex.calcLivingExtMoisture_Albini
    (FuelComplex.setFuelParams LIVE ONEHR (fuel_of AlbiniFuel 1500 0.023)
       (FuelComplex.setFuelParams DEAD ONEHR
          (Fuel.setFuelMoisture 0.06 None (fuel_of AlbiniFuel 3500 0.034))
          (nffl1_complex AlbiniFuel)))
  = Ok (FuelComplex.setExtMoisture LIVE
          (2.9
           * wPrime_of
               [(ONEHR,
                 Fuel.setFuelMoisture 0.06 None
                   (fuel_of AlbiniFuel 3500 0.034))]
               [(ONEHR, fuel_of AlbiniFuel 1500 0.023)]
           * (1 - mPrime_of
                    [(ONEHR,
                      Fuel.setFuelMoisture 0.06 None
                        (fuel_of AlbiniFuel 3500 0.034))] / 0.12)
           - 0.226)
          (FuelComplex.with_mPrime
             (Some (mPrime_of
                      [(ONEHR,
                        Fuel.setFuelMoisture 0.06 None
                          (fuel_of AlbiniFuel 3500 0.034))]))
             (FuelComplex.with_wPrime
                (Some (wPrime_of
                         [(ONEHR,
                           Fuel.setFuelMoisture 0.06 None
                             (fuel_of AlbiniFuel 3500 0.034))]
                         [(ONEHR, fuel_of AlbiniFuel 1500 0.023)]))
                (FuelComplex.setFuelParams LIVE ONEHR
                   (fuel_of AlbiniFuel 1500 0.023)
                   (FuelComplex.setFuelParams DEAD ONEHR
                      (Fuel.setFuelMoisture 0.06 None
                         (fuel_of AlbiniFuel 3500 0.034))
                      (nffl1_complex AlbiniFuel)))))).
Proof.
  apply (albini_live_ext_value _ _ _ (fuel_of AlbiniFuel 1500 0.023) 0.023
           0.12).
  - reflexivity.
  - reflexivity.
  - reflexivity.
  - reflexivity.
  - lra.
  - constructor; [|constructor]. apply dead_fuel_of; lra.
  - constructor; [|constructor]. apply live_fuel_of; lra.
  - unfold total_loading, loading_value.
    cbn [dict_values map snd Rsum fold_right Fuel.ovendryLoading
         Fuel.setFuelMoisture fuel_of].
    lra.
  - reflexivity.
  - lra.
Defined.
